(** * ldc-shop: order fulfilment and refund compensation

    A shallow embedding of [processOrderFulfillment]
    (src/lib/order-processing.ts) and [markOrderRefunded] (the refund
    server actions), together with the properties of the order / card
    life cycle that the specification states about them.

    Conventions of the embedding:
    - a table is the list of its rows, in the order the scan of the call
      at hand visits them; an UPDATE keeps a row at its place in the
      list, which stands for the row's identity, and the properties
      about several calls do not depend on the place a row has in the
      scan of a later call;
    - a JavaScript [number] is an IEEE-754 binary64 value ([float]);
    - a timestamp is a number of milliseconds ([Z]);
    - a nullable column is an [option];
    - the database is PostgreSQL, as the code says of itself: a statement
      that raises leaves the tables as they were and aborts the
      transaction it belongs to, every later statement of that
      transaction is refused, and the transaction commits nothing, whether
      its callback raises or returns;
    - calls run one at a time. *)

From Stdlib Require Import ZArith String Ascii List Bool Lia.
From Stdlib Require Import PrimFloat SpecFloat FloatOps.
Import ListNotations.

Local Open Scope string_scope.
Local Open Scope list_scope.
Local Open Scope Z_scope.

(* ------------------------------------------------------------------ *)
(** * The JavaScript built-ins the code relies on *)

Module Js.

(** [!!s] for a value of type [string | null | undefined]: the empty
    string is falsy, like [null] and [undefined]. *)
Definition truthy (s : option string) : bool :=
  match s with
  | Some EmptyString => false
  | Some _ => true
  | None => false
  end.

(** [!!n] for [number | null]; [0] is falsy. *)
Definition truthyNum (n : option Z) : bool :=
  match n with
  | Some 0 => false
  | Some _ => true
  | None => false
  end.

(** [hay.includes(needle)] *)
Fixpoint includes (needle hay : string) : bool :=
  String.prefix needle hay ||
  match hay with
  | EmptyString => false
  | String _ rest => includes needle rest
  end.

(** ** [parseFloat]

    Leading white space is skipped, then the longest prefix that is a
    [StrDecimalLiteral] is read: an optional sign, then [Infinity], or
    digits with an optional fraction and an optional exponent.  The
    decimal value is rounded to the nearest binary64 (ties to even);
    the result is [NaN] when no such prefix exists. *)

Definition isWhiteSpace (c : ascii) : bool :=
  let n := Z.of_N (N_of_ascii c) in
  (n =? 32) || ((9 <=? n) && (n <=? 13)).

Definition digitOf (c : ascii) : option Z :=
  let n := Z.of_N (N_of_ascii c) in
  if (48 <=? n) && (n <=? 57) then Some (n - 48) else None.

Fixpoint skipWhiteSpace (s : string) : string :=
  match s with
  | String c rest => if isWhiteSpace c then skipWhiteSpace rest else s
  | EmptyString => s
  end.

(** Reads a run of decimal digits on top of the accumulator [acc];
    returns the accumulated number, how many digits were read, and
    what follows them. *)
Fixpoint readDigits (s : string) (acc count : Z) : Z * Z * string :=
  match s with
  | String c rest =>
      match digitOf c with
      | Some d => readDigits rest (10 * acc + d) (count + 1)
      | None => (acc, count, s)
      end
  | EmptyString => (acc, count, s)
  end.

Definition readSign (s : string) : bool * string :=
  match s with
  | String "-" rest => (true, rest)
  | String "+" rest => (false, rest)
  | _ => (false, s)
  end.

(** The exponent part counts only when at least one digit follows. *)
Definition readExponent (s : string) : Z :=
  match s with
  | String c rest =>
      if (Ascii.eqb c "e" || Ascii.eqb c "E")%bool then
        let '(neg, rest') := readSign rest in
        let '(e, n, _) := readDigits rest' 0 0 in
        if n =? 0 then 0 else if neg then - e else e
      else 0
  | EmptyString => 0
  end.

(** [(-1)^neg * m * 10^e10], correctly rounded. *)
Definition decimalToFloat (neg : bool) (m e10 : Z) : float :=
  SF2Prim
    match m with
    | Zpos p =>
        if 0 <=? e10
        then binary_normalize prec emax
               (if neg then - (m * 10 ^ e10) else m * 10 ^ e10) 0 false
        else SFdiv prec emax (S754_finite neg p 0)
               (S754_finite false (Z.to_pos (10 ^ (- e10))) 0)
    | _ => S754_zero neg
    end.

Definition parseFloat (input : string) : float :=
  let '(neg, s) := readSign (skipWhiteSpace input) in
  if String.prefix "Infinity" s
  then (if neg then neg_infinity else infinity)
  else
    let '(ip, ni, s1) := readDigits s 0 0 in
    let '(m, nf, s2) :=
      match s1 with
      | String "." rest => readDigits rest ip 0
      | _ => (ip, 0, s1)
      end in
    if ni + nf =? 0 then nan
    else decimalToFloat neg m (readExponent s2 - nf).

(** ASCII part of [String.prototype.toLowerCase]. *)
Definition lowerChar (c : ascii) : ascii :=
  let n := N_of_ascii c in
  if ((65 <=? n) && (n <=? 90))%N then ascii_of_N (n + 32) else c.

Fixpoint toLowerCase (s : string) : string :=
  match s with
  | String c rest => String (lowerChar c) (toLowerCase rest)
  | EmptyString => EmptyString
  end.

(** [s.split(',')]: the pieces between the commas, never empty as a
    list. *)
Fixpoint splitComma (s : string) : list string :=
  match s with
  | EmptyString => [EmptyString]
  | String c rest =>
      if Ascii.eqb c ","
      then EmptyString :: splitComma rest
      else match splitComma rest with
           | piece :: more => String c piece :: more
           | [] => [String c EmptyString]
           end
  end.

(** [xs.includes(x)] on an array of strings. *)
Definition arrayIncludes (x : string) (xs : list string) : bool :=
  existsb (String.eqb x) xs.

(** A text written with ['] where it has a double quote. *)
Fixpoint withQuotes (s : string) : string :=
  match s with
  | String c rest =>
      String (if Ascii.eqb c "'" then ascii_of_N 34 else c) (withQuotes rest)
  | EmptyString => EmptyString
  end.

End Js.

(* ------------------------------------------------------------------ *)
(** * Data model *)

(** Modelled from the spec: the schema module (lib/db/schema) is not part
    of the sources; the five order states are those of the data model. *)
Inductive OrderStatus : Set :=
  | pending | paid | delivered | cancelled | refunded.

(** A row of [orders].  [amount] is a decimal column, which the driver
    hands over as a string. *)
Record Order : Set := mkOrder {
  orderId : string;
  productId : string;
  amount : string;
  status : OrderStatus;
  tradeNo : option string;
  cardKey : option string;
  userId : option string;
  pointsUsed : option Z;
  paidAt : option Z;
  deliveredAt : option Z
}.

(** A row of [cards], under its column names. *)
Record Card : Set := mkCard {
  id : Z;
  product_id : string;
  card_key : string;
  is_used : option bool;
  used_at : option Z;
  reserved_order_id : option string;
  reserved_at : option Z
}.

(** A row of [loginUsers]. *)
Record LoginUser : Set := mkLoginUser {
  user_id : string;
  points : Z
}.

(** A row of [refundRequests]. *)
Record RefundRequest : Set := mkRefundRequest {
  rr_orderId : string;
  rr_status : string;
  processedAt : option Z;
  updatedAt : option Z
}.

Record Db : Set := mkDb {
  orders : list Order;
  cards : list Card;
  loginUsers : list LoginUser;
  refundRequests : list RefundRequest
}.

(** What the driver raises when a statement fails: the [message] of the
    error object and its [JSON.stringify] image. *)
Record DbError : Set := mkDbError {
  message : option string;
  json : string
}.

Record SessionUser : Set := mkSessionUser {
  username : option string
}.

(** The writing statements of the two operations, each inside the
    transaction of its operation. *)
Inductive Statement : Set :=
  | ReservedClaim   (* order-processing.ts, lines 30-38 *)
  | OfferClaim      (* order-processing.ts, lines 58-74 *)
  | LegacyClaim     (* order-processing.ts, lines 79-90 *)
  | OrderSettle     (* order-processing.ts, lines 99-107 or 111-113 *)
  | PointsCredit    (* refund, lines 52-54 *)
  | OrderRefund     (* refund, line 58 *)
  | CardReturn      (* refund, lines 63-64 *)
  | RequestUpdate.  (* refund, lines 72-73 *)

(** Everything a call reads from outside the tables.  [fault] is what
    the database raises on a statement for a reason of its own (a
    missing column or table, a lost connection), if anything; reads are
    taken to succeed. *)
Record Env : Set := mkEnv {
  now : Z;                              (* [new Date()] *)
  sqlNow : Z;                           (* [NOW()] *)
  session : option SessionUser;         (* [(await auth())?.user] *)
  ADMIN_USERS : option string;          (* [process.env.ADMIN_USERS] *)
  fault : Statement -> option DbError
}.

Inductive Error : Set :=
  | OrderNotFound (orderId : string)
  | AmountMismatch (orderMoney paidAmount : float)
  | Unauthorized
  | DbFailure (e : DbError).

Inductive Result (A : Type) : Type :=
  | Ok (a : A)
  | Err (e : Error).
Arguments Ok {A} a.
Arguments Err {A} e.

(* ------------------------------------------------------------------ *)
(** * Database access as a state-and-exception monad *)

(** A computation over a state [S] that may raise. *)
Definition Run (S A : Type) : Type := S -> S * Result A.

Definition ret {S A} (a : A) : Run S A := fun s => (s, Ok a).

Definition throw {S A} (e : Error) : Run S A := fun s => (s, Err e).

Definition bind {S A B} (m : Run S A) (k : A -> Run S B) : Run S B :=
  fun s =>
    match m s with
    | (s', Ok a) => k a s'
    | (s', Err e) => (s', Err e)
    end.

Notation "x <- m ;; k" := (bind m (fun x => k))
  (at level 61, m at next level, right associativity).
Notation "m ;;; k" := (bind m (fun _ => k))
  (at level 61, right associativity).

(** [try { body } catch (e) { handler e }] *)
Definition tryCatch {S A} (body : Run S A) (handler : Error -> Run S A)
  : Run S A :=
  fun s =>
    match body s with
    | (s', Ok a) => (s', Ok a)
    | (s', Err e) => handler e s'
    end.

(** Outside a transaction the state is the tables. *)
Definition Tx (A : Type) : Type := Run Db A.

(** Inside a transaction the state is the tables as the transaction
    sees them, and whether a failed statement has aborted it. *)
Record Session : Set := mkSession {
  tables : Db;
  aborted : bool
}.

Definition InTx (A : Type) : Type := Run Session A.

(** What PostgreSQL answers to a statement of an aborted transaction
    (SQLSTATE 25P02). *)
Definition inFailedTransaction : DbError :=
  mkDbError
    (Some ("current transaction is aborted, " ++
           "commands ignored until end of transaction block")%string)
    (Js.withQuotes "{'severity':'ERROR','code':'25P02'}").

(** A statement sent inside a transaction.  It is refused once an
    earlier statement of the transaction has failed; when it fails, for
    the reason [fault] of the environment or for one of its own, it
    writes nothing and leaves the transaction aborted. *)
Definition exec {A} (fault : option DbError) (stmt : Tx A) : InTx A :=
  fun s =>
    if aborted s then (s, Err (DbFailure inFailedTransaction))
    else
      match fault with
      | Some e => (mkSession (tables s) true, Err (DbFailure e))
      | None =>
          match stmt (tables s) with
          | (db', Ok a) => (mkSession db' false, Ok a)
          | (_, Err e) => (mkSession (tables s) true, Err e)
          end
      end.

(** [db.transaction(body)]: roll back to the state at entry when the
    callback throws, commit when it returns; the [COMMIT] of an aborted
    transaction is answered as a [ROLLBACK], without an error. *)
Definition transaction {A} (body : InTx A) : Tx A :=
  fun db =>
    match body (mkSession db false) with
    | (s, Ok a) => if aborted s then (db, Ok a) else (tables s, Ok a)
    | (_, Err e) => (db, Err e)
    end.

(** ** Statements *)

(** [UPDATE t SET f WHERE p]: every row that satisfies [p], in place. *)
Definition updateWhere {A} (p : A -> bool) (f : A -> A) (rows : list A)
  : list A :=
  map (fun r => if p r then f r else r) rows.

(** The rows an [UPDATE ... RETURNING] hands back, in scan order. *)
Definition returning {A} (p : A -> bool) (f : A -> A) (rows : list A)
  : list A :=
  map f (filter p rows).

(** [query.t.findFirst({ where: p })] *)
Definition findFirst {A} (p : A -> bool) (rows : list A) : option A :=
  find p rows.

(** [rows[0]?.card_key] *)
Definition firstCardKey (rows : list Card) : option string :=
  match rows with
  | r :: _ => Some (card_key r)
  | [] => None
  end.

Definition setOrders (f : list Order -> list Order) : Tx unit :=
  fun db => (mkDb (f (orders db)) (cards db) (loginUsers db)
               (refundRequests db), Ok tt).

Definition setLoginUsers (f : list LoginUser -> list LoginUser) : Tx unit :=
  fun db => (mkDb (orders db) (cards db) (f (loginUsers db))
               (refundRequests db), Ok tt).

Definition setRefundRequests
  (f : list RefundRequest -> list RefundRequest) : Tx unit :=
  fun db => (mkDb (orders db) (cards db) (loginUsers db)
               (f (refundRequests db)), Ok tt).

(** An [UPDATE cards ... RETURNING card_key]. *)
Definition updateCardsReturning (p : Card -> bool) (f : Card -> Card)
  : Tx (list Card) :=
  fun db => (mkDb (orders db) (updateWhere p f (cards db)) (loginUsers db)
               (refundRequests db),
             Ok (returning p f (cards db))).

Definition hasOrderId (oid : string) (o : Order) : bool :=
  String.eqb (orderId o) oid.

Definition findOrder (oid : string) : Tx (option Order) :=
  fun db => (db, Ok (findFirst (hasOrderId oid) (orders db))).

Definition setCards (f : list Card -> list Card) : Tx unit :=
  fun db => (mkDb (orders db) (f (cards db)) (loginUsers db)
               (refundRequests db), Ok tt).

(** [eq(column, value)]: a comparison with [NULL] selects nothing. *)
Definition sqlEq (column : string) (value : option string) : bool :=
  match value with
  | Some v => String.eqb column v
  | None => false
  end.

(** What both entry points answer: [{ success, status? }]. *)
Inductive FulfillStatus : Set := processed | already_processed.

Record Response : Set := mkResponse {
  success : bool;
  outcome : option FulfillStatus
}.

(* ------------------------------------------------------------------ *)
(** * [processOrderFulfillment] (order-processing.ts) *)

(** The literal [0.01]. *)
Definition epsilon : float := 0x1.47ae147ae147bp-7%float.

(** [Math.abs(paidAmount - orderMoney) > 0.01] *)
Definition amountMismatch (paidAmount orderMoney : float) : bool :=
  PrimFloat.ltb epsilon (PrimFloat.abs (paidAmount - orderMoney)).

(** [COALESCE(is_used, false) = false] *)
Definition unused (c : Card) : bool :=
  negb match is_used c with Some b => b | None => false end.

(** [reserved_order_id = ${orderId} AND COALESCE(is_used, false) = false] *)
Definition reservedFor (oid : string) (c : Card) : bool :=
  match reserved_order_id c with
  | Some r => String.eqb r oid
  | None => false
  end && unused c.

(** [SET is_used = true, used_at = NOW(), reserved_order_id = NULL,
    reserved_at = NULL] *)
Definition markUsed (t : Z) (c : Card) : Card :=
  mkCard (id c) (product_id c) (card_key c) (Some true) (Some t) None None.

(** [SET is_used = true, used_at = NOW()] *)
Definition markUsedLegacy (t : Z) (c : Card) : Card :=
  mkCard (id c) (product_id c) (card_key c) (Some true) (Some t)
    (reserved_order_id c) (reserved_at c).

(** [INTERVAL '1 minute'], in milliseconds. *)
Definition oneMinute : Z := 60000.

(** [product_id = ${order.productId} AND COALESCE(is_used, false) = false
    AND (reserved_at IS NULL OR reserved_at < NOW() - INTERVAL '1 minute')] *)
Definition claimable (pid : string) (t : Z) (c : Card) : bool :=
  String.eqb (product_id c) pid && unused c &&
  match reserved_at c with
  | None => true
  | Some r => r <? t - oneMinute
  end.

(** [product_id = ${order.productId} AND COALESCE(is_used, false) = false] *)
Definition claimableLegacy (pid : string) (c : Card) : bool :=
  String.eqb (product_id c) pid && unused c.

(** [WHERE id = (SELECT id FROM cards WHERE ... LIMIT 1)]: no row when
    the subquery is empty. *)
Definition hasSelectedId (selected : option Card) (c : Card) : bool :=
  match selected with
  | Some s => id c =? id s
  | None => false
  end.

(** [UPDATE cards SET ... WHERE id = (SELECT id ... LIMIT 1 FOR UPDATE
    SKIP LOCKED) RETURNING card_key], run on its own: no row is locked by
    anyone else, and the subquery yields the first row of the scan, the
    card table being listed in the order in which this call scans it. *)
Definition claimOne (eligible : Card -> bool) (f : Card -> Card)
  : Tx (list Card) :=
  fun db =>
    updateCardsReturning (hasSelectedId (findFirst eligible (cards db))) f db.

(** The test of the [catch] clause. *)
Definition isUndefinedColumn (e : DbError) : bool :=
  match message e with
  | Some m => Js.includes "reserved_order_id" m
  | None => false
  end ||
  match message e with
  | Some m => Js.includes "reserved_at" m
  | None => false
  end ||
  Js.includes "42703" (json e).

(** Lines 28-52: the claim of the reserved cards; answers [cardKey] and
    [supportsReservation]. *)
Definition claimReserved (env : Env) (oid : string)
  : InTx (option string * bool) :=
  tryCatch
    (reservedResult <-
       exec (fault env ReservedClaim)
         (updateCardsReturning (reservedFor oid) (markUsed (sqlNow env))) ;;
     ret (firstCardKey reservedResult, true))
    (fun error =>
       match error with
       | DbFailure e =>
           if isUndefinedColumn e then ret (None, false) else throw error
       | _ => throw error
       end).

(** Lines 25-94: the value of [cardKey] when the claim is over. *)
Definition claimCard (env : Env) (oid : string) (order : Order)
  : InTx (option string) :=
  r <- claimReserved env oid ;;
  let '(cardKey, supportsReservation) := r in
  if negb (Js.truthy cardKey) then
    if supportsReservation : bool then
      result <- exec (fault env OfferClaim)
                  (claimOne (claimable (productId order) (sqlNow env))
                     (markUsed (sqlNow env))) ;;
      ret (firstCardKey result)
    else
      result <- exec (fault env LegacyClaim)
                  (claimOne (claimableLegacy (productId order))
                     (markUsedLegacy (sqlNow env))) ;;
      ret (firstCardKey result)
  else ret cardKey.

(** [set({ status: 'delivered', paidAt, deliveredAt, tradeNo, cardKey })] *)
Definition deliver (env : Env) (trade : string) (key : option string)
  (o : Order) : Order :=
  mkOrder (orderId o) (productId o) (amount o) delivered (Some trade) key
    (userId o) (pointsUsed o) (Some (now env)) (Some (now env)).

(** [set({ status: 'paid', paidAt, tradeNo })] *)
Definition markPaid (env : Env) (trade : string) (o : Order) : Order :=
  mkOrder (orderId o) (productId o) (amount o) paid (Some trade) (cardKey o)
    (userId o) (pointsUsed o) (Some (now env)) (deliveredAt o).

(** Lines 23-116: the callback of the transaction. *)
Definition fulfillInTx (env : Env) (oid trade : string) (order : Order)
  : InTx unit :=
  key <- claimCard env oid order ;;
  if Js.truthy key
  then exec (fault env OrderSettle)
         (setOrders (updateWhere (hasOrderId oid) (deliver env trade key)))
  else exec (fault env OrderSettle)
         (setOrders (updateWhere (hasOrderId oid) (markPaid env trade))).

Definition processOrderFulfillment (env : Env) (oid : string)
  (paidAmount : float) (trade : string) : Tx Response :=
  found <- findOrder oid ;;
  match found with
  | None => throw (OrderNotFound oid)
  | Some order =>
      let orderMoney := Js.parseFloat (amount order) in
      if amountMismatch paidAmount orderMoney
      then throw (AmountMismatch orderMoney paidAmount)
      else
        match status order with
        | pending | cancelled =>
            transaction (fulfillInTx env oid trade order) ;;;
            ret (mkResponse true (Some processed))
        | _ => ret (mkResponse true (Some already_processed))
        end
  end.

(* ------------------------------------------------------------------ *)
(** * [markOrderRefunded] (the refund actions) *)

(** Lines 38-44: the caller is a signed-in user whose lower-cased name
    is listed in [ADMIN_USERS]. *)
Definition isAdmin (env : Env) : bool :=
  let adminUsers :=
    match ADMIN_USERS env with
    | Some s => Js.splitComma (Js.toLowerCase s)
    | None => []
    end in
  match session env with
  | Some user =>
      match username user with
      | Some name =>
          Js.truthy (Some name) &&
          Js.arrayIncludes (Js.toLowerCase name) adminUsers
      | None => false
      end
  | None => false
  end.

(** [order.userId && order.pointsUsed && order.pointsUsed > 0] *)
Definition refundsPoints (o : Order) : bool :=
  Js.truthy (userId o) && Js.truthyNum (pointsUsed o) &&
  match pointsUsed o with
  | Some p => 0 <? p
  | None => false
  end.

(** [set({ points: sql`points + pointsUsed` })] *)
Definition creditPoints (p : option Z) (u : LoginUser) : LoginUser :=
  mkLoginUser (user_id u)
    (points u + match p with Some n => n | None => 0 end).

(** Modelled from the spec: the schema module is not part of the
    sources; the data model gives [points] as an integer, in PostgreSQL
    a 32-bit column. *)
Definition fitsInteger (n : Z) : bool :=
  (- 2147483648 <=? n) && (n <=? 2147483647).

(** What PostgreSQL raises when a sum leaves the range of its column
    (SQLSTATE 22003). *)
Definition integerOutOfRange : DbError :=
  mkDbError (Some "integer out of range")
    (Js.withQuotes "{'severity':'ERROR','code':'22003'}").

(** [eq(loginUsers.userId, order.userId)] *)
Definition isUserOf (o : Order) (u : LoginUser) : bool :=
  sqlEq (user_id u) (userId o).

(** The credit leaves no balance of the order's user outside the range
    of the column. *)
Definition creditFits (o : Order) (us : list LoginUser) : bool :=
  forallb (fun u => negb (isUserOf o u) ||
                    fitsInteger (points (creditPoints (pointsUsed o) u))) us.

(** Lines 52-54: the statement fails as a whole when one of the sums
    does not fit. *)
Definition creditUsers (order : Order) : Tx unit :=
  fun db =>
    if creditFits order (loginUsers db)
    then setLoginUsers
           (updateWhere (isUserOf order) (creditPoints (pointsUsed order))) db
    else (db, Err (DbFailure integerOutOfRange)).

(** [set({ status: 'refunded' })] *)
Definition refundOrder (o : Order) : Order :=
  mkOrder (orderId o) (productId o) (amount o) refunded (tradeNo o)
    (cardKey o) (userId o) (pointsUsed o) (paidAt o) (deliveredAt o).

(** [set({ isUsed: false, usedAt: null })] *)
Definition returnCard (c : Card) : Card :=
  mkCard (id c) (product_id c) (card_key c) (Some false) None
    (reserved_order_id c) (reserved_at c).

(** [and(eq(cards.productId, order.productId),
        eq(cards.cardKey, order.cardKey))] *)
Definition isCardOf (o : Order) (c : Card) : bool :=
  String.eqb (product_id c) (productId o) && sqlEq (card_key c) (cardKey o).

(** [set({ status: 'processed', processedAt, updatedAt })] *)
Definition markProcessed (env : Env) (r : RefundRequest) : RefundRequest :=
  mkRefundRequest (rr_orderId r) "processed" (Some (now env))
    (Some (now env)).

(** Lines 46-77: the callback of the transaction. *)
Definition refundInTx (env : Env) (oid : string) : InTx unit :=
  found <- exec None (findOrder oid) ;;
  match found with
  | None => throw (OrderNotFound oid)
  | Some order =>
      (if refundsPoints order
       then exec (fault env PointsCredit) (creditUsers order)
       else ret tt) ;;;
      exec (fault env OrderRefund)
        (setOrders (updateWhere (hasOrderId oid) refundOrder)) ;;;
      (if Js.truthy (cardKey order)
       then tryCatch
              (exec (fault env CardReturn)
                 (setCards (updateWhere (isCardOf order) returnCard)))
              (fun _ => ret tt)
       else ret tt) ;;;
      tryCatch
        (exec (fault env RequestUpdate)
           (setRefundRequests
              (updateWhere (fun r => String.eqb (rr_orderId r) oid)
                 (markProcessed env))))
        (fun _ => ret tt)
  end.

(** The three [revalidatePath] calls after the transaction touch no
    table and are left out. *)
Definition markOrderRefunded (env : Env) (oid : string) : Tx Response :=
  if negb (isAdmin env) then throw Unauthorized
  else
    transaction (refundInTx env oid) ;;;
    ret (mkResponse true None).

(* ------------------------------------------------------------------ *)
(** * Sample data *)

Module Sample.

(** An administrator's call; the application clock and the database
    clock are read separately. *)
Definition admin : Env :=
  mkEnv 100500 100000 (Some (mkSessionUser (Some "Admin")))
    (Some "root,admin") (fun _ => None).

(** The same caller, much later. *)
Definition adminLater : Env :=
  mkEnv 200500 200000 (Some (mkSessionUser (Some "Admin")))
    (Some "root,admin") (fun _ => None).

(** A call against a schema without reservation columns. *)
Definition adminLegacy : Env :=
  mkEnv 100500 100000 (Some (mkSessionUser (Some "Admin")))
    (Some "root,admin")
    (fun s =>
       match s with
       | ReservedClaim =>
           Some (mkDbError (Some "column reserved_order_id does not exist")
                   (Js.withQuotes "{'severity':'ERROR','code':'42703'}"))
       | _ => None
       end).

(** An administrator's call against a database without the table of
    refund requests. *)
Definition adminFaulty : Env :=
  mkEnv 100500 100000 (Some (mkSessionUser (Some "Admin")))
    (Some "root,admin")
    (fun s =>
       match s with
       | RequestUpdate =>
           Some (mkDbError (Some "relation refund_requests does not exist")
                   (Js.withQuotes "{'severity':'ERROR','code':'42P01'}"))
       | _ => None
       end).

Definition orderO : Order :=
  mkOrder "O" "P" "9.99" pending None None (Some "u1") (Some 5) None None.

Definition orderO2 : Order :=
  mkOrder "O2" "P" "9.99" pending None None None None None None.

Definition cardK1 : Card := mkCard 1 "P" "K1" (Some false) None None None.

Definition db : Db :=
  mkDb [orderO] [cardK1] [mkLoginUser "u1" 10] [].

(** [orderO] once [cardK1] has been delivered to it. *)
Definition deliveredO : Order :=
  mkOrder "O" "P" "9.99" delivered (Some "T1") (Some "K1") (Some "u1")
    (Some 5) (Some 100500) (Some 100500).

Definition usedK1 : Card :=
  mkCard 1 "P" "K1" (Some true) (Some 100000) None None.

Definition dbDelivered : Db :=
  mkDb [deliveredO] [usedK1] [mkLoginUser "u1" 10] [].

(** [dbDelivered] after the card row has been deleted. *)
Definition dbCardGone : Db :=
  mkDb [deliveredO] [] [mkLoginUser "u1" 10]
    [mkRefundRequest "O" "pending" None None].

(** Two cards reserved for order O: one of another product, reserved ten
    milliseconds before [admin]'s call, and one of O's product, reserved
    long before. *)
Definition reservedK2 : Card :=
  mkCard 2 "Q" "K2" None None (Some "O") (Some 99990).

Definition reservedK3 : Card :=
  mkCard 3 "P" "K3" (Some false) None (Some "O") (Some 10).

Definition dbReserved : Db :=
  mkDb [orderO] [reservedK2; reservedK3; cardK1] [mkLoginUser "u1" 10] [].

(** A card of product P reserved for order O, ten milliseconds before
    [admin]'s call, in front of a free one; O2 is another order of P. *)
Definition reservedK4 : Card :=
  mkCard 4 "P" "K4" None None (Some "O") (Some 99990).

Definition dbTwoOrders : Db :=
  mkDb [orderO; orderO2] [reservedK4; cardK1] [mkLoginUser "u1" 10] [].

End Sample.

(* ------------------------------------------------------------------ *)
(** * Derived notions used to state the properties *)

(** No statement of the call fails for a reason of the environment. *)
Definition quiet (env : Env) : Prop := forall s, fault env s = None.

(** The card table and the value of [cardKey] after a claim whose
    statements run, as a function of the card table before it. *)
Definition claimOutcome (env : Env) (oid pid : string) (cs : list Card)
  : list Card * option string :=
  let t := sqlNow env in
  let key := firstCardKey (returning (reservedFor oid) (markUsed t) cs) in
  let cs1 := updateWhere (reservedFor oid) (markUsed t) cs in
  if Js.truthy key then (cs1, key)
  else
    let sel := hasSelectedId (findFirst (claimable pid t) cs1) in
    (updateWhere sel (markUsed t) cs1,
     firstCardKey (returning sel (markUsed t) cs1)).

(** The order row after a successful fulfilment. *)
Definition settle (env : Env) (trade : string) (key : option string)
  : Order -> Order :=
  if Js.truthy key then deliver env trade key else markPaid env trade.

(** The tables after a fulfilment of order row [o] whose statements
    run. *)
Definition fulfilled (env : Env) (oid trade : string) (o : Order) (db : Db)
  : Db :=
  mkDb
    (updateWhere (hasOrderId oid)
       (settle env trade (snd (claimOutcome env oid (productId o) (cards db))))
       (orders db))
    (fst (claimOutcome env oid (productId o) (cards db)))
    (loginUsers db) (refundRequests db).

(** The cards a call for order [oid] of product [pid] may take: those
    reserved for the order and those the product offers to anyone. *)
Definition eligible (env : Env) (oid pid : string) (c : Card) : bool :=
  reservedFor oid c || claimable pid (sqlNow env) c.

(** The order row [o'] has been delivered a card: it is [delivered],
    stamped, and carries the key of a card that table [cs] holds as used
    since this call. *)
Definition deliveredWith (env : Env) (trade : string) (cs : list Card)
  (o' : Order) : Prop :=
  status o' = delivered /\
  (exists k c, cardKey o' = Some k /\ k <> EmptyString /\
               In c cs /\ card_key c = k /\
               is_used c = Some true /\ used_at c = Some (sqlNow env)) /\
  paidAt o' = Some (now env) /\
  deliveredAt o' = Some (now env) /\
  tradeNo o' = Some trade.

(** The order row [o'] is [o] marked as paid, its [cardKey] left as it
    was. *)
Definition paidWithout (env : Env) (trade : string) (o o' : Order) : Prop :=
  status o' = paid /\
  cardKey o' = cardKey o /\
  paidAt o' = Some (now env) /\
  tradeNo o' = Some trade.

(** The three tables a refund of order row [o] rewrites, as functions of
    their contents before the call, when the refund commits. *)
Definition refundedUsers (o : Order) (us : list LoginUser) : list LoginUser :=
  if refundsPoints o
  then updateWhere (isUserOf o) (creditPoints (pointsUsed o)) us
  else us.

Definition refundedCards (o : Order) (cs : list Card) : list Card :=
  if Js.truthy (cardKey o)
  then updateWhere (isCardOf o) returnCard cs
  else cs.

Definition refundedRequests (env : Env) (oid : string)
  (rs : list RefundRequest) : list RefundRequest :=
  updateWhere (fun r => String.eqb (rr_orderId r) oid) (markProcessed env) rs.

(** The tables after a refund of order row [o] that commits. *)
Definition refundedDb (env : Env) (oid : string) (o : Order) (db : Db) : Db :=
  mkDb (updateWhere (hasOrderId oid) refundOrder (orders db))
    (refundedCards o (cards db))
    (refundedUsers o (loginUsers db))
    (refundedRequests env oid (refundRequests db)).

(** The error, if any, of the credit of a refund of order row [o]. *)
Definition creditError (env : Env) (o : Order) (us : list LoginUser)
  : option DbError :=
  if refundsPoints o then
    match fault env PointsCredit with
    | Some e => Some e
    | None => if creditFits o us then None else Some integerOutOfRange
    end
  else None.

(** The error, if any, of the two statements a refund cannot do
    without: the credit and the status. *)
Definition refundError (env : Env) (o : Order) (us : list LoginUser)
  : option DbError :=
  match creditError env o us with
  | Some e => Some e
  | None => fault env OrderRefund
  end.

(** One of the two statements whose failure a refund swallows, the
    return of the card and the update of the refund requests, fails. *)
Definition refundSpoiled (env : Env) (o : Order) : bool :=
  (Js.truthy (cardKey o) &&
   match fault env CardReturn with Some _ => true | None => false end) ||
  match fault env RequestUpdate with Some _ => true | None => false end.

(** The invariant of the data model: a card key exactly on delivered
    orders. *)
Definition keyIffDelivered (o : Order) : Prop :=
  cardKey o <> None <-> status o = delivered.

(** What survives a refund: a delivered order has a key, and a key is
    only found on an order that is, or was, delivered. *)
Definition deliveredHasKey (o : Order) : Prop :=
  (status o = delivered -> cardKey o <> None) /\
  (cardKey o <> None -> status o = delivered \/ status o = refunded).

(** [orderId] is the key of [orders]. *)
Definition uniqueOrderIds (db : Db) : Prop :=
  NoDup (map orderId (orders db)).

(** [id] is the key of [cards]. *)
Definition uniqueCardIds (cs : list Card) : Prop :=
  NoDup (map id cs).

(** One call of either operation, with any arguments, in any
    environment, whatever it answers. *)
Inductive step (db : Db) : Db -> Prop :=
  | step_fulfill (env : Env) (oid : string) (paidAmount : float)
      (trade : string) :
      step db (fst (processOrderFulfillment env oid paidAmount trade db))
  | step_compensate (env : Env) (oid : string) :
      step db (fst (markOrderRefunded env oid db)).

Inductive reachable (db : Db) : Db -> Prop :=
  | reach_here : reachable db db
  | reach_step (db1 db2 : Db) :
      reachable db db1 -> step db1 db2 -> reachable db db2.

From Stdlib Require Import FloatAxioms DecimalString Permutation.

(* ------------------------------------------------------------------ *)
(** * More JavaScript built-ins: [Number], [toFixed], [slice] *)

Module JsMore.

(** [s.trimEnd()], for the white space that [Js.isWhiteSpace] knows. *)
Fixpoint trimEnd (s : string) : string :=
  match s with
  | EmptyString => EmptyString
  | String c rest =>
      match trimEnd rest with
      | EmptyString =>
          if Js.isWhiteSpace c then EmptyString else String c EmptyString
      | rest' => String c rest'
      end
  end.

(** An exponent part and what follows it; nothing is consumed when no
    digit follows the [e]. *)
Definition readExponentRest (s : string) : Z * string :=
  match s with
  | String c rest =>
      if (Ascii.eqb c "e" || Ascii.eqb c "E")%bool then
        let '(neg, rest') := Js.readSign rest in
        let '(e, n, rest'') := Js.readDigits rest' 0 0 in
        if n =? 0 then (0, s) else (if neg then - e else e, rest'')
      else (0, s)
  | EmptyString => (0, s)
  end.

(** The value of a digit or letter as a digit of the given radix. *)
Definition digitIn (radix : Z) (c : ascii) : option Z :=
  let n := Z.of_N (N_of_ascii c) in
  let v := if (48 <=? n) && (n <=? 57) then n - 48
           else if (97 <=? n) && (n <=? 102) then n - 87
           else if (65 <=? n) && (n <=? 70) then n - 55
           else radix in
  if v <? radix then Some v else None.

(** A string made of digits of the radix only, as a number. *)
Fixpoint readRadix (radix : Z) (s : string) (acc : Z) : option Z :=
  match s with
  | EmptyString => Some acc
  | String c rest =>
      match digitIn radix c with
      | Some d => readRadix radix rest (radix * acc + d)
      | None => None
      end
  end.

Definition radixOf (c : ascii) : option Z :=
  if (Ascii.eqb c "x" || Ascii.eqb c "X")%bool then Some 16
  else if (Ascii.eqb c "o" || Ascii.eqb c "O")%bool then Some 8
  else if (Ascii.eqb c "b" || Ascii.eqb c "B")%bool then Some 2
  else None.

(** [0x], [0o] and [0b] literals: a prefix and at least one digit. *)
Definition nonDecimal (s : string) : option float :=
  match s with
  | String "0" (String p (String c rest)) =>
      match radixOf p with
      | Some radix =>
          match readRadix radix (String c rest) 0 with
          | Some v => Some (SF2Prim (binary_normalize prec emax v 0 false))
          | None => None
          end
      | None => None
      end
  | _ => None
  end.

(** [Number(s)] for a string: white space is trimmed at both ends; the
    empty string is [0]; otherwise the whole of what is left must be a
    numeric literal, or the result is [NaN]. *)
Definition Number (input : string) : float :=
  match trimEnd (Js.skipWhiteSpace input) with
  | EmptyString => zero
  | s =>
      match nonDecimal s with
      | Some v => v
      | None =>
          let '(neg, s0) := Js.readSign s in
          if String.eqb s0 "Infinity"
          then (if neg then neg_infinity else infinity)
          else
            let '(ip, ni, s1) := Js.readDigits s0 0 0 in
            let '(m, nf, s2) :=
              match s1 with
              | String "." rest => Js.readDigits rest ip 0
              | _ => (ip, 0, s1)
              end in
            if ni + nf =? 0 then nan
            else
              let '(e, s3) := readExponentRest s2 in
              match s3 with
              | EmptyString => Js.decimalToFloat neg m (e - nf)
              | _ => nan
              end
      end
  end.

(** The decimal digits of a natural number, ["0"] for zero. *)
Definition digits (n : Z) : string :=
  DecimalString.NilZero.string_of_uint (N.to_uint (Z.to_N n)).

Fixpoint zeros (n : nat) : string :=
  match n with
  | O => EmptyString
  | S n' => String "0" (zeros n')
  end.

(** [n / 10^f] written with [f] digits after the point. *)
Definition formatFixed (n : Z) (f : nat) : string :=
  let m := digits n in
  match f with
  | O => m
  | _ =>
      let m' := (zeros (S f - String.length m) ++ m)%string in
      let k := String.length m' in
      (String.substring 0 (k - f) m' ++ "." ++
       String.substring (k - f) f m')%string
  end.

(** The integer nearest to [m * 2^e * 10^f], the larger one on a tie. *)
Definition nearestFixed (m e : Z) (f : nat) : Z :=
  let q := m * 10 ^ Z.of_nat f in
  if 0 <=? e then q * 2 ^ e
  else (2 * q + 2 ^ (- e)) / (2 * 2 ^ (- e)).

(** [Number::toString] of the integer [x >= 10^21] that the binary64
    value [v] stands for: the fewest digits [s] (then the closest, then
    the even ones) such that [s * 10^(n-k)] reads back as [v], in
    exponent notation. *)
Definition readsBack (v : float) (s j : Z) : bool :=
  PrimFloat.eqb (Js.decimalToFloat false s j) v.

Definition exponentForm (s n : Z) : string :=
  match digits s with
  | String d EmptyString => String d ("e+" ++ digits (n - 1))%string
  | String d rest =>
      String d ("." ++ rest ++ "e+" ++ digits (n - 1))%string
  | EmptyString => EmptyString
  end.

Definition shortestAt (v : float) (x d k : Z) : option (Z * Z) :=
  let j := d - k in
  let lo := x / 10 ^ j in
  let hi := lo + 1 in
  let okLo := (10 ^ (k - 1) <=? lo) && readsBack v lo j in
  let okHi := (hi <? 10 ^ k) && readsBack v hi j in
  let dLo := x - lo * 10 ^ j in
  let dHi := hi * 10 ^ j - x in
  if okLo && okHi then
    if dLo <? dHi then Some (lo, d)
    else if dHi <? dLo then Some (hi, d)
    else if Z.even lo then Some (lo, d) else Some (hi, d)
  else if okLo then Some (lo, d)
  else if okHi then Some (hi, d)
  else if (k =? 1) && readsBack v 1 d then Some (1, d + 1)
  else None.

Fixpoint shortestFrom (v : float) (x d k : Z) (fuel : nat) : Z * Z :=
  match fuel with
  | O => (x, d)
  | S fuel' =>
      match shortestAt v x d k with
      | Some r => r
      | None => shortestFrom v x d (k + 1) fuel'
      end
  end.

Definition largeToString (v : float) (x : Z) : string :=
  let d := Z.of_nat (String.length (digits x)) in
  let '(s, n) := shortestFrom v x d 1 (Z.to_nat d - 1) in
  exponentForm s n.

(** [x.toFixed(f)], for [0 <= f <= 100]. *)
Definition toFixed (x : float) (f : nat) : string :=
  match Prim2SF x with
  | S754_nan => "NaN"
  | S754_infinity s => if s then "-Infinity" else "Infinity"
  | S754_zero _ => formatFixed 0 f
  | S754_finite s m e =>
      let body :=
        if (0 <=? e) && (10 ^ 21 <=? Zpos m * 2 ^ e)
        then largeToString (PrimFloat.abs x) (Zpos m * 2 ^ e)
        else formatFixed (nearestFixed (Zpos m) e f) f in
      if s then String "-" body else body
  end.

(** [s.slice(0, n)] *)
Definition slice0 (n : nat) (s : string) : string := String.substring 0 n s.

End JsMore.

(* ------------------------------------------------------------------ *)
(** * [JSON.parse] *)

Module Json.

(** A parsed value.  A string is the list of its code units, since an
    escape can denote any of them. *)
#[warnings="-register-all"]
Inductive value : Set :=
  | Null
  | Bool (b : bool)
  | Num (x : float)
  | Str (s : list N)
  | Arr (xs : list value)
  | Obj (fields : list (list N * value)).

Inductive parsed (A : Type) : Type :=
  | Parsed (a : A) (rest : string)
  | Invalid
  | OutOfFuel.
Arguments Parsed {A} a rest.
Arguments Invalid {A}.
Arguments OutOfFuel {A}.

(** JSON white space: space, tab, line feed, carriage return. *)
Definition isWs (c : ascii) : bool :=
  let n := N_of_ascii c in
  ((n =? 32) || (n =? 9) || (n =? 10) || (n =? 13))%N.

Fixpoint skipWs (s : string) : string :=
  match s with
  | String c rest => if isWs c then skipWs rest else s
  | EmptyString => s
  end.

(** The double quote and the backslash. *)
Definition quote : ascii := ascii_of_N 34.
Definition backslash : ascii := ascii_of_N 92.

(** Writes a text with ['] where it has a double quote. *)
Fixpoint quoted (s : string) : string :=
  match s with
  | EmptyString => EmptyString
  | String c rest =>
      String (if Ascii.eqb c "'" then quote else c) (quoted rest)
  end.

Definition hexDigit (c : ascii) : option N :=
  match JsMore.digitIn 16 c with
  | Some d => Some (Z.to_N d)
  | None => None
  end.

(** The characters of a string literal, after its opening quote. *)
Fixpoint parseChars (s : string) (acc : list N) : parsed (list N) :=
  match s with
  | EmptyString => Invalid
  | String c rest =>
      if Ascii.eqb c quote then Parsed (rev acc) rest
      else if Ascii.eqb c backslash then
        match rest with
        | String e rest' =>
            if Ascii.eqb e "u" then
              match rest' with
              | String h1 (String h2 (String h3 (String h4 rest''))) =>
                  match hexDigit h1, hexDigit h2, hexDigit h3, hexDigit h4
                  with
                  | Some a, Some b, Some c', Some d =>
                      parseChars rest''
                        ((((a * 16 + b) * 16 + c') * 16 + d)%N :: acc)
                  | _, _, _, _ => Invalid
                  end
              | _ => Invalid
              end
            else
              match
                (if Ascii.eqb e quote then Some 34
                 else if Ascii.eqb e backslash then Some 92
                 else if Ascii.eqb e "/" then Some 47
                 else if Ascii.eqb e "b" then Some 8
                 else if Ascii.eqb e "f" then Some 12
                 else if Ascii.eqb e "n" then Some 10
                 else if Ascii.eqb e "r" then Some 13
                 else if Ascii.eqb e "t" then Some 9
                 else None)%N
              with
              | Some u => parseChars rest' (u :: acc)
              | None => Invalid
              end
        | EmptyString => Invalid
        end
      else if (N_of_ascii c <? 32)%N then Invalid
      else parseChars rest (N_of_ascii c :: acc)
  end.

(** What follows the character [c] when [s] starts with it. *)
Definition startsWith (c : ascii) (s : string) : option string :=
  match s with
  | String c' rest => if Ascii.eqb c' c then Some rest else None
  | EmptyString => None
  end.

(** What follows the prefix [p] in [s], when [s] starts with it. *)
Fixpoint stripPrefix (p s : string) : option string :=
  match p with
  | EmptyString => Some s
  | String a p' =>
      match s with
      | String b s' => if Ascii.eqb a b then stripPrefix p' s' else None
      | EmptyString => None
      end
  end.

(** The integer part of a number literal: [0], or digits that do not
    start with [0]. *)
Definition readInteger (s : string) : Z * Z * string :=
  match startsWith "0" s with
  | Some rest => (0, 1, rest)
  | None => Js.readDigits s 0 0
  end.

(** The optional fraction: a point and at least one digit. *)
Definition readFraction (ip : Z) (s : string) : option (Z * Z * string) :=
  match startsWith "." s with
  | Some rest =>
      let '(m, nf, rest') := Js.readDigits rest ip 0 in
      if nf =? 0 then None else Some (m, nf, rest')
  | None => Some (ip, 0, s)
  end.

(** The optional exponent: [e] or [E], an optional sign and at least one
    digit. *)
Definition readExponent (s : string) : option (Z * string) :=
  match s with
  | String c rest =>
      if (Ascii.eqb c "e" || Ascii.eqb c "E")%bool then
        let '(neg, rest') := Js.readSign rest in
        let '(e, n, rest'') := Js.readDigits rest' 0 0 in
        if n =? 0 then None else Some (if neg then - e else e, rest'')
      else Some (0, s)
  | EmptyString => Some (0, s)
  end.

(** A number literal: an optional minus sign, the integer part, the
    optional fraction and the optional exponent. *)
Definition parseNumber (s : string) : parsed value :=
  let '(neg, s0) :=
    match startsWith "-" s with
    | Some rest => (true, rest)
    | None => (false, s)
    end in
  let '(ip, ni, s1) := readInteger s0 in
  if ni =? 0 then Invalid
  else
    match readFraction ip s1 with
    | None => Invalid
    | Some (m, nf, s2) =>
        match readExponent s2 with
        | None => Invalid
        | Some (e, s3) => Parsed (Num (Js.decimalToFloat neg m (e - nf))) s3
        end
    end.

(** The literals [true], [false] and [null], or else a number. *)
Definition parseLiteral (s : string) : parsed value :=
  match stripPrefix "true" s with
  | Some rest => Parsed (Bool true) rest
  | None =>
      match stripPrefix "false" s with
      | Some rest => Parsed (Bool false) rest
      | None =>
          match stripPrefix "null" s with
          | Some rest => Parsed Null rest
          | None => parseNumber s
          end
      end
  end.

(** A value and what follows it; then the elements of an array after its
    opening bracket or a comma; then the members of an object after its
    opening brace or a comma.  Each call spends one unit of fuel;
    [parse] below provides enough of it. *)
Fixpoint parseValue (fuel : nat) (s : string) : parsed value :=
  match fuel with
  | O => OutOfFuel
  | S fuel' =>
      match skipWs s with
      | String c rest =>
          if Ascii.eqb c "{" then
            match startsWith "}" (skipWs rest) with
            | Some rest' => Parsed (Obj []) rest'
            | None => parseMembers fuel' rest []
            end
          else if Ascii.eqb c "[" then
            match startsWith "]" (skipWs rest) with
            | Some rest' => Parsed (Arr []) rest'
            | None => parseElements fuel' rest []
            end
          else if Ascii.eqb c quote then
            match parseChars rest [] with
            | Parsed u rest' => Parsed (Str u) rest'
            | Invalid => Invalid
            | OutOfFuel => OutOfFuel
            end
          else parseLiteral (String c rest)
      | EmptyString => Invalid
      end
  end

with parseElements (fuel : nat) (s : string) (acc : list value)
  : parsed value :=
  match fuel with
  | O => OutOfFuel
  | S fuel' =>
      match parseValue fuel' s with
      | Parsed v rest =>
          match skipWs rest with
          | String c rest' =>
              if Ascii.eqb c "," then parseElements fuel' rest' (v :: acc)
              else if Ascii.eqb c "]" then Parsed (Arr (rev (v :: acc))) rest'
              else Invalid
          | EmptyString => Invalid
          end
      | Invalid => Invalid
      | OutOfFuel => OutOfFuel
      end
  end

with parseMembers (fuel : nat) (s : string) (acc : list (list N * value))
  : parsed value :=
  match fuel with
  | O => OutOfFuel
  | S fuel' =>
      match startsWith quote (skipWs s) with
      | Some rest =>
          match parseChars rest [] with
          | Parsed k rest1 =>
              match startsWith ":" (skipWs rest1) with
              | Some rest2 =>
                  match parseValue fuel' rest2 with
                  | Parsed v rest3 =>
                      match skipWs rest3 with
                      | String c rest4 =>
                          if Ascii.eqb c ","
                          then parseMembers fuel' rest4 ((k, v) :: acc)
                          else if Ascii.eqb c "}"
                          then Parsed (Obj (rev ((k, v) :: acc))) rest4
                          else Invalid
                      | EmptyString => Invalid
                      end
                  | Invalid => Invalid
                  | OutOfFuel => OutOfFuel
                  end
              | None => Invalid
              end
          | Invalid => Invalid
          | OutOfFuel => OutOfFuel
          end
      | None => Invalid
      end
  end.

(** [JSON.parse(text)]; [None] stands for the [SyntaxError]. *)
Definition parse (text : string) : option value :=
  match parseValue (2 * String.length text + 1) text with
  | Parsed v rest =>
      match skipWs rest with
      | EmptyString => Some v
      | _ => None
      end
  | _ => None
  end.

(** The code units of a string of the model. *)
Fixpoint codes (s : string) : list N :=
  match s with
  | EmptyString => []
  | String c rest => N_of_ascii c :: codes rest
  end.

Definition sameUnits (a b : list N) : bool :=
  if list_eq_dec N.eq_dec a b then true else false.

(** [obj[key]] for an own property: the last member with that name. *)
Fixpoint lookup (key : list N) (fields : list (list N * value))
  : option value :=
  match fields with
  | [] => None
  | (k, v) :: more =>
      match lookup key more with
      | Some v' => Some v'
      | None => if sameUnits k key then Some v else None
      end
  end.

(** [json?.name]: a property of an object; [undefined] on anything
    else. *)
Definition get (json : value) (name : string) : option value :=
  match json with
  | Obj fields => lookup (codes name) fields
  | _ => None
  end.

(** [v === 1] *)
Definition isOne (v : option value) : bool :=
  match v with
  | Some (Num x) => PrimFloat.eqb x 1
  | _ => false
  end.

(** [v === 'literal'] *)
Definition isString (v : option value) (literal : string) : bool :=
  match v with
  | Some (Str u) => sameUnits u (codes literal)
  | _ => false
  end.

End Json.

(** What a parser leaves is shorter than what it was given, and it does
    not stop for lack of fuel. *)
Definition consumes {A} (s : string) (p : Json.parsed A) : Prop :=
  match p with
  | Json.Parsed _ rest => (String.length rest < String.length s)%nat
  | Json.Invalid => True
  | Json.OutOfFuel => False
  end.

(** The same, for a parser that may stop for lack of fuel when its fuel
    is at most [bound]. *)
Definition consumesWithin {A} (fuel bound : nat) (s : string)
  (p : Json.parsed A) : Prop :=
  match p with
  | Json.Parsed _ rest => (String.length rest < String.length s)%nat
  | Json.Invalid => True
  | Json.OutOfFuel => (fuel <= bound)%nat
  end.

(* ------------------------------------------------------------------ *)
(** * The refund gateway: [getRefundParams] and [proxyRefund] *)

Module Http.

(** What [fetch] is given: the address, the method, the content type and
    the fields of the [URLSearchParams] body, in order. *)
Record Request : Set := mkRequest {
  url : string;
  method : string;
  contentType : string;
  body : list (string * string)
}.

(** What [fetch] resolves to: [resp.ok], [resp.status] and the body that
    [resp.text()] reads. *)
Record Response : Set := mkReply {
  ok : bool;
  status : Z;
  text : string
}.

End Http.

(** The payment processor as the code sees it: the merchant's settings
    in the environment, and an answer, or none when the request fails,
    to each request. *)
Record Gateway : Set := mkGateway {
  MERCHANT_ID : option string;
  MERCHANT_KEY : option string;
  fetch : Http.Request -> option Http.Response
}.

(** The errors of the gateway functions: those of the refund itself, and
    their own. *)
Inductive RefundError : Set :=
  | Core (e : Error)
  | MissingTradeNo
  | MissingMerchantConfig
  | RefundProxyFailed (status : Z)
  | FetchFailed.

Inductive Outcome (A : Type) : Type :=
  | Done (a : A)
  | Failed (e : RefundError).
Arguments Done {A} a.
Arguments Failed {A} e.

(** What [getRefundParams] returns. *)
Record RefundParams : Set := mkRefundParams {
  pid : option string;
  key : option string;
  trade_no : string;
  out_trade_no : string;
  money : string
}.

(** [Number(order.amount).toFixed(2)] *)
Definition moneyOf (order : Order) : string :=
  JsMore.toFixed (JsMore.Number (amount order)) 2.

(** [getRefundParams] (lines 8-34); it only reads the order table. *)
Definition getRefundParams (gw : Gateway) (env : Env) (oid : string)
  (db : Db) : Outcome RefundParams :=
  if negb (isAdmin env) then Failed (Core Unauthorized)
  else
    match findFirst (hasOrderId oid) (orders db) with
    | None => Failed (Core (OrderNotFound oid))
    | Some order =>
        if negb (Js.truthy (tradeNo order)) then Failed MissingTradeNo
        else
          Done (mkRefundParams (MERCHANT_ID gw) (MERCHANT_KEY gw)
                  (match tradeNo order with Some t => t | None => EmptyString
                   end)
                  (orderId order) (moneyOf order))
    end.

Module Proxy.

(** What [proxyRefund] returns. *)
Record Result : Set := mkResult {
  ok : bool;
  processed : bool;
  message : string
}.

End Proxy.

(** [json?.code === 1 || json?.status === 'success' ||
     json?.msg === 'success'] when the text is JSON, and
    [/success/i.test(text)] when it is not. *)
Definition saysSuccess (text : string) : bool :=
  match Json.parse text with
  | Some json =>
      Json.isOne (Json.get json "code") ||
      Json.isString (Json.get json "status") "success" ||
      Json.isString (Json.get json "msg") "success"
  | None => Js.includes "success" (Js.toLowerCase text)
  end.

(** The request of lines 104-116. *)
Definition refundRequest (merchant secret : string) (order : Order)
  : Http.Request :=
  Http.mkRequest "https://credit.linux.do/epay/api.php" "POST"
    "application/x-www-form-urlencoded"
    [("pid", merchant); ("key", secret);
     ("trade_no", match tradeNo order with Some t => t | None => EmptyString
                  end);
     ("out_trade_no", orderId order);
     ("money", moneyOf order)].

(** [proxyRefund] (lines 86-138): the database after the call, the
    requests sent, and the answer. *)
Definition proxyRefund (gw : Gateway) (env : Env) (oid : string) (db : Db)
  : Db * list Http.Request * Outcome Proxy.Result :=
  if negb (isAdmin env) then (db, [], Failed (Core Unauthorized))
  else
    match MERCHANT_ID gw, MERCHANT_KEY gw with
    | Some merchant, Some secret =>
        if negb (Js.truthy (Some merchant)) || negb (Js.truthy (Some secret))
        then (db, [], Failed MissingMerchantConfig)
        else
          match findFirst (hasOrderId oid) (orders db) with
          | None => (db, [], Failed (Core (OrderNotFound oid)))
          | Some order =>
              if negb (Js.truthy (tradeNo order))
              then (db, [], Failed MissingTradeNo)
              else
                let request := refundRequest merchant secret order in
                match fetch gw request with
                | None => (db, [request], Failed FetchFailed)
                | Some resp =>
                    let success := saysSuccess (Http.text resp) in
                    let message := JsMore.slice0 500 (Http.text resp) in
                    if negb (Http.ok resp)
                    then (db, [request],
                          Failed (RefundProxyFailed (Http.status resp)))
                    else if success then
                      match markOrderRefunded env oid db with
                      | (db', Ok _) =>
                          (db', [request],
                           Done (Proxy.mkResult true true message))
                      | (db', Err e) => (db', [request], Failed (Core e))
                      end
                    else (db, [request],
                          Done (Proxy.mkResult true false message))
                end
          end
    | _, _ => (db, [], Failed MissingMerchantConfig)
    end.

(* ------------------------------------------------------------------ *)
(** * Further sample data *)

Module Scenario.

(** A call during which the reserved-card statement fails for a reason
    that has nothing to do with the schema. *)
Definition adminBroken : Env :=
  mkEnv 100500 100000 (Some (mkSessionUser (Some "Admin")))
    (Some "root,admin")
    (fun s =>
       match s with
       | ReservedClaim => Some (mkDbError (Some "connection terminated") "{}")
       | _ => None
       end).

(** A call during which the connection is lost after the card has been
    claimed: the update of the order fails. *)
Definition settleBroken : Env :=
  mkEnv 100500 100000 (Some (mkSessionUser (Some "Admin")))
    (Some "root,admin")
    (fun s =>
       match s with
       | OrderSettle => Some (mkDbError (Some "connection terminated") "{}")
       | _ => None
       end).

(** A refund during which the connection is lost after the credit: the
    update of the order's status fails. *)
Definition statusBroken : Env :=
  mkEnv 100500 100000 (Some (mkSessionUser (Some "Admin")))
    (Some "root,admin")
    (fun s =>
       match s with
       | OrderRefund => Some (mkDbError (Some "connection terminated") "{}")
       | _ => None
       end).

(** A caller who is signed in but not listed in [ADMIN_USERS]. *)
Definition visitor : Env :=
  mkEnv 100500 100000 (Some (mkSessionUser (Some "mallory")))
    (Some "root,admin") (fun _ => None).

(** A card without a key, in front of a regular one. *)
Definition blankCard : Card := mkCard 7 "P" EmptyString None None None None.

Definition dbBlank : Db :=
  mkDb [Sample.orderO] [blankCard; Sample.cardK1] [mkLoginUser "u1" 10] [].

(** The delivered order with two refund requests on file, one of them
    for another order. *)
Definition dbWithRequests : Db :=
  mkDb [Sample.deliveredO] [Sample.usedK1] [mkLoginUser "u1" 10]
    [mkRefundRequest "O" "pending" None None;
     mkRefundRequest "O9" "pending" None None].

(** An order that spent no points. *)
Definition orderNoPoints : Order :=
  mkOrder "O3" "P" "5.00" paid (Some "T3") None (Some "u1") (Some 0)
    (Some 90000) None.

Definition dbNoPoints : Db :=
  mkDb [orderNoPoints] [Sample.cardK1] [mkLoginUser "u1" 10] [].


(** An order whose [userId] is the empty string, and the user of that
    name. *)
Definition orderNoUser : Order :=
  mkOrder "O4" "P" "5.00" paid (Some "T4") None (Some EmptyString) (Some 5)
    (Some 90000) None.

Definition dbNoUser : Db :=
  mkDb [orderNoUser] [] [mkLoginUser EmptyString 10] [].

(** A user whose balance is the largest the column holds. *)
Definition dbFullBalance : Db :=
  mkDb [Sample.deliveredO] [Sample.usedK1] [mkLoginUser "u1" 2147483647] [].



(** A third pending order of product P, and two unused cards of P both
    reserved for order O, ten and twenty milliseconds before [admin]'s
    call. *)
Definition orderO5 : Order :=
  mkOrder "O5" "P" "9.99" pending None None None None None None.




(** Three pending orders of product P and two free cards. *)
Definition cardK6 : Card := mkCard 6 "P" "K6" (Some false) None None None.

Definition dbTwoCards : Db :=
  mkDb [Sample.orderO; Sample.orderO2; orderO5] [Sample.cardK1; cardK6]
    [mkLoginUser "u1" 10] [].

End Scenario.

(* ------------------------------------------------------------------ *)
(** * Fulfilments run one after the other *)

(** One invocation of the fulfilment: its environment and arguments. *)
Record Call : Set := mkCall {
  callEnv : Env;
  callOrder : string;
  callPaid : float;
  callTrade : string
}.

Definition runCall (db : Db) (c : Call) : Db :=
  fst (processOrderFulfillment (callEnv c) (callOrder c) (callPaid c)
         (callTrade c) db).

(** The invocations of a list, each on the tables the one before it
    has left. *)
Definition runCalls (calls : list Call) (db : Db) : Db :=
  fold_left runCall calls db.


Module Calls.

Definition forO : Call :=
  mkCall Sample.admin "O" (Js.parseFloat "9.99") "T1".

Definition forO2 : Call :=
  mkCall Sample.admin "O2" (Js.parseFloat "9.99") "T2".

Definition forO5 : Call :=
  mkCall Sample.admin "O5" (Js.parseFloat "9.99") "T5".

End Calls.

(* ------------------------------------------------------------------ *)
(** * Projections used to state what a call leaves alone *)

(** The columns of an order that a fulfilment never writes. *)
Definition orderIdentity (o : Order)
  : string * string * string * option string * option Z :=
  (orderId o, productId o, amount o, userId o, pointsUsed o).

(** The columns of an order that a refund never writes: all but
    [status]. *)
Definition orderButStatus (o : Order) : Order :=
  mkOrder (orderId o) (productId o) (amount o) pending (tradeNo o)
    (cardKey o) (userId o) (pointsUsed o) (paidAt o) (deliveredAt o).

(** The columns of a card that say which card it is. *)
Definition cardIdentity (c : Card) : Z * string * string :=
  (id c, product_id c, card_key c).

(** The columns of a card that a refund never writes: all but [is_used]
    and [used_at]. *)
Definition cardButUse (c : Card)
  : Z * string * string * option string * option Z :=
  (id c, product_id c, card_key c, reserved_order_id c, reserved_at c).

(** A card back in stock after a claim and a refund: unused, with no
    reservation left. *)
Definition restocked (c : Card) : Card :=
  mkCard (id c) (product_id c) (card_key c) (Some false) None None None.

(* ------------------------------------------------------------------ *)
(** * Sample gateways *)

Module Shop.

(** A processor that answers every request with the given reply. *)
Definition answering (reply : option Http.Response) : Gateway :=
  mkGateway (Some "1001") (Some "s3cret") (fun _ => reply).

Definition accepted : Http.Response :=
  Http.mkReply true 200 (Json.quoted "{'code':1,'msg':'refunded'}").

Definition declined : Http.Response :=
  Http.mkReply true 200 (Json.quoted "{'code':-1,'msg':'no such trade'}").

(** A gateway error page whose text happens to contain the word. *)
Definition serverError : Http.Response :=
  Http.mkReply false 502 "Bad gateway: success rate degraded".

End Shop.

(* ------------------------------------------------------------------ *)
(** * The shape of an amount of money *)

Fixpoint allDigits (s : string) : bool :=
  match s with
  | EmptyString => true
  | String c rest =>
      match Js.digitOf c with
      | Some _ => allDigits rest
      | None => false
      end
  end.

(** Digits, a point and two digits. *)
Definition twoDecimals (s : string) : Prop :=
  exists a b,
    s = (a ++ "." ++ b)%string /\
    a <> EmptyString /\ allDigits a = true /\
    allDigits b = true /\ String.length b = 2%nat.

(** A finite number whose magnitude is below [10^21]. *)
Definition belowE21 (x : float) : Prop :=
  match Prim2SF x with
  | S754_finite _ m e => 0 <= e -> Zpos m * 2 ^ e < 10 ^ 21
  | S754_zero _ => True
  | _ => False
  end.
(* ------------------------------------------------------------------ *)
(** * The built-ins and the sample data, evaluated *)

Example parseFloat_9_99 :
  Js.parseFloat "9.99" = 0x1.3fae147ae147bp+3%float.
Proof. reflexivity. Qed.

Example parseFloat_forms :
  map (fun s => PrimFloat.eqb (Js.parseFloat (fst s)) (snd s))
      [ ("10.00", 10%float); ("  -2.5e1xyz", (-25)%float);
        (".5", 0.5%float); ("5.", 5%float); ("1e3", 1000%float);
        ("0.1", 0x1.999999999999ap-4%float); ("12abc", 12%float) ]
  = [true; true; true; true; true; true; true].
Proof. reflexivity. Qed.

Example parseFloat_nan :
  map (fun s => PrimFloat.is_nan (Js.parseFloat s)) ["abc"; "."; "-"; "e5"]
  = [true; true; true; true].
Proof. vm_compute. reflexivity. Qed.

Example splitComma_ex :
  Js.splitComma (Js.toLowerCase "Alice,BOB,,carol")
  = ["alice"; "bob"; EmptyString; "carol"].
Proof. reflexivity. Qed.

Example fulfill_sample :
  processOrderFulfillment Sample.admin "O" (Js.parseFloat "9.99") "T1"
    Sample.db
  = (Sample.dbDelivered, Ok (mkResponse true (Some processed))).
Proof. reflexivity. Qed.

Example epsilon_is_0_01 : Js.parseFloat "0.01" = epsilon.
Proof. reflexivity. Qed.

(* ------------------------------------------------------------------ *)
(** * Tables as lists: the statements' basic facts *)

Section Tables.

Context {A : Type}.
Variables (p : A -> bool) (f : A -> A).

Lemma updateWhere_none (rows : list A) :
  (forall r, In r rows -> p r = false) -> updateWhere p f rows = rows.
Proof.
  induction rows as [|r rows IH]; intros H; simpl; [reflexivity|].
  rewrite (H r (or_introl eq_refl)), IH; [reflexivity|].
  intros r' Hr'. apply H. now right.
Qed.

Lemma returning_none (rows : list A) :
  (forall r, In r rows -> p r = false) -> returning p f rows = [].
Proof.
  unfold returning.
  induction rows as [|r rows IH]; intros H; simpl; [reflexivity|].
  rewrite (H r (or_introl eq_refl)). apply IH.
  intros r' Hr'. apply H. now right.
Qed.

Lemma updateWhere_nth (rows : list A) (i : nat) (r : A) :
  nth_error rows i = Some r ->
  nth_error (updateWhere p f rows) i = Some (if p r then f r else r).
Proof.
  intros H. unfold updateWhere.
  rewrite nth_error_map, H. reflexivity.
Qed.

Lemma updateWhere_In (rows : list A) (r : A) :
  In r rows -> In (if p r then f r else r) (updateWhere p f rows).
Proof.
  intros H. unfold updateWhere.
  apply (in_map (fun r => if p r then f r else r)) in H. exact H.
Qed.

Lemma returning_head (rows : list A) (r' : A) (rest : list A) :
  returning p f rows = r' :: rest ->
  exists r, In r rows /\ p r = true /\ r' = f r.
Proof.
  unfold returning. intros H.
  destruct (filter p rows) as [|r rs] eqn:E; [discriminate|].
  simpl in H. injection H as <- _.
  assert (Hin : In r (filter p rows)) by (rewrite E; now left).
  apply filter_In in Hin. exists r. tauto.
Qed.

Lemma returning_some (rows : list A) (r : A) :
  In r rows -> p r = true -> returning p f rows <> [].
Proof.
  intros Hin Hp E. unfold returning in E.
  apply map_eq_nil in E.
  assert (H : In r (filter p rows)) by (apply filter_In; tauto).
  rewrite E in H. exact H.
Qed.

(** A lookup through an update that keeps the looked-up property. *)
Lemma findFirst_updateWhere (q : A -> bool) (rows : list A) :
  (forall r, q (f r) = q r) ->
  (forall r, q r = true -> p r = true) ->
  findFirst q (updateWhere p f rows) = option_map f (findFirst q rows).
Proof.
  intros Hq Hp. unfold findFirst.
  induction rows as [|r rows IH]; simpl; [reflexivity|].
  destruct (p r) eqn:Epr.
  - rewrite Hq. destruct (q r); [reflexivity | exact IH].
  - destruct (q r) eqn:Eqr; [|exact IH].
    apply Hp in Eqr. congruence.
Qed.

End Tables.

(* ------------------------------------------------------------------ *)
(** * The fulfilment, case by case *)

(** The transaction of a fulfilment, by the statement that fails first,
    if any.  A failure of the reserved-card statement is final even when
    the [catch] clause takes it for a missing column: the fallback
    statement is refused by the aborted transaction. *)
Lemma fulfillInTx_outcome (env : Env) (oid trade : string) (o : Order)
  (db : Db) :
  transaction (fulfillInTx env oid trade o) db =
  match fault env ReservedClaim with
  | Some e =>
      (db, Err (DbFailure (if isUndefinedColumn e
                           then inFailedTransaction else e)))
  | None =>
      match
        (if Js.truthy
              (firstCardKey
                 (returning (reservedFor oid) (markUsed (sqlNow env))
                    (cards db)))
         then fault env OrderSettle
         else match fault env OfferClaim with
              | Some e => Some e
              | None => fault env OrderSettle
              end)
      with
      | Some e => (db, Err (DbFailure e))
      | None => (fulfilled env oid trade o db, Ok tt)
      end
  end.
Proof.
  unfold transaction, fulfillInTx, claimCard, claimReserved, fulfilled,
    claimOutcome, settle, bind, tryCatch, exec, claimOne,
    updateCardsReturning, setOrders, ret, throw.
  cbn [aborted tables].
  destruct (fault env ReservedClaim) as [e|].
  - destruct (isUndefinedColumn e); reflexivity.
  - cbn [fst snd negb aborted tables].
    destruct (Js.truthy (firstCardKey (returning (reservedFor oid) _ _)))
      eqn:T1; cbn [negb aborted tables fst snd].
    + rewrite T1. cbn [aborted tables].
      destruct (fault env OrderSettle); reflexivity.
    + destruct (fault env OfferClaim); [reflexivity|].
      cbn [aborted tables cards orders loginUsers refundRequests fst snd].
      destruct (Js.truthy (firstCardKey (returning (hasSelectedId _) _ _)));
        cbn [aborted tables];
        destruct (fault env OrderSettle); reflexivity.
Qed.

Lemma fulfill_not_found (env : Env) (oid : string) (paidAmount : float)
  (trade : string) (db : Db) :
  findFirst (hasOrderId oid) (orders db) = None ->
  processOrderFulfillment env oid paidAmount trade db
  = (db, Err (OrderNotFound oid)).
Proof.
  intros H. unfold processOrderFulfillment, bind, findOrder.
  rewrite H. reflexivity.
Qed.

Lemma fulfill_mismatch (env : Env) (oid : string) (paidAmount : float)
  (trade : string) (db : Db) (o : Order) :
  findFirst (hasOrderId oid) (orders db) = Some o ->
  amountMismatch paidAmount (Js.parseFloat (amount o)) = true ->
  processOrderFulfillment env oid paidAmount trade db
  = (db, Err (AmountMismatch (Js.parseFloat (amount o)) paidAmount)).
Proof.
  intros H M. unfold processOrderFulfillment, bind, findOrder.
  rewrite H, M. reflexivity.
Qed.

Lemma fulfill_already (env : Env) (oid : string) (paidAmount : float)
  (trade : string) (db : Db) (o : Order) :
  findFirst (hasOrderId oid) (orders db) = Some o ->
  amountMismatch paidAmount (Js.parseFloat (amount o)) = false ->
  status o <> pending -> status o <> cancelled ->
  processOrderFulfillment env oid paidAmount trade db
  = (db, Ok (mkResponse true (Some already_processed))).
Proof.
  intros H M Hp Hc. unfold processOrderFulfillment, bind, findOrder.
  rewrite H, M. destruct (status o); try reflexivity; congruence.
Qed.

(** A call that reaches the transaction answers what the transaction
    answers. *)
Lemma fulfill_in_transaction (env : Env) (oid : string) (paidAmount : float)
  (trade : string) (db : Db) (o : Order) :
  findFirst (hasOrderId oid) (orders db) = Some o ->
  amountMismatch paidAmount (Js.parseFloat (amount o)) = false ->
  status o = pending \/ status o = cancelled ->
  processOrderFulfillment env oid paidAmount trade db
  = match transaction (fulfillInTx env oid trade o) db with
    | (db', Ok _) => (db', Ok (mkResponse true (Some processed)))
    | (db', Err e) => (db', Err e)
    end.
Proof.
  intros H M S.
  unfold processOrderFulfillment, bind at 1, findOrder.
  rewrite H, M.
  destruct S as [S|S]; rewrite S; unfold bind, ret;
    destruct (transaction _ db) as [db' [u|e]]; reflexivity.
Qed.

Lemma fulfill_processed (env : Env) (oid : string) (paidAmount : float)
  (trade : string) (db : Db) (o : Order) :
  findFirst (hasOrderId oid) (orders db) = Some o ->
  amountMismatch paidAmount (Js.parseFloat (amount o)) = false ->
  status o = pending \/ status o = cancelled ->
  quiet env ->
  processOrderFulfillment env oid paidAmount trade db
  = (fulfilled env oid trade o db, Ok (mkResponse true (Some processed))).
Proof.
  intros H M S Q.
  rewrite (fulfill_in_transaction env oid paidAmount trade db o H M S).
  rewrite fulfillInTx_outcome, !Q.
  destruct (Js.truthy _); reflexivity.
Qed.

(** A transaction that does not commit answers a database error and
    leaves the tables as they were. *)
Lemma fulfillInTx_cases (env : Env) (oid trade : string) (o : Order)
  (db : Db) :
  transaction (fulfillInTx env oid trade o) db
  = (fulfilled env oid trade o db, Ok tt) \/
  exists e, transaction (fulfillInTx env oid trade o) db
            = (db, Err (DbFailure e)).
Proof.
  rewrite fulfillInTx_outcome.
  destruct (fault env ReservedClaim) as [e|]; [right; eauto|].
  destruct (Js.truthy _).
  - destruct (fault env OrderSettle) as [e|]; [right | left]; eauto.
  - destruct (fault env OfferClaim) as [e|]; [right; eauto|].
    destruct (fault env OrderSettle) as [e|]; [right | left]; eauto.
Qed.

(* ------------------------------------------------------------------ *)
(** * What the claim does to the card table *)

Lemma truthy_Some (k : string) :
  Js.truthy (Some k) = true <-> k <> EmptyString.
Proof. destruct k; simpl; split; congruence. Qed.

Lemma truthy_inv (key : option string) :
  Js.truthy key = true -> exists k, key = Some k /\ k <> EmptyString.
Proof.
  destruct key as [k|]; [|discriminate].
  intros H. exists k. split; [reflexivity | now apply truthy_Some].
Qed.

Lemma find_all_false {A} (p : A -> bool) (rows : list A) :
  (forall r, In r rows -> p r = false) -> find p rows = None.
Proof.
  induction rows as [|r rows IH]; intros H; simpl; [reflexivity|].
  rewrite (H r (or_introl eq_refl)). apply IH.
  intros r' Hr'. apply H. now right.
Qed.

Lemma card_key_markUsed (t : Z) (c : Card) :
  card_key (markUsed t c) = card_key c.
Proof. reflexivity. Qed.

(** The key an [UPDATE ... RETURNING card_key] answers first belongs to a
    row the statement has just rewritten. *)
Lemma firstCardKey_returning (p : Card -> bool) (f : Card -> Card)
  (cs : list Card) (k : string) :
  (forall c, card_key (f c) = card_key c) ->
  firstCardKey (returning p f cs) = Some k ->
  exists c, In c cs /\ p c = true /\ card_key c = k /\
            In (f c) (updateWhere p f cs).
Proof.
  intros Hf H.
  destruct (returning p f cs) as [|r' rest] eqn:E; [discriminate|].
  simpl in H. injection H as <-.
  destruct (returning_head p f cs r' rest E) as (c & Hin & Hp & ->).
  exists c. repeat split; auto.
  pose proof (updateWhere_In p f cs c Hin) as Hu.
  rewrite Hp in Hu. exact Hu.
Qed.

Lemma firstCardKey_nonempty (p : Card -> bool) (f : Card -> Card)
  (cs : list Card) (c : Card) :
  (forall c, card_key (f c) = card_key c) ->
  (forall c, In c cs -> card_key c <> EmptyString) ->
  In c cs -> p c = true ->
  Js.truthy (firstCardKey (returning p f cs)) = true.
Proof.
  intros Hf Hk Hin Hp.
  destruct (returning p f cs) as [|r' rest] eqn:E.
  - exfalso. exact (returning_some p f cs c Hin Hp E).
  - destruct (returning_head p f cs r' rest E) as (c0 & Hin0 & _ & ->).
    simpl. rewrite Hf. apply truthy_Some. now apply Hk.
Qed.

(** A claim that yields a key has marked a card with that key as used. *)
Lemma claimOutcome_key (env : Env) (oid pid : string) (cs : list Card) :
  Js.truthy (snd (claimOutcome env oid pid cs)) = true ->
  exists k c,
    snd (claimOutcome env oid pid cs) = Some k /\ k <> EmptyString /\
    In c (fst (claimOutcome env oid pid cs)) /\ card_key c = k /\
    is_used c = Some true /\ used_at c = Some (sqlNow env).
Proof.
  intros T. destruct (truthy_inv _ T) as (k & Ek & Hk).
  exists k. revert Ek. unfold claimOutcome.
  destruct (Js.truthy (firstCardKey _)) eqn:T1; simpl; intros Ek;
    pose proof Ek as Ek';
    (apply firstCardKey_returning in Ek'; [|apply card_key_markUsed]);
    destruct Ek' as (c & _ & _ & Hc & Hin);
    exists (markUsed (sqlNow env) c); repeat split; auto.
Qed.

(** Without an eligible card the claim yields no key and writes nothing. *)
Lemma claimOutcome_no_stock (env : Env) (oid pid : string) (cs : list Card) :
  (forall c, In c cs -> eligible env oid pid c = false) ->
  claimOutcome env oid pid cs = (cs, None).
Proof.
  unfold eligible, claimOutcome, findFirst. intros H.
  assert (H1 : forall c, In c cs -> reservedFor oid c = false).
  { intros c Hc. apply H in Hc. now apply orb_false_iff in Hc. }
  assert (H2 : forall c, In c cs -> claimable pid (sqlNow env) c = false).
  { intros c Hc. apply H in Hc. now apply orb_false_iff in Hc. }
  rewrite (returning_none _ _ _ H1), (updateWhere_none _ _ _ H1). simpl.
  rewrite (find_all_false _ _ H2). simpl.
  rewrite updateWhere_none, returning_none by reflexivity. reflexivity.
Qed.

(** With an eligible card, and card keys that are not empty, the claim
    yields a key. *)
Lemma claimOutcome_stock (env : Env) (oid pid : string) (cs : list Card)
  (c : Card) :
  (forall c, In c cs -> card_key c <> EmptyString) ->
  In c cs -> eligible env oid pid c = true ->
  Js.truthy (snd (claimOutcome env oid pid cs)) = true.
Proof.
  unfold eligible, claimOutcome, findFirst. intros Hk Hin He.
  destruct (Js.truthy (firstCardKey _)) eqn:T1; simpl; [exact T1|].
  assert (H1 : forall c, In c cs -> reservedFor oid c = false).
  { intros c0 Hc0. destruct (reservedFor oid c0) eqn:Er; [|reflexivity].
    rewrite (firstCardKey_nonempty _ _ cs c0) in T1; auto. }
  rewrite (updateWhere_none _ _ _ H1).
  rewrite (H1 c Hin) in He. simpl in He.
  destruct (find (claimable pid (sqlNow env)) cs) as [s|] eqn:Ef.
  + apply find_some in Ef. destruct Ef as [Hs _].
    apply (firstCardKey_nonempty _ _ cs s); auto.
    simpl. apply Z.eqb_refl.
  + apply (find_none _ _ Ef) in Hin. congruence.
Qed.

(* ------------------------------------------------------------------ *)
(** * The order row after a fulfilment *)

Lemma hasOrderId_settle (env : Env) (trade : string) (key : option string)
  (oid : string) (o : Order) :
  hasOrderId oid (settle env trade key o) = hasOrderId oid o.
Proof. unfold settle. destruct (Js.truthy key); reflexivity. Qed.

Lemma amount_settle (env : Env) (trade : string) (key : option string)
  (o : Order) :
  amount (settle env trade key o) = amount o.
Proof. unfold settle. destruct (Js.truthy key); reflexivity. Qed.

Lemma status_settle (env : Env) (trade : string) (key : option string)
  (o : Order) :
  status (settle env trade key o)
  = if Js.truthy key then delivered else paid.
Proof. unfold settle. destruct (Js.truthy key); reflexivity. Qed.

Lemma findFirst_settled (env : Env) (trade : string) (key : option string)
  (oid : string) (os : list Order) (o : Order) :
  findFirst (hasOrderId oid) os = Some o ->
  findFirst (hasOrderId oid)
    (updateWhere (hasOrderId oid) (settle env trade key) os)
  = Some (settle env trade key o).
Proof.
  intros H. rewrite findFirst_updateWhere, H; auto.
  intros r. apply hasOrderId_settle.
Qed.

(** Once settled, the order answers [already_processed] to the same
    payment, whatever the environment, and nothing is written. *)
Lemma fulfill_settled_again (env env' : Env) (oid : string)
  (paidAmount : float) (trade : string) (key : option string)
  (os : list Order) (cs : list Card) (us : list LoginUser)
  (rs : list RefundRequest) (o : Order) :
  findFirst (hasOrderId oid) os = Some o ->
  amountMismatch paidAmount (Js.parseFloat (amount o)) = false ->
  let db' := mkDb (updateWhere (hasOrderId oid) (settle env trade key) os)
               cs us rs in
  processOrderFulfillment env' oid paidAmount trade db'
  = (db', Ok (mkResponse true (Some already_processed))).
Proof.
  intros H M db'.
  apply (fulfill_already env' oid paidAmount trade db'
           (settle env trade key o)).
  - apply findFirst_settled. exact H.
  - rewrite amount_settle. exact M.
  - rewrite status_settle. destruct (Js.truthy key); discriminate.
  - rewrite status_settle. destruct (Js.truthy key); discriminate.
Qed.

Lemma settle_delivered (env : Env) (oid pid trade : string)
  (cs : list Card) (o : Order) :
  Js.truthy (snd (claimOutcome env oid pid cs)) = true ->
  deliveredWith env trade (fst (claimOutcome env oid pid cs))
    (settle env trade (snd (claimOutcome env oid pid cs)) o).
Proof.
  intros T. unfold deliveredWith, settle. rewrite T. simpl.
  destruct (claimOutcome_key env oid pid cs T)
    as (k & c & Ek & Hk & Hin & Hc & Hu & Ht).
  repeat split; auto. exists k, c. repeat split; auto.
Qed.

Lemma settle_paid (env : Env) (trade : string) (key : option string)
  (o : Order) :
  Js.truthy key = false ->
  paidWithout env trade o (settle env trade key o).
Proof.
  intros T. unfold paidWithout, settle. rewrite T. simpl. auto.
Qed.

Lemma delivered_not_paid (env : Env) (trade : string) (cs : list Card)
  (o o' : Order) :
  ~ (deliveredWith env trade cs o' /\ paidWithout env trade o o').
Proof.
  intros [[D _] [P _]]. congruence.
Qed.

(* ------------------------------------------------------------------ *)
(** * The refund, case by case *)

Lemma refund_unauthorized (env : Env) (oid : string) (db : Db) :
  isAdmin env = false ->
  markOrderRefunded env oid db = (db, Err Unauthorized).
Proof. intros H. unfold markOrderRefunded. rewrite H. reflexivity. Qed.

Lemma refund_not_found (env : Env) (oid : string) (db : Db) :
  isAdmin env = true ->
  findFirst (hasOrderId oid) (orders db) = None ->
  markOrderRefunded env oid db = (db, Err (OrderNotFound oid)).
Proof.
  intros A H. unfold markOrderRefunded. rewrite A. simpl.
  unfold bind, transaction, refundInTx, bind, exec, findOrder.
  cbn [aborted tables]. rewrite H. reflexivity.
Qed.

(** The transaction of a refund of an existing order: it fails with the
    error of the credit or of the status; it answers without committing
    anything when a statement whose failure it swallows has failed; it
    commits otherwise. *)
Lemma refundInTx_outcome (env : Env) (oid : string) (db : Db) (o : Order) :
  findFirst (hasOrderId oid) (orders db) = Some o ->
  transaction (refundInTx env oid) db =
  match refundError env o (loginUsers db) with
  | Some e => (db, Err (DbFailure e))
  | None =>
      if refundSpoiled env o then (db, Ok tt)
      else (refundedDb env oid o db, Ok tt)
  end.
Proof.
  intros H.
  unfold transaction, refundInTx, bind at 1, exec at 1, findOrder.
  cbn [aborted tables]. rewrite H.
  unfold refundError, creditError, refundSpoiled, refundedDb, refundedUsers,
    refundedCards, refundedRequests, creditUsers.
  unfold bind, tryCatch, exec, setLoginUsers, setOrders, setCards,
    setRefundRequests, throw, ret.
  cbn [aborted tables].
  destruct (refundsPoints o); cbn [aborted tables].
  - destruct (fault env PointsCredit); [reflexivity|].
    destruct (creditFits o (loginUsers db)); [|reflexivity].
    cbn [aborted tables].
    destruct (fault env OrderRefund); [reflexivity|].
    cbn [aborted tables orders cards loginUsers refundRequests].
    destruct (Js.truthy (cardKey o)); cbn [aborted tables andb orb].
    + destruct (fault env CardReturn); cbn [aborted tables orb];
        [reflexivity|].
      destruct (fault env RequestUpdate); reflexivity.
    + destruct (fault env RequestUpdate); reflexivity.
  - destruct (fault env OrderRefund); [reflexivity|].
    cbn [aborted tables orders cards loginUsers refundRequests].
    destruct (Js.truthy (cardKey o)); cbn [aborted tables andb orb].
    + destruct (fault env CardReturn); cbn [aborted tables orb];
        [reflexivity|].
      destruct (fault env RequestUpdate); reflexivity.
    + destruct (fault env RequestUpdate); reflexivity.
Qed.

(** A call by an administrator on an existing order answers what the
    transaction answers. *)
Lemma refund_in_transaction (env : Env) (oid : string) (db : Db) :
  isAdmin env = true ->
  markOrderRefunded env oid db
  = match transaction (refundInTx env oid) db with
    | (db', Ok _) => (db', Ok (mkResponse true None))
    | (db', Err e) => (db', Err e)
    end.
Proof.
  intros A. unfold markOrderRefunded. rewrite A. simpl.
  unfold bind, ret.
  destruct (transaction _ db) as [db' [u|e]]; reflexivity.
Qed.

Lemma refundError_quiet (env : Env) (o : Order) (us : list LoginUser) :
  quiet env ->
  refundsPoints o = false \/ creditFits o us = true ->
  refundError env o us = None.
Proof.
  intros Q F. unfold refundError, creditError. rewrite !Q.
  destruct (refundsPoints o); [|reflexivity].
  destruct F as [F|F]; [discriminate|]. now rewrite F.
Qed.

Lemma refundSpoiled_quiet (env : Env) (o : Order) :
  quiet env -> refundSpoiled env o = false.
Proof.
  intros Q. unfold refundSpoiled. rewrite !Q.
  now rewrite andb_false_r.
Qed.

(** A refund of an existing order by an administrator, no statement
    failing and the credit within the range of the column. *)
Lemma refund_succeeds (env : Env) (oid : string) (db : Db) (o : Order) :
  isAdmin env = true ->
  findFirst (hasOrderId oid) (orders db) = Some o ->
  quiet env ->
  refundsPoints o = false \/ creditFits o (loginUsers db) = true ->
  markOrderRefunded env oid db
  = (refundedDb env oid o db, Ok (mkResponse true None)).
Proof.
  intros A H Q F.
  rewrite (refund_in_transaction env oid db A).
  rewrite (refundInTx_outcome env oid db o H).
  now rewrite (refundError_quiet env o _ Q F), (refundSpoiled_quiet env o Q).
Qed.

Lemma findFirst_refunded (oid : string) (os : list Order) (o : Order) :
  findFirst (hasOrderId oid) os = Some o ->
  findFirst (hasOrderId oid) (updateWhere (hasOrderId oid) refundOrder os)
  = Some (refundOrder o).
Proof.
  intros H. rewrite findFirst_updateWhere, H; auto.
Qed.

(* ------------------------------------------------------------------ *)
(** * Every call, by cases; invariants of the order table *)

(** A fulfilment either writes nothing or settles the order it found. *)
Lemma fulfill_cases (env : Env) (oid : string) (paidAmount : float)
  (trade : string) (db : Db) :
  fst (processOrderFulfillment env oid paidAmount trade db) = db \/
  exists o,
    findFirst (hasOrderId oid) (orders db) = Some o /\
    (status o = pending \/ status o = cancelled) /\
    amountMismatch paidAmount (Js.parseFloat (amount o)) = false /\
    processOrderFulfillment env oid paidAmount trade db
    = (fulfilled env oid trade o db, Ok (mkResponse true (Some processed))).
Proof.
  destruct (findFirst (hasOrderId oid) (orders db)) as [o|] eqn:H.
  2:{ left. now rewrite fulfill_not_found. }
  destruct (amountMismatch paidAmount (Js.parseFloat (amount o))) eqn:M.
  { left. now rewrite (fulfill_mismatch env oid paidAmount trade db o). }
  assert (S : (status o = pending \/ status o = cancelled) \/
              (status o <> pending /\ status o <> cancelled)).
  { destruct (status o); auto; right; split; discriminate. }
  destruct S as [S|[Sp Sc]].
  2:{ left. now rewrite (fulfill_already env oid paidAmount trade db o). }
  rewrite (fulfill_in_transaction env oid paidAmount trade db o H M S).
  destruct (fulfillInTx_cases env oid trade o db) as [E|[e E]]; rewrite E.
  - right. exists o. auto.
  - left. reflexivity.
Qed.

(** A refund either writes nothing or refunds the order it found. *)
Lemma refund_cases (env : Env) (oid : string) (db : Db) :
  fst (markOrderRefunded env oid db) = db \/
  exists o,
    isAdmin env = true /\
    findFirst (hasOrderId oid) (orders db) = Some o /\
    markOrderRefunded env oid db
    = (refundedDb env oid o db, Ok (mkResponse true None)).
Proof.
  destruct (isAdmin env) eqn:A.
  2:{ left. now rewrite refund_unauthorized. }
  destruct (findFirst (hasOrderId oid) (orders db)) as [o|] eqn:H.
  2:{ left. now rewrite refund_not_found. }
  rewrite (refund_in_transaction env oid db A).
  rewrite (refundInTx_outcome env oid db o H).
  destruct (refundError env o (loginUsers db)); [left; reflexivity|].
  destruct (refundSpoiled env o); [left; reflexivity|].
  right. exists o. auto.
Qed.

Lemma updateWhere_all {A} (P : A -> Prop) (p : A -> bool) (f : A -> A)
  (rows : list A) :
  (forall r, In r rows -> P r) ->
  (forall r, In r rows -> p r = true -> P (f r)) ->
  forall r', In r' (updateWhere p f rows) -> P r'.
Proof.
  intros HP Hf r' Hin. unfold updateWhere in Hin.
  apply in_map_iff in Hin. destruct Hin as (r & <- & Hr).
  destruct (p r) eqn:E; auto.
Qed.

Lemma updateWhere_map {A B} (g : A -> B) (p : A -> bool) (f : A -> A)
  (rows : list A) :
  (forall r, g (f r) = g r) ->
  map g (updateWhere p f rows) = map g rows.
Proof.
  intros H. unfold updateWhere. rewrite map_map.
  apply map_ext. intros r. destruct (p r); auto.
Qed.

(** Under a unique key, the row a lookup finds is the only one an update
    by that key rewrites. *)
Lemma unique_order (oid : string) (os : list Order) (o r : Order) :
  NoDup (map orderId os) ->
  findFirst (hasOrderId oid) os = Some o ->
  In r os -> hasOrderId oid r = true -> r = o.
Proof.
  unfold findFirst, hasOrderId.
  induction os as [|a os IH]; simpl; intros N F Hin Hr; [contradiction|].
  inversion N as [|x xs Hnot N']; subst.
  destruct (String.eqb (orderId a) oid) eqn:Ea.
  - injection F as <-. destruct Hin as [->|Hin]; [reflexivity|].
    exfalso. apply Hnot.
    apply String.eqb_eq in Ea, Hr. rewrite Ea, <- Hr.
    now apply in_map.
  - destruct Hin as [->|Hin]; [congruence|]. now apply IH.
Qed.

Lemma orderId_settle (env : Env) (trade : string) (key : option string)
  (o : Order) :
  orderId (settle env trade key o) = orderId o.
Proof. unfold settle. destruct (Js.truthy key); reflexivity. Qed.

Lemma fulfill_unique (env : Env) (oid : string) (paidAmount : float)
  (trade : string) (db : Db) :
  uniqueOrderIds db ->
  uniqueOrderIds (fst (processOrderFulfillment env oid paidAmount trade db)).
Proof.
  intros U.
  destruct (fulfill_cases env oid paidAmount trade db)
    as [->|(o & H & S & M & ->)]; [exact U|].
  unfold uniqueOrderIds. simpl.
  rewrite updateWhere_map; [exact U|]. intros r. apply orderId_settle.
Qed.

Lemma refund_unique (env : Env) (oid : string) (db : Db) :
  uniqueOrderIds db ->
  uniqueOrderIds (fst (markOrderRefunded env oid db)).
Proof.
  intros U.
  destruct (refund_cases env oid db) as [->|(o & A & H & ->)]; [exact U|].
  unfold uniqueOrderIds. simpl.
  rewrite updateWhere_map; [exact U|]. reflexivity.
Qed.

Lemma settle_keyIffDelivered (env : Env) (trade : string)
  (key : option string) (o : Order) :
  cardKey o = None ->
  keyIffDelivered (settle env trade key o).
Proof.
  intros K. unfold keyIffDelivered, settle.
  destruct (Js.truthy key) eqn:T; simpl.
  - destruct (truthy_inv key T) as (k & -> & _).
    split; [reflexivity | discriminate].
  - rewrite K. split; [congruence | discriminate].
Qed.

Lemma settle_deliveredHasKey (env : Env) (trade : string)
  (key : option string) (o : Order) :
  cardKey o = None ->
  deliveredHasKey (settle env trade key o).
Proof.
  intros K. unfold deliveredHasKey, settle.
  destruct (Js.truthy key) eqn:T; simpl.
  - destruct (truthy_inv key T) as (k & -> & _).
    split; [discriminate | auto].
  - rewrite K. split; [discriminate | congruence].
Qed.

Lemma keyIffDelivered_weaken (o : Order) :
  keyIffDelivered o -> deliveredHasKey o.
Proof.
  unfold keyIffDelivered, deliveredHasKey. intros [H1 H2]. split; auto.
Qed.

Lemma fulfill_keeps_keyIffDelivered (env : Env) (oid : string)
  (paidAmount : float) (trade : string) (db : Db) :
  uniqueOrderIds db ->
  (forall o, In o (orders db) -> keyIffDelivered o) ->
  forall o', In o' (orders (fst (processOrderFulfillment env oid paidAmount
                                   trade db))) ->
             keyIffDelivered o'.
Proof.
  intros U I.
  destruct (fulfill_cases env oid paidAmount trade db)
    as [->|(o & H & S & M & ->)]; [exact I|].
  simpl.
  apply updateWhere_all; [exact I|].
  intros r Hin Hr.
  assert (E : r = o) by exact (unique_order oid (orders db) o r U H Hin Hr).
  subst r.
  apply settle_keyIffDelivered.
  destruct (cardKey o) eqn:K; [|reflexivity].
  assert (D : status o = delivered)
    by (apply (I o Hin); rewrite K; discriminate).
  destruct S; congruence.
Qed.

Lemma fulfill_keeps_deliveredHasKey (env : Env) (oid : string)
  (paidAmount : float) (trade : string) (db : Db) :
  uniqueOrderIds db ->
  (forall o, In o (orders db) -> deliveredHasKey o) ->
  forall o', In o' (orders (fst (processOrderFulfillment env oid paidAmount
                                   trade db))) ->
             deliveredHasKey o'.
Proof.
  intros U I.
  destruct (fulfill_cases env oid paidAmount trade db)
    as [->|(o & H & S & M & ->)]; [exact I|].
  simpl.
  apply updateWhere_all; [exact I|].
  intros r Hin Hr.
  assert (E : r = o) by exact (unique_order oid (orders db) o r U H Hin Hr).
  subst r.
  apply settle_deliveredHasKey.
  destruct (cardKey o) eqn:K; [|reflexivity].
  assert (D : status o = delivered \/ status o = refunded)
    by (apply (I o Hin); rewrite K; discriminate).
  destruct S, D; congruence.
Qed.

Lemma refund_keeps_deliveredHasKey (env : Env) (oid : string) (db : Db) :
  (forall o, In o (orders db) -> deliveredHasKey o) ->
  forall o', In o' (orders (fst (markOrderRefunded env oid db))) ->
             deliveredHasKey o'.
Proof.
  intros I.
  destruct (refund_cases env oid db) as [->|(o & A & H & ->)]; [exact I|].
  simpl.
  apply updateWhere_all; [exact I|].
  intros r Hin _. destruct (I r Hin) as [_ I2].
  unfold deliveredHasKey. simpl. split; [discriminate | auto].
Qed.

Lemma refund_keeps_cardKey (env : Env) (oid : string) (db : Db) :
  map cardKey (orders (fst (markOrderRefunded env oid db)))
  = map cardKey (orders db).
Proof.
  destruct (refund_cases env oid db) as [->|(o & A & H & ->)]; [reflexivity|].
  simpl.
  apply updateWhere_map. reflexivity.
Qed.

Lemma reachable_invariant (db db' : Db) :
  reachable db db' ->
  uniqueOrderIds db ->
  (forall o, In o (orders db) -> deliveredHasKey o) ->
  uniqueOrderIds db' /\ (forall o, In o (orders db') -> deliveredHasKey o).
Proof.
  induction 1 as [|db1 db2 R IH St]; intros U I; [auto|].
  destruct (IH U I) as [U1 I1].
  destruct St as [env oid paidAmount trade | env oid].
  - split; [now apply fulfill_unique|].
    now apply fulfill_keeps_deliveredHasKey.
  - split; [now apply refund_unique|].
    now apply refund_keeps_deliveredHasKey.
Qed.

(* ------------------------------------------------------------------ *)
(** * Reservations and the claim *)

(** Every unused card reserved for the order is marked used by the
    claim, wherever it stands in the table. *)
Lemma claimOutcome_reserved (env : Env) (oid pid : string) (cs : list Card)
  (i : nat) (c : Card) :
  nth_error cs i = Some c ->
  reservedFor oid c = true ->
  nth_error (fst (claimOutcome env oid pid cs)) i
  = Some (markUsed (sqlNow env) c).
Proof.
  intros Hi Hr. unfold claimOutcome.
  pose proof (updateWhere_nth (reservedFor oid) (markUsed (sqlNow env))
                cs i c Hi) as H1.
  rewrite Hr in H1.
  destruct (Js.truthy _); simpl; [exact H1|].
  rewrite (updateWhere_nth _ _ _ i _ H1).
  destruct (hasSelectedId _ _); reflexivity.
Qed.


Lemma In_nth_error_id (cs : list Card) (i : nat) (c s : Card) :
  uniqueCardIds cs ->
  nth_error cs i = Some c -> In s cs -> id s = id c -> s = c.
Proof.
  intros U Hi Hs E.
  apply In_nth_error in Hs. destruct Hs as [j Hj].
  assert (Hij : i = j).
  { apply (proj1 (NoDup_nth_error (map id cs)) U).
    - rewrite length_map. apply nth_error_Some. congruence.
    - rewrite !nth_error_map, Hi, Hj. simpl. congruence. }
  subst j. congruence.
Qed.

(** A card that is neither reserved for the order nor on offer stays as
    it is through the claim, [id] being a key of the card table. *)
Lemma claimOutcome_protected (env : Env) (oid pid : string) (cs : list Card)
  (i : nat) (c : Card) :
  uniqueCardIds cs ->
  nth_error cs i = Some c ->
  reservedFor oid c = false ->
  claimable pid (sqlNow env) c = false ->
  nth_error (fst (claimOutcome env oid pid cs)) i = Some c.
Proof.
  intros U Hi Hr Hc. unfold claimOutcome.
  set (cs1 := updateWhere (reservedFor oid) (markUsed (sqlNow env)) cs).
  assert (H1 : nth_error cs1 i = Some c).
  { unfold cs1. rewrite (updateWhere_nth _ _ _ i c Hi), Hr. reflexivity. }
  assert (U1 : uniqueCardIds cs1).
  { unfold uniqueCardIds, cs1. rewrite updateWhere_map; auto. }
  destruct (Js.truthy _); simpl; [exact H1|].
  rewrite (updateWhere_nth _ _ _ i c H1).
  unfold findFirst.
  destruct (find (claimable pid (sqlNow env)) cs1) as [s|] eqn:Ef;
    simpl; [|reflexivity].
  apply find_some in Ef. destruct Ef as [Hs Cs].
  destruct (id c =? id s) eqn:E; [|reflexivity].
  apply Z.eqb_eq in E.
  assert (s = c) by (apply (In_nth_error_id cs1 i c s); auto).
  congruence.
Qed.

Lemma updateWhere_app {A} (p : A -> bool) (f : A -> A) (l1 l2 : list A) :
  updateWhere p f (l1 ++ l2) = updateWhere p f l1 ++ updateWhere p f l2.
Proof. apply map_app. Qed.

Lemma returning_app {A} (p : A -> bool) (f : A -> A) (l1 l2 : list A) :
  returning p f (l1 ++ l2) = returning p f l1 ++ returning p f l2.
Proof. unfold returning. now rewrite filter_app, map_app. Qed.

Lemma find_app_none {A} (p : A -> bool) (l1 l2 : list A) :
  (forall r, In r l1 -> p r = false) ->
  find p (l1 ++ l2) = find p l2.
Proof.
  induction l1 as [|a l1 IH]; simpl; intros H; [reflexivity|].
  rewrite (H a (or_introl eq_refl)). apply IH. intros r Hr. apply H.
  now right.
Qed.

(** An update that matches one row, [c], of [pre ++ c :: post]. *)
Lemma updateWhere_single {A} (p : A -> bool) (f : A -> A)
  (pre post : list A) (c : A) :
  (forall r, In r (pre ++ post) -> p r = false) ->
  p c = true ->
  updateWhere p f (pre ++ c :: post) = pre ++ f c :: post /\
  returning p f (pre ++ c :: post) = [f c].
Proof.
  intros H Hc.
  assert (Hpre : forall r, In r pre -> p r = false)
    by (intros r Hr; apply H, in_or_app; now left).
  assert (Hpost : forall r, In r post -> p r = false)
    by (intros r Hr; apply H, in_or_app; now right).
  split.
  - rewrite updateWhere_app. simpl. rewrite Hc.
    fold (updateWhere p f post).
    now rewrite !updateWhere_none.
  - rewrite returning_app. rewrite (returning_none p f pre Hpre).
    unfold returning. simpl. rewrite Hc. simpl.
    fold (returning p f post). now rewrite returning_none.
Qed.

(** With no card reserved for the order, the claim takes the first card
    on offer, whatever its key. *)
Lemma claimOutcome_first_on_offer (env : Env) (oid pid : string)
  (pre post : list Card) (c : Card) :
  (forall c', In c' (pre ++ c :: post) -> reservedFor oid c' = false) ->
  (forall c', In c' (pre ++ post) -> id c' <> id c) ->
  (forall c', In c' pre -> claimable pid (sqlNow env) c' = false) ->
  claimable pid (sqlNow env) c = true ->
  claimOutcome env oid pid (pre ++ c :: post)
  = (pre ++ markUsed (sqlNow env) c :: post, Some (card_key c)).
Proof.
  intros Hres Hid Hpre Hc. unfold claimOutcome.
  rewrite (returning_none _ _ _ Hres), (updateWhere_none _ _ _ Hres).
  simpl. unfold findFirst.
  rewrite (find_app_none _ pre (c :: post) Hpre). simpl. rewrite Hc.
  assert (Hsel : forall r, In r (pre ++ post) ->
                           hasSelectedId (Some c) r = false).
  { intros r Hr. simpl. apply Z.eqb_neq. now apply Hid. }
  assert (Hself : hasSelectedId (Some c) c = true)
    by (simpl; apply Z.eqb_refl).
  destruct (updateWhere_single (hasSelectedId (Some c))
              (markUsed (sqlNow env)) pre post c Hsel Hself) as [-> ->].
  reflexivity.
Qed.

Lemma find_split {A} (p : A -> bool) (l : list A) (c : A) :
  find p l = Some c ->
  exists pre post,
    l = pre ++ c :: post /\ p c = true /\
    (forall x, In x pre -> p x = false).
Proof.
  induction l as [|a l IH]; simpl; [discriminate|].
  destruct (p a) eqn:E.
  - intros [= <-]. exists [], l. simpl. tauto.
  - intros H. destruct (IH H) as (pre & post & -> & Hc & Hpre).
    exists (a :: pre), post. simpl. repeat split; auto.
    intros x [<-|Hx]; auto.
Qed.

Lemma unique_split (pre post : list Card) (c : Card) :
  uniqueCardIds (pre ++ c :: post) ->
  forall c', In c' (pre ++ post) -> id c' <> id c.
Proof.
  unfold uniqueCardIds. rewrite map_app. simpl. intros U c' Hin E.
  apply NoDup_remove_2 in U. apply U.
  rewrite <- map_app, <- E. now apply in_map.
Qed.




Lemma claimable_product (pid : string) (t : Z) (c : Card) :
  claimable pid t c = true -> product_id c = pid /\ unused c = true.
Proof.
  unfold claimable. intros H.
  apply andb_true_iff in H. destruct H as [H _].
  apply andb_true_iff in H. destruct H as [Hp Hu].
  apply String.eqb_eq in Hp. auto.
Qed.

(* ------------------------------------------------------------------ *)
(** * The credit of a refund *)

Lemma refundsPoints_true (o : Order) (uid : string) (P : Z) :
  userId o = Some uid -> uid <> EmptyString ->
  pointsUsed o = Some P -> 0 < P ->
  refundsPoints o = true.
Proof.
  intros U Hu Pu Hp. unfold refundsPoints. rewrite U, Pu.
  apply truthy_Some in Hu. rewrite Hu.
  destruct P; try lia. reflexivity.
Qed.

Lemma refundedUsers_credit (o : Order) (uid : string) (P : Z)
  (us : list LoginUser) :
  userId o = Some uid -> uid <> EmptyString ->
  pointsUsed o = Some P -> 0 < P ->
  refundedUsers o us
  = map (fun u => if String.eqb (user_id u) uid
                  then mkLoginUser (user_id u) (points u + P) else u) us.
Proof.
  intros U Hu Pu Hp. unfold refundedUsers.
  rewrite (refundsPoints_true o uid P U Hu Pu Hp).
  unfold updateWhere, isUserOf, sqlEq, creditPoints. rewrite U, Pu.
  reflexivity.
Qed.

Lemma fitsInteger_range (n : Z) :
  fitsInteger n = true <-> - 2147483648 <= n <= 2147483647.
Proof.
  unfold fitsInteger. rewrite andb_true_iff, !Z.leb_le. tauto.
Qed.

(** The credit fits when every balance of the order's user stays within
    the range of the column. *)
Lemma creditFits_range (o : Order) (uid : string) (P : Z)
  (us : list LoginUser) :
  userId o = Some uid -> pointsUsed o = Some P ->
  (forall u, In u us -> user_id u = uid ->
             - 2147483648 <= points u + P <= 2147483647) ->
  creditFits o us = true.
Proof.
  intros U Pu H. unfold creditFits. apply forallb_forall. intros u Hin.
  unfold isUserOf, sqlEq, creditPoints. rewrite U, Pu. cbn [points].
  destruct (String.eqb_spec (user_id u) uid) as [E|E]; [|reflexivity].
  simpl. apply fitsInteger_range. now apply H.
Qed.

(** A credit that does not fit has a balance that leaves the range. *)
Lemma creditFits_false (o : Order) (us : list LoginUser) :
  creditFits o us = false ->
  exists u, In u us /\ userId o = Some (user_id u) /\
            ~ (- 2147483648
               <= points u + match pointsUsed o with
                             | Some n => n
                             | None => 0
                             end
               <= 2147483647).
Proof.
  unfold creditFits. intros H.
  assert (E : existsb (fun u => negb (negb (isUserOf o u) ||
                       fitsInteger (points (creditPoints (pointsUsed o) u))))
                us = true).
  { induction us as [|u us IH]; simpl in *; [discriminate|].
    destruct (negb (isUserOf o u) || fitsInteger _); simpl in *; auto. }
  apply existsb_exists in E. destruct E as (u & Hin & Hu).
  apply negb_true_iff, orb_false_iff in Hu. destruct Hu as [Hm Hf].
  apply negb_false_iff in Hm.
  exists u. split; [exact Hin|]. split.
  - unfold isUserOf, sqlEq in Hm. destruct (userId o) as [uid|];
      [|discriminate].
    apply String.eqb_eq in Hm. now rewrite Hm.
  - intros R. apply fitsInteger_range in R.
    unfold creditPoints in Hf. cbn [points] in Hf. congruence.
Qed.

(* ------------------------------------------------------------------ *)
(** * Fulfilment: the properties of the specification *)

(** C1, as stated, fails: the code tells a claimed card by the
    truthiness of its key.  A card whose key is the empty string is
    eligible and is consumed, yet the order ends [paid] without a key,
    which is the outcome the claim keeps for the case where no eligible
    card exists. *)
Lemma fulfill_blank_card_not_delivered :
  findFirst (hasOrderId "O") (orders Scenario.dbBlank) = Some Sample.orderO /\
  status Sample.orderO = pending /\
  eligible Sample.admin "O" "P" Scenario.blankCard = true /\
  processOrderFulfillment Sample.admin "O" (Js.parseFloat "9.99") "T1"
    Scenario.dbBlank
  = (mkDb
       [mkOrder "O" "P" "9.99" paid (Some "T1") None (Some "u1") (Some 5)
          (Some 100500) None]
       [mkCard 7 "P" EmptyString (Some true) (Some 100000) None None;
        Sample.cardK1]
       [mkLoginUser "u1" 10] [],
     Ok (mkResponse true (Some processed))).
Proof. repeat split. Qed.

(** C1, amended. A [pending] or [cancelled] order whose paid amount is
    within 0.01 of its recorded amount is fulfilled, no statement
    failing: the call answers [processed] and leaves the order in
    exactly one of two states.  Either it is [delivered], with [paidAt],
    [deliveredAt] and [tradeNo] set and with the non-empty key of a card
    that the call has marked used; or it is [paid], with [paidAt] and
    [tradeNo] set and [cardKey] left as it was (null on an order that
    had none).  It is [paid], and no card is touched, when no eligible
    card exists; it is [delivered] when one exists and the keys of the
    cards are non-empty strings.  The same call, repeated, answers
    [already_processed] and changes nothing. *)
Theorem fulfill_pending_order (env : Env) (oid : string)
  (paidAmount : float) (trade : string) (db : Db) (o : Order) :
  findFirst (hasOrderId oid) (orders db) = Some o ->
  status o = pending \/ status o = cancelled ->
  amountMismatch paidAmount (Js.parseFloat (amount o)) = false ->
  quiet env ->
  exists db' o',
    processOrderFulfillment env oid paidAmount trade db
    = (db', Ok (mkResponse true (Some processed))) /\
    findFirst (hasOrderId oid) (orders db') = Some o' /\
    (deliveredWith env trade (cards db') o' \/ paidWithout env trade o o') /\
    ~ (deliveredWith env trade (cards db') o' /\ paidWithout env trade o o') /\
    ((forall c, In c (cards db) -> eligible env oid (productId o) c = false) ->
     paidWithout env trade o o' /\ cards db' = cards db) /\
    ((forall c, In c (cards db) -> card_key c <> EmptyString) ->
     (exists c, In c (cards db) /\ eligible env oid (productId o) c = true) ->
     deliveredWith env trade (cards db') o') /\
    (forall env',
       processOrderFulfillment env' oid paidAmount trade db'
       = (db', Ok (mkResponse true (Some already_processed)))).
Proof.
  intros H S M Q.
  set (out := claimOutcome env oid (productId o) (cards db)).
  exists (fulfilled env oid trade o db), (settle env trade (snd out) o).
  split; [apply fulfill_processed; assumption|].
  split; [apply findFirst_settled; exact H|].
  split.
  { simpl. destruct (Js.truthy (snd out)) eqn:T.
    - left. now apply settle_delivered.
    - right. now apply settle_paid. }
  split; [apply (delivered_not_paid env trade _ o)|].
  split.
  { intros Hno. simpl. unfold out.
    rewrite (claimOutcome_no_stock _ _ _ _ Hno). simpl.
    split; [now apply settle_paid | reflexivity]. }
  split.
  { intros Hk (c & Hin & He). simpl.
    apply settle_delivered.
    exact (claimOutcome_stock env oid (productId o) (cards db) c Hk Hin He). }
  intros env'.
  exact (fulfill_settled_again env env' oid paidAmount trade (snd out)
           (orders db) (fst out) (loginUsers db) (refundRequests db) o H M).
Qed.

Lemma fulfill_pending_order_witness :
  exists db' o',
    processOrderFulfillment Sample.admin "O" (Js.parseFloat "9.99") "T1"
      Sample.db
    = (db', Ok (mkResponse true (Some processed))) /\
    findFirst (hasOrderId "O") (orders db') = Some o' /\
    (deliveredWith Sample.admin "T1" (cards db') o' \/
     paidWithout Sample.admin "T1" Sample.orderO o') /\
    ~ (deliveredWith Sample.admin "T1" (cards db') o' /\
       paidWithout Sample.admin "T1" Sample.orderO o') /\
    ((forall c, In c (cards Sample.db) ->
                eligible Sample.admin "O" "P" c = false) ->
     paidWithout Sample.admin "T1" Sample.orderO o' /\
     cards db' = cards Sample.db) /\
    ((forall c, In c (cards Sample.db) -> card_key c <> EmptyString) ->
     (exists c, In c (cards Sample.db) /\
                eligible Sample.admin "O" "P" c = true) ->
     deliveredWith Sample.admin "T1" (cards db') o') /\
    (forall env',
       processOrderFulfillment env' "O" (Js.parseFloat "9.99") "T1" db'
       = (db', Ok (mkResponse true (Some already_processed)))).
Proof.
  apply (fulfill_pending_order Sample.admin "O" (Js.parseFloat "9.99") "T1"
           Sample.db Sample.orderO).
  - reflexivity.
  - left. reflexivity.
  - reflexivity.
  - intros s. reflexivity.
Defined.

(** C5. When the paid amount differs from the recorded amount of an
    existing order by more than 0.01 (the difference being the one the
    code computes, in binary64), the call fails with [AmountMismatch] and
    the tables are left exactly as they were. *)
Theorem fulfill_amount_mismatch (env : Env) (oid : string)
  (paidAmount : float) (trade : string) (db : Db) (o : Order) :
  findFirst (hasOrderId oid) (orders db) = Some o ->
  PrimFloat.ltb epsilon
    (PrimFloat.abs (paidAmount - Js.parseFloat (amount o))) = true ->
  processOrderFulfillment env oid paidAmount trade db
  = (db, Err (AmountMismatch (Js.parseFloat (amount o)) paidAmount)).
Proof.
  intros H M. apply fulfill_mismatch; assumption.
Qed.

Lemma fulfill_amount_mismatch_witness :
  processOrderFulfillment Sample.admin "O" 11 "T1" Sample.db
  = (Sample.db, Err (AmountMismatch (Js.parseFloat "9.99") 11)).
Proof.
  apply (fulfill_amount_mismatch Sample.admin "O" 11 "T1" Sample.db
           Sample.orderO).
  - reflexivity.
  - reflexivity.
Defined.

(** C4, as stated, fails: the amount is checked before the status, so a
    call on a delivered order with a wrong amount raises
    [AmountMismatch] instead of answering [already_processed]. *)
Lemma fulfill_delivered_wrong_amount :
  findFirst (hasOrderId "O") (orders Sample.dbDelivered)
  = Some Sample.deliveredO /\
  status Sample.deliveredO = delivered /\
  processOrderFulfillment Sample.admin "O" 5 "T1" Sample.dbDelivered
  = (Sample.dbDelivered, Err (AmountMismatch (Js.parseFloat "9.99") 5)).
Proof. repeat split. Qed.

(** C4, amended. On an order whose status is neither [pending] nor
    [cancelled] the call writes nothing, whatever its arguments; it
    answers [already_processed] when the paid amount is within 0.01 of the
    recorded amount, and fails with [AmountMismatch] otherwise. *)
Theorem fulfill_processed_order_noop (env : Env) (oid : string)
  (paidAmount : float) (trade : string) (db : Db) (o : Order) :
  findFirst (hasOrderId oid) (orders db) = Some o ->
  status o <> pending -> status o <> cancelled ->
  fst (processOrderFulfillment env oid paidAmount trade db) = db /\
  (amountMismatch paidAmount (Js.parseFloat (amount o)) = false ->
   snd (processOrderFulfillment env oid paidAmount trade db)
   = Ok (mkResponse true (Some already_processed))) /\
  (amountMismatch paidAmount (Js.parseFloat (amount o)) = true ->
   snd (processOrderFulfillment env oid paidAmount trade db)
   = Err (AmountMismatch (Js.parseFloat (amount o)) paidAmount)).
Proof.
  intros H Hp Hc.
  destruct (amountMismatch paidAmount (Js.parseFloat (amount o))) eqn:M.
  - rewrite (fulfill_mismatch env oid paidAmount trade db o H M).
    repeat split; auto. discriminate.
  - rewrite (fulfill_already env oid paidAmount trade db o H M Hp Hc).
    repeat split; auto. discriminate.
Qed.

Lemma fulfill_processed_order_noop_witness :
  fst (processOrderFulfillment Sample.admin "O" 10 "T2" Sample.dbDelivered)
  = Sample.dbDelivered /\
  (amountMismatch 10 (Js.parseFloat "9.99") = false ->
   snd (processOrderFulfillment Sample.admin "O" 10 "T2" Sample.dbDelivered)
   = Ok (mkResponse true (Some already_processed))) /\
  (amountMismatch 10 (Js.parseFloat "9.99") = true ->
   snd (processOrderFulfillment Sample.admin "O" 10 "T2" Sample.dbDelivered)
   = Err (AmountMismatch (Js.parseFloat "9.99") 10)).
Proof.
  apply (fulfill_processed_order_noop Sample.admin "O" 10 "T2"
           Sample.dbDelivered Sample.deliveredO).
  - reflexivity.
  - discriminate.
  - discriminate.
Defined.

(** C6, as stated, fails: 10.00 against a recorded 9.99 is not a
    mismatch (the test is a strict [>] and the computed difference,
    0.00999999999999979, does not exceed 0.01), so the first call is
    accepted and delivers; the second call then finds the order
    processed. *)
Lemma fulfill_10_for_9_99_accepted :
  processOrderFulfillment Sample.admin "O" 10 "T1" Sample.db
  = (Sample.dbDelivered, Ok (mkResponse true (Some processed))) /\
  (forall a b,
     snd (processOrderFulfillment Sample.admin "O" 10 "T1" Sample.db)
     <> Err (AmountMismatch a b)) /\
  processOrderFulfillment Sample.admin "O" (Js.parseFloat "9.99") "T1"
    Sample.dbDelivered
  = (Sample.dbDelivered, Ok (mkResponse true (Some already_processed))).
Proof.
  split; [reflexivity|]. split; [|reflexivity].
  intros a b. discriminate.
Qed.

(** C6, amended. For a pending order with recorded amount 9.99, a call
    paying 10.00 does not fail, no statement failing: it answers
    [processed] and leaves the order [delivered] when a card is
    available, card keys being non-empty (and [paid] otherwise); a
    following call paying 9.99 answers [already_processed] and changes
    nothing. *)
Theorem fulfill_boundary_amount (env : Env) (oid trade : string) (db : Db)
  (o : Order) :
  findFirst (hasOrderId oid) (orders db) = Some o ->
  status o = pending ->
  amount o = "9.99" ->
  quiet env ->
  exists db' o',
    processOrderFulfillment env oid 10 trade db
    = (db', Ok (mkResponse true (Some processed))) /\
    findFirst (hasOrderId oid) (orders db') = Some o' /\
    (deliveredWith env trade (cards db') o' \/ paidWithout env trade o o') /\
    ((forall c, In c (cards db) -> card_key c <> EmptyString) ->
     (exists c, In c (cards db) /\ eligible env oid (productId o) c = true) ->
     deliveredWith env trade (cards db') o') /\
    (forall env',
       processOrderFulfillment env' oid (Js.parseFloat "9.99") trade db'
       = (db', Ok (mkResponse true (Some already_processed)))).
Proof.
  intros H S A R.
  assert (M10 : amountMismatch 10 (Js.parseFloat (amount o)) = false)
    by (rewrite A; reflexivity).
  assert (M9 : amountMismatch (Js.parseFloat "9.99")
                 (Js.parseFloat (amount o)) = false)
    by (rewrite A; reflexivity).
  set (out := claimOutcome env oid (productId o) (cards db)).
  exists (fulfilled env oid trade o db), (settle env trade (snd out) o).
  split; [apply fulfill_processed; auto|].
  split; [apply findFirst_settled; exact H|].
  split.
  { simpl. destruct (Js.truthy (snd out)) eqn:T.
    - left. now apply settle_delivered.
    - right. now apply settle_paid. }
  split.
  { intros Hk (c & Hin & He). simpl.
    apply settle_delivered.
    exact (claimOutcome_stock env oid (productId o) (cards db) c Hk Hin He). }
  intros env'.
  exact (fulfill_settled_again env env' oid (Js.parseFloat "9.99") trade
           (snd out) (orders db) (fst out) (loginUsers db)
           (refundRequests db) o H M9).
Qed.

Lemma fulfill_boundary_amount_witness :
  exists db' o',
    processOrderFulfillment Sample.admin "O" 10 "T1" Sample.db
    = (db', Ok (mkResponse true (Some processed))) /\
    findFirst (hasOrderId "O") (orders db') = Some o' /\
    (deliveredWith Sample.admin "T1" (cards db') o' \/
     paidWithout Sample.admin "T1" Sample.orderO o') /\
    ((forall c, In c (cards Sample.db) -> card_key c <> EmptyString) ->
     (exists c, In c (cards Sample.db) /\
                eligible Sample.admin "O" "P" c = true) ->
     deliveredWith Sample.admin "T1" (cards db') o') /\
    (forall env',
       processOrderFulfillment env' "O" (Js.parseFloat "9.99") "T1" db'
       = (db', Ok (mkResponse true (Some already_processed)))).
Proof.
  apply (fulfill_boundary_amount Sample.admin "O" "T1" Sample.db
           Sample.orderO).
  - reflexivity.
  - reflexivity.
  - reflexivity.
  - intros s. reflexivity.
Defined.

(* ------------------------------------------------------------------ *)
(** * Refund: the properties of the specification *)

(** C7, as stated, fails: the credit is guarded by the truthiness of
    [userId], so an order whose [userId] is the empty string, which is
    not null, is refunded without any credit, even to the user of that
    name. *)
Lemma compensate_skips_empty_user_id :
  findFirst (hasOrderId "O4") (orders Scenario.dbNoUser)
  = Some Scenario.orderNoUser /\
  userId Scenario.orderNoUser = Some EmptyString /\
  pointsUsed Scenario.orderNoUser = Some 5 /\
  markOrderRefunded Sample.admin "O4" Scenario.dbNoUser
  = (mkDb
       [mkOrder "O4" "P" "5.00" refunded (Some "T4") None (Some EmptyString)
          (Some 5) (Some 90000) None]
       [] [mkLoginUser EmptyString 10] [],
     Ok (mkResponse true None)).
Proof. repeat split. Qed.

(** C7, amended. A refund, by an administrator, of an existing order
    that spent [P > 0] points and names a user (a [userId] that is
    neither null nor the empty string), no statement failing and the
    balances staying within the range of the column, succeeds and adds
    exactly [P] to that user's balance, other balances untouched; the
    order ends [refunded]; and when the order holds a (non-empty) card
    key, every card with the order's product and that key is back in
    stock: [is_used = false], [used_at = NULL], the rest of the row as
    it was. *)
Theorem compensate_credits_points (env : Env) (oid : string) (db : Db)
  (o : Order) (uid : string) (P : Z) :
  isAdmin env = true ->
  quiet env ->
  findFirst (hasOrderId oid) (orders db) = Some o ->
  userId o = Some uid -> uid <> EmptyString ->
  pointsUsed o = Some P -> 0 < P ->
  (forall u, In u (loginUsers db) -> user_id u = uid ->
             - 2147483648 <= points u + P <= 2147483647) ->
  exists db',
    markOrderRefunded env oid db = (db', Ok (mkResponse true None)) /\
    loginUsers db'
    = map (fun u => if String.eqb (user_id u) uid
                    then mkLoginUser (user_id u) (points u + P) else u)
        (loginUsers db) /\
    (forall u,
       findFirst (fun u => String.eqb (user_id u) uid) (loginUsers db)
       = Some u ->
       exists u',
         findFirst (fun u => String.eqb (user_id u) uid) (loginUsers db')
         = Some u' /\ points u' = points u + P) /\
    (exists o', findFirst (hasOrderId oid) (orders db') = Some o' /\
                status o' = refunded) /\
    (forall k, cardKey o = Some k -> k <> EmptyString ->
       forall i c,
         nth_error (cards db) i = Some c ->
         product_id c = productId o -> card_key c = k ->
         nth_error (cards db') i
         = Some (mkCard (id c) (product_id c) (card_key c) (Some false) None
                   (reserved_order_id c) (reserved_at c))).
Proof.
  intros A Q H U Hu Pu Hp Hfit.
  assert (F : creditFits o (loginUsers db) = true)
    by (apply (creditFits_range o uid P); assumption).
  exists (refundedDb env oid o db).
  split; [apply (refund_succeeds env oid db o A H Q); now right|].
  cbn [refundedDb loginUsers orders cards].
  pose proof (refundedUsers_credit o uid P (loginUsers db) U Hu Pu Hp) as E.
  split; [exact E|].
  split.
  { intros u Fu. exists (mkLoginUser (user_id u) (points u + P)).
    split; [|reflexivity].
    rewrite E.
    change (map _ (loginUsers db))
      with (updateWhere (fun u => String.eqb (user_id u) uid)
              (fun u => mkLoginUser (user_id u) (points u + P))
              (loginUsers db)).
    rewrite findFirst_updateWhere, Fu; auto. }
  split.
  { exists (refundOrder o). split; [|reflexivity].
    apply findFirst_refunded. exact H. }
  intros k Ck Hk i c Hi Hprod Hkey.
  unfold refundedCards. rewrite Ck.
  apply truthy_Some in Hk. rewrite Hk.
  rewrite (updateWhere_nth _ _ _ i c Hi).
  assert (M : isCardOf o c = true).
  { unfold isCardOf, sqlEq. rewrite Ck, Hprod, Hkey.
    now rewrite !String.eqb_refl. }
  rewrite M. reflexivity.
Qed.

Lemma compensate_credits_points_witness :
  exists db',
    markOrderRefunded Sample.admin "O" Sample.dbDelivered
    = (db', Ok (mkResponse true None)) /\
    loginUsers db'
    = map (fun u => if String.eqb (user_id u) "u1"
                    then mkLoginUser (user_id u) (points u + 5) else u)
        (loginUsers Sample.dbDelivered) /\
    (forall u,
       findFirst (fun u => String.eqb (user_id u) "u1")
         (loginUsers Sample.dbDelivered) = Some u ->
       exists u',
         findFirst (fun u => String.eqb (user_id u) "u1") (loginUsers db')
         = Some u' /\ points u' = points u + 5) /\
    (exists o', findFirst (hasOrderId "O") (orders db') = Some o' /\
                status o' = refunded) /\
    (forall k, cardKey Sample.deliveredO = Some k -> k <> EmptyString ->
       forall i c,
         nth_error (cards Sample.dbDelivered) i = Some c ->
         product_id c = productId Sample.deliveredO -> card_key c = k ->
         nth_error (cards db') i
         = Some (mkCard (id c) (product_id c) (card_key c) (Some false) None
                   (reserved_order_id c) (reserved_at c))).
Proof.
  apply (compensate_credits_points Sample.admin "O" Sample.dbDelivered
           Sample.deliveredO "u1" 5).
  - reflexivity.
  - intros s. reflexivity.
  - reflexivity.
  - reflexivity.
  - discriminate.
  - reflexivity.
  - lia.
  - simpl. intros u [<-|[]] _. simpl. lia.
Defined.

(** C8. The code means the two auxiliary steps of a refund to be best
    effort, and misses: it swallows the error of a failed card statement
    or refund-request statement, but the failed statement has aborted
    the transaction.  When one of the two fails, a refund of an existing
    order by an administrator commits nothing, neither the credit nor
    the status; and it still answers success when the credit and the
    status statement have run. *)
Theorem compensate_swallowed_failure_commits_nothing (env : Env)
  (oid : string) (db : Db) (o : Order) :
  isAdmin env = true ->
  findFirst (hasOrderId oid) (orders db) = Some o ->
  (cardKey o <> None /\ cardKey o <> Some EmptyString /\
   fault env CardReturn <> None) \/
  fault env RequestUpdate <> None ->
  fst (markOrderRefunded env oid db) = db /\
  (fault env PointsCredit = None ->
   fault env OrderRefund = None ->
   creditFits o (loginUsers db) = true ->
   markOrderRefunded env oid db = (db, Ok (mkResponse true None))).
Proof.
  intros A H Sp.
  assert (S : refundSpoiled env o = true).
  { unfold refundSpoiled. destruct Sp as [(K1 & K2 & Fc)|Fr].
    - destruct (cardKey o) as [[|c k]|]; try congruence.
      destruct (fault env CardReturn); [reflexivity | congruence].
    - destruct (fault env RequestUpdate); [|congruence].
      apply orb_true_r. }
  rewrite (refund_in_transaction env oid db A).
  rewrite (refundInTx_outcome env oid db o H), S.
  split.
  - destruct (refundError env o (loginUsers db)); reflexivity.
  - intros F1 F2 Fit. unfold refundError, creditError.
    rewrite F1, F2, Fit. destruct (refundsPoints o); reflexivity.
Qed.

Lemma compensate_swallowed_failure_commits_nothing_witness :
  fst (markOrderRefunded Sample.adminFaulty "O" Sample.dbDelivered)
  = Sample.dbDelivered /\
  (fault Sample.adminFaulty PointsCredit = None ->
   fault Sample.adminFaulty OrderRefund = None ->
   creditFits Sample.deliveredO (loginUsers Sample.dbDelivered) = true ->
   markOrderRefunded Sample.adminFaulty "O" Sample.dbDelivered
   = (Sample.dbDelivered, Ok (mkResponse true None))).
Proof.
  apply (compensate_swallowed_failure_commits_nothing Sample.adminFaulty "O"
           Sample.dbDelivered Sample.deliveredO).
  - reflexivity.
  - reflexivity.
  - right. discriminate.
Defined.

(** The refund-request table is missing: the call answers success, and
    the delivered order is still [delivered], its user still at 10
    points, its card still used. *)
Example compensate_without_request_table :
  markOrderRefunded Sample.adminFaulty "O" Sample.dbDelivered
  = (mkDb
       [mkOrder "O" "P" "9.99" delivered (Some "T1") (Some "K1") (Some "u1")
          (Some 5) (Some 100500) (Some 100500)]
       [mkCard 1 "P" "K1" (Some true) (Some 100000) None None]
       [mkLoginUser "u1" 10] [],
     Ok (mkResponse true None)).
Proof. reflexivity. Qed.

(** The card row is gone and no statement fails: the update of the
    cards matches no row, which is no failure; credit and status
    commit. *)
Example compensate_card_gone :
  markOrderRefunded Sample.admin "O" Sample.dbCardGone
  = (mkDb
       [mkOrder "O" "P" "9.99" refunded (Some "T1") (Some "K1") (Some "u1")
          (Some 5) (Some 100500) (Some 100500)]
       [] [mkLoginUser "u1" 15]
       [mkRefundRequest "O" "processed" (Some 100500) (Some 100500)],
     Ok (mkResponse true None)).
Proof. reflexivity. Qed.

(* ------------------------------------------------------------------ *)
(** * The card-key invariant *)

(** C2, as stated, fails: a refund sets [status = refunded] and never
    writes [cardKey], so refunding a delivered order leaves a key on an
    order that is no longer delivered. *)
Lemma compensate_breaks_key_invariant :
  (forall o, In o (orders Sample.dbDelivered) -> keyIffDelivered o) /\
  exists o',
    In o' (orders (fst (markOrderRefunded Sample.admin "O"
                          Sample.dbDelivered))) /\
    status o' = refunded /\ cardKey o' = Some "K1" /\
    ~ keyIffDelivered o'.
Proof.
  split.
  - intros o [<-|[]]. split; [reflexivity | discriminate].
  - exists (refundOrder Sample.deliveredO).
    split; [left; reflexivity|].
    split; [reflexivity|]. split; [reflexivity|].
    intros [K _]. simpl in K.
    assert (D : refunded = delivered) by (apply K; discriminate).
    discriminate D.
Qed.

(** C2, amended. With [orderId] a key of the order table: a fulfilment
    keeps "[cardKey] is non-null iff [status = delivered]" on every
    order; a refund leaves every [cardKey] as it was; and every state
    reached by fulfilments and refunds from a state that satisfies the
    invariant satisfies "a delivered order has a card key, and an order
    with a card key is delivered or refunded". *)
Theorem key_invariant_amended (db : Db) :
  uniqueOrderIds db ->
  (forall o, In o (orders db) -> keyIffDelivered o) ->
  (forall env oid paidAmount trade o',
     In o' (orders (fst (processOrderFulfillment env oid paidAmount trade
                           db))) ->
     keyIffDelivered o') /\
  (forall env oid,
     map cardKey (orders (fst (markOrderRefunded env oid db)))
     = map cardKey (orders db)) /\
  (forall db', reachable db db' ->
     forall o', In o' (orders db') -> deliveredHasKey o').
Proof.
  intros U I. split; [|split].
  - intros env oid paidAmount trade.
    now apply fulfill_keeps_keyIffDelivered.
  - intros env oid. apply refund_keeps_cardKey.
  - intros db' R.
    apply (reachable_invariant db db' R U).
    intros o Hin. apply keyIffDelivered_weaken. now apply I.
Qed.

Lemma key_invariant_amended_witness :
  (forall env oid paidAmount trade o',
     In o' (orders (fst (processOrderFulfillment env oid paidAmount trade
                           Sample.db))) ->
     keyIffDelivered o') /\
  (forall env oid,
     map cardKey (orders (fst (markOrderRefunded env oid Sample.db)))
     = map cardKey (orders Sample.db)) /\
  (forall db', reachable Sample.db db' ->
     forall o', In o' (orders db') -> deliveredHasKey o').
Proof.
  apply (key_invariant_amended Sample.db).
  - unfold uniqueOrderIds. simpl. constructor; [|constructor].
    simpl. tauto.
  - simpl. intros o [<-|[]]. unfold keyIffDelivered. simpl.
    split; [congruence | discriminate].
Defined.

(* ------------------------------------------------------------------ *)
(** * Reservations *)

(** C9. Take an unused card reserved for order [X] at time [r].  A call
    that fulfils [X], no statement failing, takes the card: the row ends
    used at the time of the call, its reservation cleared.  While the
    reservation is less than a minute old, no call for another order
    touches the card ([id] being a key of the card table), whatever the
    call's arguments and whether its statements fail or not.  Once it is
    more than a minute old, the card is on offer to every order of its
    product: a call for another [pending] or [cancelled] order of that
    product, with a matching amount and no statement failing, takes it
    when it is the first card on offer (no card before it in the scan is
    on offer, none is reserved for the calling order), and delivers its
    key (the order ends [paid] when the key is the empty string). *)
Theorem reservation_protects_then_expires (db : Db) (X : string) (c : Card)
  (r : Z) :
  unused c = true ->
  reserved_order_id c = Some X ->
  reserved_at c = Some r ->
  (forall env i paidAmount trade o,
     quiet env ->
     nth_error (cards db) i = Some c ->
     findFirst (hasOrderId X) (orders db) = Some o ->
     status o = pending \/ status o = cancelled ->
     amountMismatch paidAmount (Js.parseFloat (amount o)) = false ->
     nth_error
       (cards (fst (processOrderFulfillment env X paidAmount trade db))) i
     = Some (mkCard (id c) (product_id c) (card_key c) (Some true)
               (Some (sqlNow env)) None None)) /\
  (forall env i oid paidAmount trade,
     sqlNow env - r < 60000 ->
     uniqueCardIds (cards db) ->
     nth_error (cards db) i = Some c ->
     oid <> X ->
     nth_error
       (cards (fst (processOrderFulfillment env oid paidAmount trade db))) i
     = Some c) /\
  (forall env oid paidAmount trade o pre post,
     quiet env ->
     r < sqlNow env - 60000 ->
     oid <> X ->
     cards db = pre ++ c :: post ->
     findFirst (hasOrderId oid) (orders db) = Some o ->
     status o = pending \/ status o = cancelled ->
     amountMismatch paidAmount (Js.parseFloat (amount o)) = false ->
     productId o = product_id c ->
     (forall c', In c' (pre ++ post) ->
                 reservedFor oid c' = false /\ id c' <> id c) ->
     (forall c', In c' pre ->
                 claimable (productId o) (sqlNow env) c' = false) ->
     exists db',
       processOrderFulfillment env oid paidAmount trade db
       = (db', Ok (mkResponse true (Some processed))) /\
       cards db'
       = pre ++ mkCard (id c) (product_id c) (card_key c) (Some true)
                  (Some (sqlNow env)) None None :: post /\
       findFirst (hasOrderId oid) (orders db')
       = Some (match card_key c with
               | EmptyString =>
                   mkOrder (orderId o) (productId o) (amount o) paid
                     (Some trade) (cardKey o) (userId o) (pointsUsed o)
                     (Some (now env)) (deliveredAt o)
               | String _ _ =>
                   mkOrder (orderId o) (productId o) (amount o) delivered
                     (Some trade) (Some (card_key c)) (userId o)
                     (pointsUsed o) (Some (now env)) (Some (now env))
               end)).
Proof.
  intros Hu Hx Hr. split; [|split].
  - intros env i paidAmount trade o Q Hi H S M.
    rewrite (fulfill_processed env X paidAmount trade db o H M S Q).
    cbn [fst fulfilled cards].
    apply (claimOutcome_reserved env X (productId o) (cards db) i c Hi).
    unfold reservedFor. now rewrite Hx, String.eqb_refl, Hu.
  - intros env i oid paidAmount trade Fresh U Hi Hne.
    destruct (fulfill_cases env oid paidAmount trade db)
      as [->|(o & H & S & M & ->)]; [exact Hi|].
    cbn [fst fulfilled cards]. apply claimOutcome_protected; auto.
    + unfold reservedFor. rewrite Hx.
      destruct (String.eqb_spec X oid); [congruence | reflexivity].
    + unfold claimable. rewrite Hr.
      assert (E : (r <? sqlNow env - oneMinute) = false)
        by (apply Z.ltb_ge; unfold oneMinute; lia).
      rewrite E. apply andb_false_r.
  - intros env oid paidAmount trade o pre post Q Stale Hne Ecs H S M Hp
      Hothers Hpre.
    assert (Hc : claimable (productId o) (sqlNow env) c = true).
    { unfold claimable. rewrite Hp, String.eqb_refl, Hu, Hr. simpl.
      apply Z.ltb_lt. unfold oneMinute. exact Stale. }
    assert (Hres : forall c', In c' (pre ++ c :: post) ->
                              reservedFor oid c' = false).
    { intros c' Hin. apply in_app_or in Hin.
      destruct Hin as [Hin|[<-|Hin]].
      - apply Hothers, in_or_app. now left.
      - unfold reservedFor. rewrite Hx.
        destruct (String.eqb_spec X oid); [congruence | reflexivity].
      - apply Hothers, in_or_app. now right. }
    assert (Hid : forall c', In c' (pre ++ post) -> id c' <> id c)
      by (intros c' Hin; now apply Hothers).
    pose proof (claimOutcome_first_on_offer env oid (productId o) pre post c
                  Hres Hid Hpre Hc) as Out.
    exists (fulfilled env oid trade o db). split.
    { apply (fulfill_processed env oid paidAmount trade db o H M S Q). }
    unfold fulfilled. rewrite Ecs, Out. cbn [fst snd cards orders].
    split; [reflexivity|].
    rewrite (findFirst_settled env trade _ oid (orders db) o H).
    unfold settle. destruct (card_key c); reflexivity.
Qed.

Lemma reservation_protects_then_expires_witness :
  nth_error
    (cards (fst (processOrderFulfillment Sample.admin "O"
                   (Js.parseFloat "9.99") "T1" Sample.dbTwoOrders))) 0
  = Some (mkCard 4 "P" "K4" (Some true) (Some 100000) None None) /\
  nth_error
    (cards (fst (processOrderFulfillment Sample.admin "O2"
                   (Js.parseFloat "9.99") "T2" Sample.dbTwoOrders))) 0
  = Some Sample.reservedK4 /\
  exists db',
    processOrderFulfillment Sample.adminLater "O2" (Js.parseFloat "9.99")
      "T2" Sample.dbTwoOrders
    = (db', Ok (mkResponse true (Some processed))) /\
    cards db'
    = [] ++ mkCard 4 "P" "K4" (Some true) (Some 200000) None None
         :: [Sample.cardK1] /\
    findFirst (hasOrderId "O2") (orders db')
    = Some (mkOrder "O2" "P" "9.99" delivered (Some "T2") (Some "K4") None
              None (Some 200500) (Some 200500)).
Proof.
  destruct (reservation_protects_then_expires Sample.dbTwoOrders "O"
              Sample.reservedK4 99990 eq_refl eq_refl eq_refl)
    as (Own & Fresh & Stale).
  split; [|split].
  - apply (Own Sample.admin 0%nat (Js.parseFloat "9.99") "T1" Sample.orderO).
    + intros s. reflexivity.
    + reflexivity.
    + reflexivity.
    + left. reflexivity.
    + reflexivity.
  - apply (Fresh Sample.admin 0%nat "O2" (Js.parseFloat "9.99") "T2").
    + simpl. lia.
    + unfold uniqueCardIds. simpl.
      constructor; [simpl; intros [E|[]]; discriminate E|].
      constructor; [simpl; tauto | constructor].
    + reflexivity.
    + discriminate.
  - apply (Stale Sample.adminLater "O2" (Js.parseFloat "9.99") "T2"
             Sample.orderO2 [] [Sample.cardK1]).
    + intros s. reflexivity.
    + simpl. lia.
    + discriminate.
    + reflexivity.
    + reflexivity.
    + left. reflexivity.
    + reflexivity.
    + reflexivity.
    + simpl. intros c' [<-|[]]. split; [reflexivity | discriminate].
    + simpl. tauto.
Defined.

(** A schema without reservation columns: the reserved-card statement
    fails, the legacy statement is refused by the aborted transaction,
    and the call fails without having written anything. *)
Example legacy_fallback_is_refused :
  processOrderFulfillment Sample.adminLegacy "O2" (Js.parseFloat "9.99")
    "T2" Sample.dbTwoOrders
  = (Sample.dbTwoOrders, Err (DbFailure inFailedTransaction)).
Proof. reflexivity. Qed.



(** Two cards were reserved for O, one of them of another product and
    one with a stale reservation: both are consumed, and O, an order of
    product P, receives the key of the card of product Q. *)
Example reserved_claim_sample :
  processOrderFulfillment Sample.admin "O" (Js.parseFloat "9.99") "T1"
    Sample.dbReserved
  = (mkDb
       [mkOrder "O" "P" "9.99" delivered (Some "T1") (Some "K2") (Some "u1")
          (Some 5) (Some 100500) (Some 100500)]
       [mkCard 2 "Q" "K2" (Some true) (Some 100000) None None;
        mkCard 3 "P" "K3" (Some true) (Some 100000) None None;
        Sample.cardK1]
       [mkLoginUser "u1" 10] [],
     Ok (mkResponse true (Some processed))).
Proof. reflexivity. Qed.

(* ------------------------------------------------------------------ *)
(** * Several fulfilments for one product *)












(** Product P has two free cards and three pending orders: the two
    orders served first are delivered, the third is paid. *)
Example serial_scenario :
  runCalls [Calls.forO5; Calls.forO; Calls.forO2] Scenario.dbTwoCards
  = mkDb
      [mkOrder "O" "P" "9.99" delivered (Some "T1") (Some "K6") (Some "u1")
         (Some 5) (Some 100500) (Some 100500);
       mkOrder "O2" "P" "9.99" paid (Some "T2") None None None
         (Some 100500) None;
       mkOrder "O5" "P" "9.99" delivered (Some "T5") (Some "K1") None None
         (Some 100500) (Some 100500)]
      [mkCard 1 "P" "K1" (Some true) (Some 100000) None None;
       mkCard 6 "P" "K6" (Some true) (Some 100000) None None]
      [mkLoginUser "u1" 10] [].
Proof. reflexivity. Qed.

(* ------------------------------------------------------------------ *)
(** * Failures write nothing *)

(** X1. A fulfilment that fails has written nothing, whichever statement
    fails, also when the failure comes after the card has been claimed.
    It fails because no order has the identifier; or because the order
    exists and the amount test fires; or, for a [pending] or [cancelled]
    order with a matching amount, with a database error: the error of
    the reserved-card statement when the [catch] clause does not take it
    for a missing column, the refusal of the aborted transaction when it
    does, or the error of the statement on offer or of the update of the
    order. *)
Theorem fulfill_failure_atomic (env : Env) (oid : string)
  (paidAmount : float) (trade : string) (db : Db) (e : Error) :
  snd (processOrderFulfillment env oid paidAmount trade db) = Err e ->
  fst (processOrderFulfillment env oid paidAmount trade db) = db /\
  ((findFirst (hasOrderId oid) (orders db) = None /\
    e = OrderNotFound oid) \/
   (exists o,
      findFirst (hasOrderId oid) (orders db) = Some o /\
      amountMismatch paidAmount (Js.parseFloat (amount o)) = true /\
      e = AmountMismatch (Js.parseFloat (amount o)) paidAmount) \/
   (exists o f,
      findFirst (hasOrderId oid) (orders db) = Some o /\
      amountMismatch paidAmount (Js.parseFloat (amount o)) = false /\
      (status o = pending \/ status o = cancelled) /\
      e = DbFailure f /\
      ((fault env ReservedClaim = Some f /\ isUndefinedColumn f = false) \/
       (f = inFailedTransaction /\
        exists f0, fault env ReservedClaim = Some f0 /\
                   isUndefinedColumn f0 = true) \/
       (fault env ReservedClaim = None /\
        (fault env OfferClaim = Some f \/ fault env OrderSettle = Some f))))).
Proof.
  destruct (findFirst (hasOrderId oid) (orders db)) as [o|] eqn:H.
  2:{ rewrite (fulfill_not_found env oid paidAmount trade db H). simpl.
      intros [= <-]. auto. }
  destruct (amountMismatch paidAmount (Js.parseFloat (amount o))) eqn:M.
  { rewrite (fulfill_mismatch env oid paidAmount trade db o H M). simpl.
    intros [= <-]. split; [reflexivity|]. right. left. exists o. auto. }
  assert (S : (status o = pending \/ status o = cancelled) \/
              (status o <> pending /\ status o <> cancelled)).
  { destruct (status o); auto; right; split; discriminate. }
  destruct S as [S|[Sp Sc]].
  2:{ rewrite (fulfill_already env oid paidAmount trade db o H M Sp Sc).
      discriminate. }
  rewrite (fulfill_in_transaction env oid paidAmount trade db o H M S).
  rewrite fulfillInTx_outcome.
  destruct (fault env ReservedClaim) as [f0|] eqn:F0.
  { simpl. intros [= <-]. split; [reflexivity|].
    right. right. destruct (isUndefinedColumn f0) eqn:C.
    - exists o, inFailedTransaction. repeat split; auto.
      right. left. split; [reflexivity|]. exists f0. auto.
    - exists o, f0. repeat split; auto. }
  destruct (Js.truthy _).
  - destruct (fault env OrderSettle) as [f|] eqn:F3; [|discriminate].
    simpl. intros [= <-]. split; [reflexivity|].
    right. right. exists o, f. repeat split; auto.
  - destruct (fault env OfferClaim) as [f|] eqn:F2.
    { simpl. intros [= <-]. split; [reflexivity|].
      right. right. exists o, f. repeat split; auto. }
    destruct (fault env OrderSettle) as [f|] eqn:F3; [|discriminate].
    simpl. intros [= <-]. split; [reflexivity|].
    right. right. exists o, f. repeat split; auto.
Qed.

Lemma fulfill_failure_atomic_witness :
  fst (processOrderFulfillment Scenario.settleBroken "O"
         (Js.parseFloat "9.99") "T1" Sample.db) = Sample.db /\
  ((findFirst (hasOrderId "O") (orders Sample.db) = None /\
    DbFailure (mkDbError (Some "connection terminated") "{}")
    = OrderNotFound "O") \/
   (exists o,
      findFirst (hasOrderId "O") (orders Sample.db) = Some o /\
      amountMismatch (Js.parseFloat "9.99") (Js.parseFloat (amount o))
      = true /\
      DbFailure (mkDbError (Some "connection terminated") "{}")
      = AmountMismatch (Js.parseFloat (amount o)) (Js.parseFloat "9.99")) \/
   (exists o f,
      findFirst (hasOrderId "O") (orders Sample.db) = Some o /\
      amountMismatch (Js.parseFloat "9.99") (Js.parseFloat (amount o))
      = false /\
      (status o = pending \/ status o = cancelled) /\
      DbFailure (mkDbError (Some "connection terminated") "{}")
      = DbFailure f /\
      ((fault Scenario.settleBroken ReservedClaim = Some f /\
        isUndefinedColumn f = false) \/
       (f = inFailedTransaction /\
        exists f0, fault Scenario.settleBroken ReservedClaim = Some f0 /\
                   isUndefinedColumn f0 = true) \/
       (fault Scenario.settleBroken ReservedClaim = None /\
        (fault Scenario.settleBroken OfferClaim = Some f \/
         fault Scenario.settleBroken OrderSettle = Some f))))).
Proof.
  apply (fulfill_failure_atomic Scenario.settleBroken "O"
           (Js.parseFloat "9.99") "T1" Sample.db).
  reflexivity.
Defined.

(** The connection is lost on the first statement of the transaction:
    the call fails with the error of the database. *)
Example fulfill_connection_lost :
  processOrderFulfillment Scenario.adminBroken "O" (Js.parseFloat "9.99")
    "T1" Sample.db
  = (Sample.db,
     Err (DbFailure (mkDbError (Some "connection terminated") "{}"))).
Proof. reflexivity. Qed.

(* ------------------------------------------------------------------ *)
(** * What a fulfilment leaves alone *)

Lemma claimOutcome_map {B} (g : Card -> B) (env : Env) (oid pid : string)
  (cs : list Card) :
  (forall t c, g (markUsed t c) = g c) ->
  map g (fst (claimOutcome env oid pid cs)) = map g cs.
Proof.
  intros H1. unfold claimOutcome.
  destruct (Js.truthy _); simpl; now rewrite !updateWhere_map.
Qed.

Lemma orderIdentity_settle (env : Env) (trade : string)
  (key : option string) (o : Order) :
  orderIdentity (settle env trade key o) = orderIdentity o.
Proof. unfold settle. destruct (Js.truthy key); reflexivity. Qed.

(** X2. A fulfilment, whatever it answers, never touches the users or
    the refund requests, never adds, removes or reorders a row, never
    rewrites an order with another identifier, and on every order and
    card leaves the identifying columns as they were. *)
Theorem fulfill_frame (env : Env) (oid : string) (paidAmount : float)
  (trade : string) (db : Db) :
  loginUsers (fst (processOrderFulfillment env oid paidAmount trade db))
  = loginUsers db /\
  refundRequests (fst (processOrderFulfillment env oid paidAmount trade db))
  = refundRequests db /\
  map orderIdentity
    (orders (fst (processOrderFulfillment env oid paidAmount trade db)))
  = map orderIdentity (orders db) /\
  map cardIdentity
    (cards (fst (processOrderFulfillment env oid paidAmount trade db)))
  = map cardIdentity (cards db) /\
  (forall i o,
     nth_error (orders db) i = Some o -> orderId o <> oid ->
     nth_error
       (orders (fst (processOrderFulfillment env oid paidAmount trade db))) i
     = Some o).
Proof.
  destruct (fulfill_cases env oid paidAmount trade db)
    as [->|(o & H & S & M & ->)]; [auto 10|].
  cbn [fst fulfilled orders cards loginUsers refundRequests].
  split; [reflexivity|]. split; [reflexivity|].
  split.
  { apply updateWhere_map. intros r. apply orderIdentity_settle. }
  split.
  { apply claimOutcome_map; reflexivity. }
  intros i r Hi Hne.
  rewrite (updateWhere_nth _ _ _ i r Hi).
  unfold hasOrderId. destruct (String.eqb_spec (orderId r) oid);
    [contradiction | reflexivity].
Qed.

Lemma fulfill_frame_witness :
  nth_error
    (orders (fst (processOrderFulfillment Sample.admin "O"
                    (Js.parseFloat "9.99") "T1" Sample.dbTwoOrders))) 1
  = Some Sample.orderO2.
Proof.
  destruct (fulfill_frame Sample.admin "O" (Js.parseFloat "9.99") "T1"
              Sample.dbTwoOrders) as (_ & _ & _ & _ & Hothers).
  apply (Hothers 1%nat Sample.orderO2).
  - reflexivity.
  - discriminate.
Defined.

(** Each row of the card table after the claim is the row before it,
    untouched or marked used at the time of the call. *)
Lemma claimOutcome_rows (env : Env) (oid pid : string) (cs : list Card)
  (i : nat) (c : Card) :
  nth_error cs i = Some c ->
  exists c',
    nth_error (fst (claimOutcome env oid pid cs)) i = Some c' /\
    (c' = c \/ c' = markUsed (sqlNow env) c).
Proof.
  intros Hi. unfold claimOutcome.
  pose proof (updateWhere_nth (reservedFor oid) (markUsed (sqlNow env))
                cs i c Hi) as H1.
  destruct (Js.truthy _); simpl.
  - rewrite H1. destruct (reservedFor oid c); eauto.
  - rewrite (updateWhere_nth _ _ _ i _ H1).
    destruct (reservedFor oid c), (hasSelectedId _ _); eauto.
Qed.

(** With [id] a key of the card table, a row that the claim rewrites was
    an unused card. *)
Lemma claimOutcome_rewrites_unused (env : Env) (oid pid : string)
  (cs : list Card) (i : nat) (c c' : Card) :
  uniqueCardIds cs ->
  nth_error cs i = Some c ->
  nth_error (fst (claimOutcome env oid pid cs)) i = Some c' ->
  c' <> c ->
  unused c = true.
Proof.
  intros U Hi. unfold claimOutcome, findFirst.
  set (cs1 := updateWhere (reservedFor oid) (markUsed (sqlNow env)) cs).
  assert (H1 : nth_error cs1 i
               = Some (if reservedFor oid c
                       then markUsed (sqlNow env) c else c))
    by (apply updateWhere_nth; exact Hi).
  assert (U1 : uniqueCardIds cs1).
  { unfold uniqueCardIds, cs1. rewrite updateWhere_map; auto. }
  destruct (reservedFor oid c) eqn:Rc.
  { intros _ _. unfold reservedFor in Rc.
    now apply andb_true_iff in Rc. }
  destruct (Js.truthy _); simpl; [congruence|].
  rewrite (updateWhere_nth _ _ _ i c H1).
  destruct (find (claimable pid (sqlNow env)) cs1) as [s|] eqn:Ef; simpl;
    [|congruence].
  apply find_some in Ef. destruct Ef as [Hs Cs].
  destruct (id c =? id s) eqn:E; [|congruence].
  apply Z.eqb_eq in E. intros _ _.
  assert (s = c) by (apply (In_nth_error_id cs1 i c s); auto).
  subst s. unfold claimable in Cs.
  apply andb_true_iff in Cs. destruct Cs as [Cs _].
  now apply andb_true_iff in Cs.
Qed.

(** X3. A fulfilment only ever consumes cards.  Whatever it answers,
    each card row is afterwards either exactly as it was or marked used
    at the time of the call, so a used card stays used; and with [id] a
    key of the card table the rows it rewrites were unused cards. *)
Theorem fulfill_only_consumes (env : Env) (oid : string)
  (paidAmount : float) (trade : string) (db : Db) (i : nat) (c : Card) :
  nth_error (cards db) i = Some c ->
  exists c',
    nth_error
      (cards (fst (processOrderFulfillment env oid paidAmount trade db))) i
    = Some c' /\
    (c' = c \/
     (is_used c' = Some true /\ used_at c' = Some (sqlNow env))) /\
    (is_used c = Some true -> is_used c' = Some true) /\
    (uniqueCardIds (cards db) -> c' <> c -> unused c = true).
Proof.
  intros Hi.
  destruct (fulfill_cases env oid paidAmount trade db)
    as [->|(o & H & S & M & ->)].
  { exists c. repeat split; auto. }
  cbn [fst fulfilled cards].
  destruct (claimOutcome_rows env oid (productId o) (cards db) i c Hi)
    as (c' & Hc' & Hrow).
  exists c'. split; [exact Hc'|].
  split; [|split].
  - destruct Hrow as [->| ->]; auto.
  - destruct Hrow as [->| ->]; auto.
  - intros U Hne.
    exact (claimOutcome_rewrites_unused env oid (productId o) (cards db)
             i c c' U Hi Hc' Hne).
Qed.

Lemma fulfill_only_consumes_witness :
  exists c',
    nth_error
      (cards (fst (processOrderFulfillment Sample.admin "O"
                     (Js.parseFloat "9.99") "T1" Sample.dbReserved))) 1
    = Some c' /\
    (c' = Sample.reservedK3 \/
     (is_used c' = Some true /\ used_at c' = Some (sqlNow Sample.admin))) /\
    (is_used Sample.reservedK3 = Some true -> is_used c' = Some true) /\
    (uniqueCardIds (cards Sample.dbReserved) -> c' <> Sample.reservedK3 ->
     unused Sample.reservedK3 = true).
Proof.
  apply (fulfill_only_consumes Sample.admin "O" (Js.parseFloat "9.99") "T1"
           Sample.dbReserved 1%nat Sample.reservedK3).
  reflexivity.
Defined.

(* ------------------------------------------------------------------ *)
(** * Which card a call takes *)

(** X4. The fallback for a schema without reservation columns never
    delivers: when the reserved-card statement fails, also with an error
    that the [catch] clause takes for a missing column, the failed
    statement has aborted the transaction, the legacy statement is
    refused, and the call fails with that refusal, nothing written. *)
Theorem missing_column_fallback_fails (env : Env) (oid : string)
  (paidAmount : float) (trade : string) (db : Db) (o : Order)
  (f : DbError) :
  findFirst (hasOrderId oid) (orders db) = Some o ->
  status o = pending \/ status o = cancelled ->
  amountMismatch paidAmount (Js.parseFloat (amount o)) = false ->
  fault env ReservedClaim = Some f ->
  isUndefinedColumn f = true ->
  processOrderFulfillment env oid paidAmount trade db
  = (db, Err (DbFailure
                (mkDbError
                   (Some ("current transaction is aborted, " ++
                          "commands ignored until end of transaction block")
                         %string)
                   (Js.withQuotes "{'severity':'ERROR','code':'25P02'}")))).
Proof.
  intros H S M F C.
  rewrite (fulfill_in_transaction env oid paidAmount trade db o H M S).
  rewrite fulfillInTx_outcome, F, C. reflexivity.
Qed.

Lemma missing_column_fallback_fails_witness :
  processOrderFulfillment Sample.adminLegacy "O2" (Js.parseFloat "9.99") "T2"
    Sample.dbTwoOrders
  = (Sample.dbTwoOrders,
     Err (DbFailure
            (mkDbError
               (Some ("current transaction is aborted, " ++
                      "commands ignored until end of transaction block")
                     %string)
               (Js.withQuotes "{'severity':'ERROR','code':'25P02'}")))).
Proof.
  apply (missing_column_fallback_fails Sample.adminLegacy "O2"
           (Js.parseFloat "9.99") "T2" Sample.dbTwoOrders Sample.orderO2
           (mkDbError (Some "column reserved_order_id does not exist")
              (Js.withQuotes "{'severity':'ERROR','code':'42703'}"))).
  - reflexivity.
  - left. reflexivity.
  - reflexivity.
  - reflexivity.
  - reflexivity.
Defined.

(** X5. With [id] a key of the card table, no card reserved for the
    order and no statement failing, a fulfilment rewrites at most one
    card row: none when no card of the product is on offer, otherwise
    exactly the first card on offer in the scan, which ends used at the
    time of the call, its reservation cleared. *)
Theorem unreserved_claim_takes_one (env : Env) (oid : string)
  (paidAmount : float) (trade : string) (db : Db) (o : Order) :
  quiet env ->
  uniqueCardIds (cards db) ->
  (forall c, In c (cards db) -> reservedFor oid c = false) ->
  findFirst (hasOrderId oid) (orders db) = Some o ->
  status o = pending \/ status o = cancelled ->
  amountMismatch paidAmount (Js.parseFloat (amount o)) = false ->
  ((forall c, In c (cards db) ->
              claimable (productId o) (sqlNow env) c = false) /\
   cards (fst (processOrderFulfillment env oid paidAmount trade db))
   = cards db) \/
  (exists pre c post,
     cards db = pre ++ c :: post /\
     claimable (productId o) (sqlNow env) c = true /\
     (forall c', In c' pre ->
                 claimable (productId o) (sqlNow env) c' = false) /\
     cards (fst (processOrderFulfillment env oid paidAmount trade db))
     = pre ++ mkCard (id c) (product_id c) (card_key c) (Some true)
                (Some (sqlNow env)) None None :: post).
Proof.
  intros Q U Hres H S M.
  rewrite (fulfill_processed env oid paidAmount trade db o H M S Q).
  cbn [fst fulfilled cards].
  destruct (find (claimable (productId o) (sqlNow env)) (cards db))
    as [c|] eqn:Ef.
  - right. destruct (find_split _ _ _ Ef) as (pre & post & E & Hc & Hpre).
    exists pre, c, post. repeat split; auto.
    rewrite E in *.
    rewrite (claimOutcome_first_on_offer env oid (productId o) pre post c
               Hres (unique_split pre post c U) Hpre Hc).
    reflexivity.
  - left. pose proof (find_none _ _ Ef) as Hno. split; [exact Hno|].
    rewrite claimOutcome_no_stock; [reflexivity|].
    intros c Hin. unfold eligible. rewrite (Hres c Hin), (Hno c Hin).
    reflexivity.
Qed.

Lemma unreserved_claim_takes_one_witness :
  ((forall c, In c (cards Sample.db) ->
              claimable (productId Sample.orderO) (sqlNow Sample.admin) c
              = false) /\
   cards (fst (processOrderFulfillment Sample.admin "O"
                 (Js.parseFloat "9.99") "T1" Sample.db))
   = cards Sample.db) \/
  (exists pre c post,
     cards Sample.db = pre ++ c :: post /\
     claimable (productId Sample.orderO) (sqlNow Sample.admin) c = true /\
     (forall c', In c' pre ->
                 claimable (productId Sample.orderO) (sqlNow Sample.admin) c'
                 = false) /\
     cards (fst (processOrderFulfillment Sample.admin "O"
                   (Js.parseFloat "9.99") "T1" Sample.db))
     = pre ++ mkCard (id c) (product_id c) (card_key c) (Some true)
                (Some (sqlNow Sample.admin)) None None :: post).
Proof.
  apply (unreserved_claim_takes_one Sample.admin "O" (Js.parseFloat "9.99")
           "T1" Sample.db Sample.orderO).
  - intros s. reflexivity.
  - unfold uniqueCardIds. simpl. constructor; [simpl; tauto | constructor].
  - simpl. intros c [<-|[]]. reflexivity.
  - reflexivity.
  - left. reflexivity.
  - reflexivity.
Defined.

(** X6. A card whose key is the empty string is consumed without being
    delivered: when it is the first card on offer, no card is reserved
    for the order and no statement fails, the call marks it used and,
    the key being falsy, records the order as [paid], with [paidAt] and
    [tradeNo] set and [cardKey] left as it was. *)
Theorem empty_key_card_is_lost (env : Env) (oid : string)
  (paidAmount : float) (trade : string) (db : Db) (o : Order)
  (pre post : list Card) (c : Card) :
  quiet env ->
  findFirst (hasOrderId oid) (orders db) = Some o ->
  status o = pending \/ status o = cancelled ->
  amountMismatch paidAmount (Js.parseFloat (amount o)) = false ->
  cards db = pre ++ c :: post ->
  card_key c = EmptyString ->
  claimable (productId o) (sqlNow env) c = true ->
  (forall c', In c' pre ->
              claimable (productId o) (sqlNow env) c' = false) ->
  (forall c', In c' (pre ++ post) -> id c' <> id c) ->
  (forall c', In c' (cards db) -> reservedFor oid c' = false) ->
  exists db',
    processOrderFulfillment env oid paidAmount trade db
    = (db', Ok (mkResponse true (Some processed))) /\
    cards db'
    = pre ++ mkCard (id c) (product_id c) EmptyString (Some true)
               (Some (sqlNow env)) None None :: post /\
    findFirst (hasOrderId oid) (orders db')
    = Some (mkOrder (orderId o) (productId o) (amount o) paid (Some trade)
              (cardKey o) (userId o) (pointsUsed o) (Some (now env))
              (deliveredAt o)).
Proof.
  intros Q H S M Ecs K Hc Hpre Hid Hres.
  rewrite Ecs in Hres.
  pose proof (claimOutcome_first_on_offer env oid (productId o) pre post c
                Hres Hid Hpre Hc) as Out.
  exists (fulfilled env oid trade o db). split.
  { apply (fulfill_processed env oid paidAmount trade db o H M S Q). }
  unfold fulfilled. rewrite Ecs, Out. cbn [fst snd cards orders].
  split; [unfold markUsed; now rewrite K|].
  rewrite (findFirst_settled env trade _ oid (orders db) o H).
  rewrite K. reflexivity.
Qed.

Lemma empty_key_card_is_lost_witness :
  exists db',
    processOrderFulfillment Sample.admin "O" (Js.parseFloat "9.99") "T1"
      Scenario.dbBlank
    = (db', Ok (mkResponse true (Some processed))) /\
    cards db'
    = [] ++ mkCard (id Scenario.blankCard) (product_id Scenario.blankCard)
              EmptyString (Some true) (Some (sqlNow Sample.admin)) None None
         :: [Sample.cardK1] /\
    findFirst (hasOrderId "O") (orders db')
    = Some (mkOrder (orderId Sample.orderO) (productId Sample.orderO)
              (amount Sample.orderO) paid (Some "T1")
              (cardKey Sample.orderO) (userId Sample.orderO)
              (pointsUsed Sample.orderO) (Some (now Sample.admin))
              (deliveredAt Sample.orderO)).
Proof.
  apply (empty_key_card_is_lost Sample.admin "O" (Js.parseFloat "9.99") "T1"
           Scenario.dbBlank Sample.orderO [] [Sample.cardK1]
           Scenario.blankCard).
  - intros s. reflexivity.
  - reflexivity.
  - left. reflexivity.
  - reflexivity.
  - reflexivity.
  - reflexivity.
  - reflexivity.
  - simpl. tauto.
  - simpl. intros c' [<-|[]]. discriminate.
  - simpl. intros c' [<-|[<-|[]]]; reflexivity.
Defined.

(* ------------------------------------------------------------------ *)
(** * The amount test and NaN *)

Lemma SFcompare_refl_finite (s : bool) (m : positive) (e : Z) :
  SFcompare (S754_finite s m e) (S754_finite s m e) = Some Eq.
Proof.
  simpl. rewrite Z.compare_refl, Pos.compare_refl.
  destruct s; reflexivity.
Qed.

Lemma is_nan_Prim2SF (x : float) :
  PrimFloat.is_nan x = true -> Prim2SF x = S754_nan.
Proof.
  unfold PrimFloat.is_nan. rewrite eqb_spec. unfold SFeqb.
  destruct (Prim2SF x) as [s|s| |s m e]; try reflexivity.
  - destruct s; discriminate.
  - destruct s; discriminate.
  - rewrite SFcompare_refl_finite. discriminate.
Qed.

Lemma SFltb_nan_r (x : spec_float) : SFltb x S754_nan = false.
Proof. destruct x as [s|s| |s m e]; try destruct s; reflexivity. Qed.

(** The test [Math.abs(paid - money) > 0.01] is false as soon as one of
    the two numbers is NaN. *)
Lemma amountMismatch_nan (paidAmount orderMoney : float) :
  PrimFloat.is_nan paidAmount = true \/
  PrimFloat.is_nan orderMoney = true ->
  amountMismatch paidAmount orderMoney = false.
Proof.
  intros N. unfold amountMismatch.
  rewrite ltb_spec, abs_spec, sub_spec.
  assert (E : SF64sub (Prim2SF paidAmount) (Prim2SF orderMoney) = S754_nan).
  { destruct N as [N|N]; apply is_nan_Prim2SF in N; rewrite N.
    - reflexivity.
    - destruct (Prim2SF paidAmount) as [s|s| |s m e]; reflexivity. }
  rewrite E. apply SFltb_nan_r.
Qed.

(** X7. The amount guard does not stop NaN: when the paid amount is NaN,
    or the recorded amount does not parse as a number, the test
    [Math.abs(paidAmount - orderMoney) > 0.01] is false, so a [pending]
    or [cancelled] order is processed, no statement failing, as if the
    amount matched. *)
Theorem nan_amount_is_accepted (env : Env) (oid : string)
  (paidAmount : float) (trade : string) (db : Db) (o : Order) :
  findFirst (hasOrderId oid) (orders db) = Some o ->
  status o = pending \/ status o = cancelled ->
  quiet env ->
  PrimFloat.is_nan paidAmount = true \/
  PrimFloat.is_nan (Js.parseFloat (amount o)) = true ->
  snd (processOrderFulfillment env oid paidAmount trade db)
  = Ok (mkResponse true (Some processed)) /\
  exists o',
    findFirst (hasOrderId oid)
      (orders (fst (processOrderFulfillment env oid paidAmount trade db)))
    = Some o' /\
    (status o' = delivered \/ status o' = paid) /\
    tradeNo o' = Some trade.
Proof.
  intros H S Q N.
  pose proof (amountMismatch_nan paidAmount (Js.parseFloat (amount o)) N)
    as M.
  rewrite (fulfill_processed env oid paidAmount trade db o H M S Q).
  cbn [fst snd fulfilled orders].
  split; [reflexivity|].
  eexists. split; [apply findFirst_settled; exact H|].
  unfold settle. destruct (Js.truthy _); simpl; auto.
Qed.

Lemma nan_amount_is_accepted_witness :
  snd (processOrderFulfillment Sample.admin "O" (Js.parseFloat "abc") "T1"
         Sample.db)
  = Ok (mkResponse true (Some processed)) /\
  exists o',
    findFirst (hasOrderId "O")
      (orders (fst (processOrderFulfillment Sample.admin "O"
                      (Js.parseFloat "abc") "T1" Sample.db)))
    = Some o' /\
    (status o' = delivered \/ status o' = paid) /\
    tradeNo o' = Some "T1".
Proof.
  apply (nan_amount_is_accepted Sample.admin "O" (Js.parseFloat "abc") "T1"
           Sample.db Sample.orderO).
  - reflexivity.
  - left. reflexivity.
  - intros s. reflexivity.
  - left. reflexivity.
Defined.

(* ------------------------------------------------------------------ *)
(** * Refunds: failures, frame, repetition *)

(** X8. A refund that fails has written nothing, also when the failure
    comes after the credit.  It fails because the caller is not an
    administrator, whatever the order; or because no order has the
    identifier; or with a database error: the error of the credit, which
    is the database's or the overflow of a balance, or the error of the
    update of the status.  A failure of the card statement or of the
    refund-request statement never reaches the caller. *)
Theorem refund_failure_atomic (env : Env) (oid : string) (db : Db)
  (e : Error) :
  snd (markOrderRefunded env oid db) = Err e ->
  fst (markOrderRefunded env oid db) = db /\
  ((isAdmin env = false /\ e = Unauthorized) \/
   (isAdmin env = true /\
    findFirst (hasOrderId oid) (orders db) = None /\
    e = OrderNotFound oid) \/
   (isAdmin env = true /\
    exists o f,
      findFirst (hasOrderId oid) (orders db) = Some o /\
      e = DbFailure f /\
      (fault env PointsCredit = Some f \/
       (f = mkDbError (Some "integer out of range")
              (Js.withQuotes "{'severity':'ERROR','code':'22003'}") /\
        exists u,
          In u (loginUsers db) /\ userId o = Some (user_id u) /\
          ~ (- 2147483648
             <= points u + match pointsUsed o with
                           | Some n => n
                           | None => 0
                           end
             <= 2147483647)) \/
       fault env OrderRefund = Some f))).
Proof.
  destruct (isAdmin env) eqn:A.
  2:{ rewrite (refund_unauthorized env oid db A). cbn [fst snd].
      intros [= <-]. auto 10. }
  destruct (findFirst (hasOrderId oid) (orders db)) as [o|] eqn:H.
  2:{ rewrite (refund_not_found env oid db A H). cbn [fst snd].
      intros [= <-]. auto 10. }
  rewrite (refund_in_transaction env oid db A).
  rewrite (refundInTx_outcome env oid db o H).
  unfold refundError, creditError.
  destruct (refundsPoints o).
  - destruct (fault env PointsCredit) as [f|] eqn:F1.
    { cbn [fst snd]. intros [= <-]. split; [reflexivity|].
      right. right. split; [reflexivity|]. exists o, f. auto. }
    destruct (creditFits o (loginUsers db)) eqn:Fit.
    + destruct (fault env OrderRefund) as [f|] eqn:F2.
      { cbn [fst snd]. intros [= <-]. split; [reflexivity|].
        right. right. split; [reflexivity|]. exists o, f. auto. }
      destruct (refundSpoiled env o); discriminate.
    + cbn [fst snd]. intros [= <-]. split; [reflexivity|].
      right. right. split; [reflexivity|].
      exists o, integerOutOfRange. split; [reflexivity|].
      split; [reflexivity|]. right. left. split; [reflexivity|].
      exact (creditFits_false o (loginUsers db) Fit).
  - destruct (fault env OrderRefund) as [f|] eqn:F2.
    { cbn [fst snd]. intros [= <-]. split; [reflexivity|].
      right. right. split; [reflexivity|]. exists o, f. auto. }
    destruct (refundSpoiled env o); discriminate.
Qed.

Lemma refund_failure_atomic_witness :
  fst (markOrderRefunded Scenario.statusBroken "O" Sample.dbDelivered)
  = Sample.dbDelivered /\
  ((isAdmin Scenario.statusBroken = false /\
    DbFailure (mkDbError (Some "connection terminated") "{}") = Unauthorized)
   \/
   (isAdmin Scenario.statusBroken = true /\
    findFirst (hasOrderId "O") (orders Sample.dbDelivered) = None /\
    DbFailure (mkDbError (Some "connection terminated") "{}")
    = OrderNotFound "O") \/
   (isAdmin Scenario.statusBroken = true /\
    exists o f,
      findFirst (hasOrderId "O") (orders Sample.dbDelivered) = Some o /\
      DbFailure (mkDbError (Some "connection terminated") "{}")
      = DbFailure f /\
      (fault Scenario.statusBroken PointsCredit = Some f \/
       (f = mkDbError (Some "integer out of range")
              (Js.withQuotes "{'severity':'ERROR','code':'22003'}") /\
        exists u,
          In u (loginUsers Sample.dbDelivered) /\
          userId o = Some (user_id u) /\
          ~ (- 2147483648
             <= points u + match pointsUsed o with
                           | Some n => n
                           | None => 0
                           end
             <= 2147483647)) \/
       fault Scenario.statusBroken OrderRefund = Some f))).
Proof.
  apply (refund_failure_atomic Scenario.statusBroken "O" Sample.dbDelivered).
  reflexivity.
Defined.

Example refund_by_visitor :
  markOrderRefunded Scenario.visitor "O" Sample.dbDelivered
  = (Sample.dbDelivered, Err Unauthorized).
Proof. reflexivity. Qed.

(** A balance at the top of the column: the credit overflows, the refund
    fails and the order stays delivered. *)
Example refund_overflow :
  markOrderRefunded Sample.admin "O" Scenario.dbFullBalance
  = (Scenario.dbFullBalance, Err (DbFailure integerOutOfRange)).
Proof. reflexivity. Qed.

(** X9. A refund is not idempotent: it has no guard on the order's
    status, so a second refund of the same order, no statement failing
    and the balances staying within the range of the column, succeeds as
    well and credits the points a second time. *)
Theorem compensate_twice_credits_twice (env env' : Env) (oid : string)
  (db : Db) (o : Order) (uid : string) (P : Z) :
  isAdmin env = true -> isAdmin env' = true ->
  quiet env -> quiet env' ->
  findFirst (hasOrderId oid) (orders db) = Some o ->
  userId o = Some uid -> uid <> EmptyString ->
  pointsUsed o = Some P -> 0 < P ->
  (forall u, In u (loginUsers db) -> user_id u = uid ->
             - 2147483648 <= points u /\ points u + 2 * P <= 2147483647) ->
  exists db1 db2,
    markOrderRefunded env oid db = (db1, Ok (mkResponse true None)) /\
    markOrderRefunded env' oid db1 = (db2, Ok (mkResponse true None)) /\
    loginUsers db2
    = map (fun u => if String.eqb (user_id u) uid
                    then mkLoginUser (user_id u) (points u + 2 * P) else u)
        (loginUsers db).
Proof.
  intros A A' Q Q' H U Hu Pu Hp Hfit.
  assert (F : creditFits o (loginUsers db) = true).
  { apply (creditFits_range o uid P); auto.
    intros u Hin E. destruct (Hfit u Hin E). lia. }
  exists (refundedDb env oid o db).
  exists (refundedDb env' oid (refundOrder o) (refundedDb env oid o db)).
  split; [apply (refund_succeeds env oid db o A H Q); now right|].
  assert (H1 : findFirst (hasOrderId oid) (orders (refundedDb env oid o db))
               = Some (refundOrder o))
    by (apply findFirst_refunded; exact H).
  assert (E1 : loginUsers (refundedDb env oid o db)
               = map (fun u => if String.eqb (user_id u) uid
                               then mkLoginUser (user_id u) (points u + P)
                               else u) (loginUsers db))
    by (apply (refundedUsers_credit o uid P _ U Hu Pu Hp)).
  split.
  { apply (refund_succeeds env' oid _ (refundOrder o) A' H1 Q'). right.
    apply (creditFits_range (refundOrder o) uid P); auto.
    rewrite E1. intros u Hin E.
    apply in_map_iff in Hin. destruct Hin as (u0 & Eu & Hin0).
    destruct (String.eqb_spec (user_id u0) uid) as [E0|E0].
    - subst u. cbn [points]. destruct (Hfit u0 Hin0 E0). lia.
    - subst u. contradiction. }
  change (loginUsers (refundedDb env' oid (refundOrder o)
                        (refundedDb env oid o db)))
    with (refundedUsers (refundOrder o) (loginUsers (refundedDb env oid o db))).
  rewrite (refundedUsers_credit (refundOrder o) uid P _ U Hu Pu Hp).
  rewrite E1.
  rewrite map_map. apply map_ext. intros u.
  destruct (String.eqb (user_id u) uid) eqn:E;
    cbn [user_id points]; rewrite E; [|reflexivity].
  f_equal. lia.
Qed.

Lemma compensate_twice_credits_twice_witness :
  exists db1 db2,
    markOrderRefunded Sample.admin "O" Sample.dbDelivered
    = (db1, Ok (mkResponse true None)) /\
    markOrderRefunded Sample.adminLater "O" db1
    = (db2, Ok (mkResponse true None)) /\
    loginUsers db2
    = map (fun u => if String.eqb (user_id u) "u1"
                    then mkLoginUser (user_id u) (points u + 2 * 5) else u)
        (loginUsers Sample.dbDelivered).
Proof.
  apply (compensate_twice_credits_twice Sample.admin Sample.adminLater "O"
           Sample.dbDelivered Sample.deliveredO "u1" 5).
  - reflexivity.
  - reflexivity.
  - intros s. reflexivity.
  - intros s. reflexivity.
  - reflexivity.
  - reflexivity.
  - discriminate.
  - reflexivity.
  - lia.
  - simpl. intros u [<-|[]] _. simpl. lia.
Defined.

Lemma refundedCards_rows (o : Order) (cs : list Card) (i : nat) (c : Card) :
  nth_error cs i = Some c ->
  exists c',
    nth_error (refundedCards o cs) i = Some c' /\
    (c' = c \/ (c' = returnCard c /\ isCardOf o c = true)).
Proof.
  intros Hi. unfold refundedCards.
  destruct (Js.truthy (cardKey o)); [|eauto].
  rewrite (updateWhere_nth _ _ _ i c Hi).
  destruct (isCardOf o c); eauto.
Qed.

Lemma refundedCards_map {B} (g : Card -> B) (o : Order) (cs : list Card) :
  (forall c, g (returnCard c) = g c) ->
  map g (refundedCards o cs) = map g cs.
Proof.
  intros Hg. unfold refundedCards.
  destruct (Js.truthy (cardKey o)); [|reflexivity].
  now apply updateWhere_map.
Qed.

(** X10. A refund, whatever it answers, never adds, removes or reorders
    a row; on the orders it writes [status] only, and only on rows with
    the given identifier; on the cards it writes [is_used] and [used_at]
    only, and a row it rewrites ends up in stock ([is_used = false],
    [used_at = NULL]) and has the product and key of the refunded
    order; it keeps every user and every refund request in place. *)
Theorem refund_frame (env : Env) (oid : string) (db : Db) :
  map orderButStatus (orders (fst (markOrderRefunded env oid db)))
  = map orderButStatus (orders db) /\
  (forall i o,
     nth_error (orders db) i = Some o -> orderId o <> oid ->
     nth_error (orders (fst (markOrderRefunded env oid db))) i = Some o) /\
  map cardButUse (cards (fst (markOrderRefunded env oid db)))
  = map cardButUse (cards db) /\
  (forall i c,
     nth_error (cards db) i = Some c ->
     exists c',
       nth_error (cards (fst (markOrderRefunded env oid db))) i = Some c' /\
       (c' = c \/
        (is_used c' = Some false /\ used_at c' = None /\
         exists o,
           findFirst (hasOrderId oid) (orders db) = Some o /\
           product_id c = productId o /\
           cardKey o = Some (card_key c)))) /\
  map user_id (loginUsers (fst (markOrderRefunded env oid db)))
  = map user_id (loginUsers db) /\
  map rr_orderId (refundRequests (fst (markOrderRefunded env oid db)))
  = map rr_orderId (refundRequests db).
Proof.
  destruct (refund_cases env oid db) as [->|(o & A & H & ->)].
  { repeat split; auto. intros i c Hi. exists c. auto. }
  cbn [fst refundedDb orders cards loginUsers refundRequests].
  split; [apply updateWhere_map; reflexivity|].
  split.
  { intros i r Hi Hne. rewrite (updateWhere_nth _ _ _ i r Hi).
    unfold hasOrderId. destruct (String.eqb_spec (orderId r) oid);
      [contradiction | reflexivity]. }
  split; [apply refundedCards_map; reflexivity|].
  split.
  { intros i c Hi.
    destruct (refundedCards_rows o (cards db) i c Hi)
      as (c' & Hc' & Hrow).
    exists c'. split; [exact Hc'|].
    destruct Hrow as [->|[-> Hm]]; [now left|].
    right. split; [reflexivity|]. split; [reflexivity|].
    exists o. split; [exact H|].
    unfold isCardOf, sqlEq in Hm. apply andb_true_iff in Hm.
    destruct Hm as [Hp Hk]. apply String.eqb_eq in Hp.
    destruct (cardKey o) as [k|]; [|discriminate].
    apply String.eqb_eq in Hk. subst k. auto. }
  split.
  { unfold refundedUsers. destruct (refundsPoints o); [|reflexivity].
    apply updateWhere_map. reflexivity. }
  unfold refundedRequests. apply updateWhere_map. reflexivity.
Qed.

Lemma refund_frame_witness :
  nth_error
    (orders (fst (markOrderRefunded Sample.admin "O" Sample.dbTwoOrders))) 1
  = Some Sample.orderO2 /\
  exists c',
    nth_error
      (cards (fst (markOrderRefunded Sample.admin "O" Sample.dbDelivered))) 0
    = Some c' /\
    (c' = Sample.usedK1 \/
     (is_used c' = Some false /\ used_at c' = None /\
      exists o,
        findFirst (hasOrderId "O") (orders Sample.dbDelivered) = Some o /\
        product_id Sample.usedK1 = productId o /\
        cardKey o = Some (card_key Sample.usedK1))).
Proof.
  split.
  - destruct (refund_frame Sample.admin "O" Sample.dbTwoOrders)
      as (_ & Hothers & _).
    apply (Hothers 1%nat Sample.orderO2); [reflexivity | discriminate].
  - destruct (refund_frame Sample.admin "O" Sample.dbDelivered)
      as (_ & _ & _ & Hcards & _).
    apply (Hcards 0%nat Sample.usedK1). reflexivity.
Defined.

(** X11. A refund credits nothing, and leaves the users table as it
    was, when the order names no user (a null or empty [userId]) or
    spent no points (a null, zero or negative [pointsUsed]). *)
Theorem compensate_without_points (env : Env) (oid : string) (db : Db)
  (o : Order) :
  findFirst (hasOrderId oid) (orders db) = Some o ->
  userId o = None \/ userId o = Some EmptyString \/
  pointsUsed o = None \/ (exists p, pointsUsed o = Some p /\ p <= 0) ->
  loginUsers (fst (markOrderRefunded env oid db)) = loginUsers db.
Proof.
  intros H N.
  destruct (refund_cases env oid db) as [->|(o' & A & H' & ->)];
    [reflexivity|].
  assert (E : o' = o) by congruence. subst o'.
  cbn [fst refundedDb loginUsers].
  unfold refundedUsers.
  assert (R : refundsPoints o = false).
  { unfold refundsPoints.
    destruct N as [N|[N|[N|(p & N & Hp)]]]; rewrite N; simpl.
    - reflexivity.
    - reflexivity.
    - apply andb_false_r.
    - destruct p; try lia; simpl; apply andb_false_r. }
  now rewrite R.
Qed.

Lemma compensate_without_points_witness :
  loginUsers (fst (markOrderRefunded Sample.admin "O3" Scenario.dbNoPoints))
  = loginUsers Scenario.dbNoPoints.
Proof.
  apply (compensate_without_points Sample.admin "O3" Scenario.dbNoPoints
           Scenario.orderNoPoints).
  - reflexivity.
  - right. right. right. exists 0. split; [reflexivity | lia].
Defined.

(** X12. A refund of an existing order by an administrator, no statement
    failing and the credit within the range of the column, marks every
    refund request of the order as processed, stamping [processedAt]
    and [updatedAt] with the time of the call, whatever the request's
    previous status; the requests of other orders are untouched. *)
Theorem compensate_marks_requests (env : Env) (oid : string) (db : Db)
  (o : Order) :
  isAdmin env = true ->
  findFirst (hasOrderId oid) (orders db) = Some o ->
  quiet env ->
  creditFits o (loginUsers db) = true ->
  forall i r,
    nth_error (refundRequests db) i = Some r ->
    nth_error (refundRequests (fst (markOrderRefunded env oid db))) i
    = Some (if String.eqb (rr_orderId r) oid
            then mkRefundRequest oid "processed" (Some (now env))
                   (Some (now env))
            else r).
Proof.
  intros A H Q F i r Hi.
  rewrite (refund_succeeds env oid db o A H Q (or_intror F)).
  cbn [fst refundedDb refundRequests].
  unfold refundedRequests.
  rewrite (updateWhere_nth _ _ _ i r Hi).
  destruct (String.eqb_spec (rr_orderId r) oid) as [E|E]; [|reflexivity].
  unfold markProcessed. now rewrite E.
Qed.

Lemma compensate_marks_requests_witness :
  nth_error
    (refundRequests
       (fst (markOrderRefunded Sample.admin "O" Scenario.dbWithRequests))) 0
  = Some (if String.eqb "O" "O"
          then mkRefundRequest "O" "processed" (Some (now Sample.admin))
                 (Some (now Sample.admin))
          else mkRefundRequest "O" "pending" None None).
Proof.
  apply (compensate_marks_requests Sample.admin "O" Scenario.dbWithRequests
           Sample.deliveredO eq_refl eq_refl (fun s => eq_refl) eq_refl 0%nat
           (mkRefundRequest "O" "pending" None None)).
  reflexivity.
Defined.

(** X23. A card row that is gone is no failure: when no card has the
    order's product and key, the update of the cards matches no row, and
    a refund by an administrator, no statement failing and the balances
    within the range of the column, still commits: the card table is as
    it was, the order is [refunded], the points are credited. *)
Theorem compensate_without_matching_card (env : Env) (oid : string)
  (db : Db) (o : Order) (uid : string) (P : Z) :
  isAdmin env = true ->
  quiet env ->
  findFirst (hasOrderId oid) (orders db) = Some o ->
  userId o = Some uid -> uid <> EmptyString ->
  pointsUsed o = Some P -> 0 < P ->
  (forall u, In u (loginUsers db) -> user_id u = uid ->
             - 2147483648 <= points u + P <= 2147483647) ->
  (forall c, In c (cards db) ->
             product_id c <> productId o \/ cardKey o <> Some (card_key c)) ->
  exists db',
    markOrderRefunded env oid db = (db', Ok (mkResponse true None)) /\
    cards db' = cards db /\
    findFirst (hasOrderId oid) (orders db')
    = Some (mkOrder (orderId o) (productId o) (amount o) refunded
              (tradeNo o) (cardKey o) (userId o) (pointsUsed o) (paidAt o)
              (deliveredAt o)) /\
    loginUsers db'
    = map (fun u => if String.eqb (user_id u) uid
                    then mkLoginUser (user_id u) (points u + P) else u)
        (loginUsers db).
Proof.
  intros A Q H U Hu Pu Hp Hfit Hno.
  assert (F : creditFits o (loginUsers db) = true)
    by (apply (creditFits_range o uid P); assumption).
  exists (refundedDb env oid o db).
  split; [apply (refund_succeeds env oid db o A H Q); now right|].
  cbn [refundedDb loginUsers orders cards].
  split.
  { unfold refundedCards. destruct (Js.truthy (cardKey o)); [|reflexivity].
    apply updateWhere_none. intros c Hin. unfold isCardOf, sqlEq.
    destruct (Hno c Hin) as [Hd|Hd].
    - apply String.eqb_neq in Hd. now rewrite Hd.
    - destruct (cardKey o) as [k|]; [|apply andb_false_r].
      destruct (String.eqb_spec (card_key c) k) as [E|E];
        [congruence | apply andb_false_r]. }
  split; [exact (findFirst_refunded oid (orders db) o H)|].
  exact (refundedUsers_credit o uid P (loginUsers db) U Hu Pu Hp).
Qed.

Lemma compensate_without_matching_card_witness :
  exists db',
    markOrderRefunded Sample.admin "O" Sample.dbCardGone
    = (db', Ok (mkResponse true None)) /\
    cards db' = cards Sample.dbCardGone /\
    findFirst (hasOrderId "O") (orders db')
    = Some (mkOrder (orderId Sample.deliveredO) (productId Sample.deliveredO)
              (amount Sample.deliveredO) refunded (tradeNo Sample.deliveredO)
              (cardKey Sample.deliveredO) (userId Sample.deliveredO)
              (pointsUsed Sample.deliveredO) (paidAt Sample.deliveredO)
              (deliveredAt Sample.deliveredO)) /\
    loginUsers db'
    = map (fun u => if String.eqb (user_id u) "u1"
                    then mkLoginUser (user_id u) (points u + 5) else u)
        (loginUsers Sample.dbCardGone).
Proof.
  apply (compensate_without_matching_card Sample.admin "O" Sample.dbCardGone
           Sample.deliveredO "u1" 5).
  - reflexivity.
  - intros s. reflexivity.
  - reflexivity.
  - reflexivity.
  - discriminate.
  - reflexivity.
  - lia.
  - simpl. intros u [<-|[]] _. simpl. lia.
  - simpl. tauto.
Defined.

(* ------------------------------------------------------------------ *)
(** * A card through claim, refund and claim *)


Lemma creditFits_deliver (env : Env) (trade : string) (key : option string)
  (o : Order) (us : list LoginUser) :
  creditFits (deliver env trade key o) us = creditFits o us.
Proof. reflexivity. Qed.

(** The two first steps: the order takes the first card on offer, then
    is refunded; the card is back in stock and the order keeps its
    key. *)
Lemma claim_refund_steps (env env' : Env) (oid : string)
  (paidAmount : float) (trade : string) (db : Db) (o : Order)
  (pre post : list Card) (c : Card) :
  quiet env ->
  isAdmin env' = true ->
  quiet env' ->
  creditFits o (loginUsers db) = true ->
  findFirst (hasOrderId oid) (orders db) = Some o ->
  status o = pending \/ status o = cancelled ->
  amountMismatch paidAmount (Js.parseFloat (amount o)) = false ->
  cards db = pre ++ c :: post ->
  claimable (productId o) (sqlNow env) c = true ->
  card_key c <> EmptyString ->
  (forall c', In c' pre ->
              claimable (productId o) (sqlNow env) c' = false) ->
  (forall c', In c' (cards db) -> reservedFor oid c' = false) ->
  (forall c', In c' (pre ++ post) ->
              id c' <> id c /\
              (product_id c' <> product_id c \/ card_key c' <> card_key c)) ->
  exists db1,
    processOrderFulfillment env oid paidAmount trade db
    = (db1, Ok (mkResponse true (Some processed))) /\
    markOrderRefunded env' oid db1
    = (mkDb
         (updateWhere (hasOrderId oid) refundOrder
            (updateWhere (hasOrderId oid)
               (deliver env trade (Some (card_key c))) (orders db)))
         (pre ++ restocked c :: post)
         (refundedUsers (deliver env trade (Some (card_key c)) o)
            (loginUsers db))
         (refundedRequests env' oid (refundRequests db)),
       Ok (mkResponse true None)).
Proof.
  intros Q A Q' Fit H S M Ecs Hc K Hpre Hres Hothers.
  destruct (claimable_product _ _ _ Hc) as [Hp Hu].
  rewrite Ecs in Hres.
  assert (Hid : forall c', In c' (pre ++ post) -> id c' <> id c)
    by (intros c' Hin; now apply Hothers).
  pose proof (claimOutcome_first_on_offer env oid (productId o) pre post c
                Hres Hid Hpre Hc) as Out.
  assert (T : Js.truthy (Some (card_key c)) = true)
    by (now apply truthy_Some).
  set (o1 := deliver env trade (Some (card_key c)) o).
  set (db1 := mkDb
                (updateWhere (hasOrderId oid)
                   (deliver env trade (Some (card_key c))) (orders db))
                (pre ++ markUsed (sqlNow env) c :: post)
                (loginUsers db) (refundRequests db)).
  exists db1. split.
  { rewrite (fulfill_processed env oid paidAmount trade db o H M S Q).
    unfold fulfilled. rewrite Ecs, Out. cbn [fst snd]. unfold settle.
    rewrite T. reflexivity. }
  assert (H1 : findFirst (hasOrderId oid) (orders db1) = Some o1).
  { unfold db1. cbn [orders]. rewrite findFirst_updateWhere, H; auto. }
  rewrite (refund_succeeds env' oid db1 o1 A H1 Q' (or_intror Fit)).
  unfold refundedDb, db1. cbn [orders cards loginUsers refundRequests].
  f_equal. f_equal.
  unfold refundedCards. cbn [o1 deliver cardKey]. rewrite T.
  assert (Hno : forall r, In r (pre ++ post) -> isCardOf o1 r = false).
  { intros r Hr. unfold isCardOf, sqlEq. simpl.
    destruct (Hothers r Hr) as [_ [Hd|Hd]].
    - rewrite <- Hp. apply String.eqb_neq in Hd. now rewrite Hd.
    - apply String.eqb_neq in Hd. rewrite Hd. apply andb_false_r. }
  assert (Hself : isCardOf o1 (markUsed (sqlNow env) c) = true).
  { unfold isCardOf, sqlEq. simpl. now rewrite Hp, !String.eqb_refl. }
  destruct (updateWhere_single (isCardOf o1) returnCard pre post
              (markUsed (sqlNow env) c) Hno Hself) as [-> _].
  reflexivity.
Qed.

(** X13. Claim and refund are inverse on the card table: when a
    fulfilment takes the first card on offer and the order is then
    refunded (no statement failing, the credit within the range of the
    column, no other card sharing the product and key), the card is back
    in stock, unused and without reservation, and every other card is as
    it was; the order is [refunded] and still carries the card's key. *)
Theorem claim_then_refund_restocks (env env' : Env) (oid : string)
  (paidAmount : float) (trade : string) (db : Db) (o : Order)
  (pre post : list Card) (c : Card) :
  quiet env ->
  isAdmin env' = true ->
  quiet env' ->
  creditFits o (loginUsers db) = true ->
  findFirst (hasOrderId oid) (orders db) = Some o ->
  status o = pending \/ status o = cancelled ->
  amountMismatch paidAmount (Js.parseFloat (amount o)) = false ->
  cards db = pre ++ c :: post ->
  claimable (productId o) (sqlNow env) c = true ->
  card_key c <> EmptyString ->
  (forall c', In c' pre ->
              claimable (productId o) (sqlNow env) c' = false) ->
  (forall c', In c' (cards db) -> reservedFor oid c' = false) ->
  (forall c', In c' (pre ++ post) ->
              id c' <> id c /\
              (product_id c' <> product_id c \/ card_key c' <> card_key c)) ->
  exists db1 db2 o2,
    processOrderFulfillment env oid paidAmount trade db
    = (db1, Ok (mkResponse true (Some processed))) /\
    markOrderRefunded env' oid db1 = (db2, Ok (mkResponse true None)) /\
    cards db2
    = pre ++ mkCard (id c) (product_id c) (card_key c) (Some false) None
               None None :: post /\
    findFirst (hasOrderId oid) (orders db2) = Some o2 /\
    status o2 = refunded /\ cardKey o2 = Some (card_key c).
Proof.
  intros Q A Q' Fit H S M Ecs Hc K Hpre Hres Hothers.
  destruct (claim_refund_steps env env' oid paidAmount trade db o pre post c
              Q A Q' Fit H S M Ecs Hc K Hpre Hres Hothers)
    as (db1 & E1 & E2).
  exists db1. eexists.
  exists (refundOrder (deliver env trade (Some (card_key c)) o)).
  split; [exact E1|]. split; [exact E2|].
  cbn [cards orders]. split; [reflexivity|].
  split; [|split; reflexivity].
  rewrite findFirst_updateWhere; auto.
  rewrite findFirst_updateWhere, H; auto.
Qed.

Lemma claim_then_refund_restocks_witness :
  exists db1 db2 o2,
    processOrderFulfillment Sample.admin "O" (Js.parseFloat "9.99") "T1"
      Sample.db
    = (db1, Ok (mkResponse true (Some processed))) /\
    markOrderRefunded Sample.adminLater "O" db1
    = (db2, Ok (mkResponse true None)) /\
    cards db2
    = [] ++ mkCard (id Sample.cardK1) (product_id Sample.cardK1)
              (card_key Sample.cardK1) (Some false) None None None :: [] /\
    findFirst (hasOrderId "O") (orders db2) = Some o2 /\
    status o2 = refunded /\ cardKey o2 = Some (card_key Sample.cardK1).
Proof.
  apply (claim_then_refund_restocks Sample.admin Sample.adminLater "O"
           (Js.parseFloat "9.99") "T1" Sample.db Sample.orderO [] []
           Sample.cardK1).
  - intros s. reflexivity.
  - reflexivity.
  - intros s. reflexivity.
  - reflexivity.
  - reflexivity.
  - left. reflexivity.
  - reflexivity.
  - reflexivity.
  - reflexivity.
  - discriminate.
  - simpl. tauto.
  - simpl. intros c' [<-|[]]. reflexivity.
  - simpl. tauto.
Defined.





(* ------------------------------------------------------------------ *)
(** * [JSON.parse] never runs short of fuel *)

Lemma skipWs_length (s : string) :
  (String.length (Json.skipWs s) <= String.length s)%nat.
Proof.
  induction s as [|c s IH]; simpl; [lia|].
  destruct (Json.isWs c); simpl; lia.
Qed.

Lemma readDigits_length (s : string) :
  forall acc count v k r,
    Js.readDigits s acc count = (v, k, r) ->
    count <= k /\
    Z.of_nat (String.length r) + (k - count) = Z.of_nat (String.length s).
Proof.
  induction s as [|c s IH]; intros acc count v k r H;
    cbn [Js.readDigits] in H.
  - injection H as <- <- <-. lia.
  - destruct (Js.digitOf c).
    + apply IH in H. cbn [String.length]. lia.
    + injection H as <- <- <-. lia.
Qed.

Lemma readSign_length (s : string) (b : bool) (r : string) :
  Js.readSign s = (b, r) -> (String.length r <= String.length s)%nat.
Proof.
  unfold Js.readSign. intros H.
  assert (E : r = s \/ exists c, s = String c r).
  { destruct s as [|c s]; [left; congruence|].
    destruct c as [[] [] [] [] [] [] [] []];
      injection H as <- <-; eauto. }
  destruct E as [->|[c ->]]; simpl; lia.
Qed.

Lemma startsWith_length (c : ascii) (s r : string) :
  Json.startsWith c s = Some r -> String.length s = S (String.length r).
Proof.
  unfold Json.startsWith. destruct s as [|c' s]; [discriminate|].
  destruct (Ascii.eqb c' c); [|discriminate].
  now intros [= ->].
Qed.

Lemma stripPrefix_length (p : string) :
  forall s r,
    Json.stripPrefix p s = Some r ->
    String.length s = (String.length p + String.length r)%nat.
Proof.
  induction p as [|a p IH]; simpl; intros s r H.
  - now injection H as ->.
  - destruct s as [|b s]; [discriminate|].
    destruct (Ascii.eqb a b); [|discriminate].
    simpl. now rewrite (IH s r H).
Qed.

Lemma parseChars_consumes (n : nat) :
  forall s acc,
    (String.length s <= n)%nat ->
    consumes s (Json.parseChars s acc).
Proof.
  unfold consumes.
  induction n as [|n IH]; intros s acc Hn.
  - destruct s; [exact I | simpl in Hn; lia].
  - destruct s as [|c s]; [exact I|].
    cbn [Json.parseChars String.length] in *.
    destruct (Ascii.eqb c Json.quote); [lia|].
    destruct (Ascii.eqb c Json.backslash).
    + destruct s as [|e s]; [exact I|].
      cbn [String.length] in Hn.
      destruct (Ascii.eqb e "u").
      * destruct s as [|h1 [|h2 [|h3 [|h4 s]]]]; try exact I.
        cbn [String.length] in *.
        destruct (Json.hexDigit h1), (Json.hexDigit h2),
          (Json.hexDigit h3), (Json.hexDigit h4); try exact I.
        match goal with
        | |- context [Json.parseChars s ?a] =>
            pose proof (IH s a ltac:(lia)) as H;
            destruct (Json.parseChars s a); auto; lia
        end.
      * match goal with
        | |- match (match ?x with _ => _ end) with _ => _ end =>
            destruct x as [u|]; [|exact I]
        end.
        pose proof (IH s (u :: acc) ltac:(lia)) as H.
        destruct (Json.parseChars s (u :: acc)); cbn [String.length];
          auto; lia.
    + destruct (N_of_ascii c <? 32)%N; [exact I|].
      pose proof (IH s (N_of_ascii c :: acc) ltac:(lia)) as H.
      destruct (Json.parseChars s (N_of_ascii c :: acc)); auto; lia.
Qed.

Lemma readInteger_length (s : string) (ip ni : Z) (r : string) :
  Json.readInteger s = (ip, ni, r) ->
  ni <> 0 -> (String.length r < String.length s)%nat.
Proof.
  unfold Json.readInteger. intros H Hn.
  destruct (Json.startsWith "0" s) as [r0|] eqn:E0.
  - apply startsWith_length in E0. injection H as <- <- <-. lia.
  - apply readDigits_length in H. lia.
Qed.

Lemma readFraction_length (ip : Z) (s : string) (m nf : Z) (r : string) :
  Json.readFraction ip s = Some (m, nf, r) ->
  (String.length r <= String.length s)%nat.
Proof.
  unfold Json.readFraction. intros H.
  destruct (Json.startsWith "." s) as [r0|] eqn:Ed.
  - apply startsWith_length in Ed.
    destruct (Js.readDigits r0 ip 0) as [[m' nf'] r'] eqn:Er.
    apply readDigits_length in Er.
    destruct (nf' =? 0); [discriminate|].
    injection H as <- <- <-. lia.
  - injection H as <- <- <-. lia.
Qed.

Lemma readExponent_length (s : string) (e : Z) (r : string) :
  Json.readExponent s = Some (e, r) ->
  (String.length r <= String.length s)%nat.
Proof.
  unfold Json.readExponent. intros H.
  destruct s as [|c s]; [injection H as <- <-; lia|].
  destruct (Ascii.eqb c "e" || Ascii.eqb c "E")%bool.
  - destruct (Js.readSign s) as [neg r'] eqn:Es.
    apply readSign_length in Es.
    destruct (Js.readDigits r' 0 0) as [[e' n] r''] eqn:Er.
    apply readDigits_length in Er.
    destruct (n =? 0); [discriminate|].
    injection H as <- <-. cbn [String.length]. lia.
  - injection H as <- <-. lia.
Qed.

Lemma parseNumber_consumes (s : string) :
  consumes s (Json.parseNumber s).
Proof.
  unfold Json.parseNumber, consumes.
  assert (Hs : exists neg s0,
             match Json.startsWith "-" s with
             | Some rest => (true, rest)
             | None => (false, s)
             end = (neg, s0) /\
             (String.length s0 <= String.length s)%nat).
  { destruct (Json.startsWith "-" s) as [s0|] eqn:Em.
    - apply startsWith_length in Em. exists true, s0. split; auto. lia.
    - exists false, s. split; auto. }
  destruct Hs as (neg & s0 & -> & L0).
  destruct (Json.readInteger s0) as [[ip ni] s1] eqn:Ei.
  destruct (ni =? 0) eqn:En; [exact I|]. apply Z.eqb_neq in En.
  pose proof (readInteger_length s0 ip ni s1 Ei En) as L1.
  destruct (Json.readFraction ip s1) as [[[m nf] s2]|] eqn:Ef; [|exact I].
  apply readFraction_length in Ef.
  destruct (Json.readExponent s2) as [[e s3]|] eqn:Ee; [|exact I].
  apply readExponent_length in Ee. lia.
Qed.

Lemma parseLiteral_consumes (s : string) :
  consumes s (Json.parseLiteral s).
Proof.
  unfold Json.parseLiteral.
  destruct (Json.stripPrefix "true" s) as [r|] eqn:E1.
  { apply stripPrefix_length in E1. simpl in *. lia. }
  destruct (Json.stripPrefix "false" s) as [r|] eqn:E2.
  { apply stripPrefix_length in E2. simpl in *. lia. }
  destruct (Json.stripPrefix "null" s) as [r|] eqn:E3.
  { apply stripPrefix_length in E3. simpl in *. lia. }
  apply parseNumber_consumes.
Qed.

(** Fuel: a value needs at most twice the length of the text, plus one;
    the elements of an array and the members of an object one more. *)
Lemma parse_fuel (fuel : nat) :
  (forall s,
     consumesWithin fuel (2 * String.length s) s (Json.parseValue fuel s)) /\
  (forall s acc,
     consumesWithin fuel (2 * String.length s + 1) s
       (Json.parseElements fuel s acc)) /\
  (forall s acc,
     consumesWithin fuel (2 * String.length s + 1) s
       (Json.parseMembers fuel s acc)).
Proof.
  induction fuel as [|fuel (IHv & IHe & IHm)].
  { repeat split; intros; simpl; lia. }
  split; [|split].
  - intros s. cbn [Json.parseValue].
    pose proof (skipWs_length s) as Ls.
    destruct (Json.skipWs s) as [|c rest] eqn:Es; [exact I|].
    cbn [String.length] in Ls.
    destruct (Ascii.eqb c "{").
    { pose proof (skipWs_length rest) as Lr.
      destruct (Json.startsWith "}" (Json.skipWs rest)) as [r|] eqn:Eb.
      - apply startsWith_length in Eb. simpl. lia.
      - specialize (IHm rest []). unfold consumesWithin in *.
        destruct (Json.parseMembers fuel rest []); auto; lia. }
    destruct (Ascii.eqb c "[").
    { pose proof (skipWs_length rest) as Lr.
      destruct (Json.startsWith "]" (Json.skipWs rest)) as [r|] eqn:Eb.
      - apply startsWith_length in Eb. simpl. lia.
      - specialize (IHe rest []). unfold consumesWithin in *.
        destruct (Json.parseElements fuel rest []); auto; lia. }
    destruct (Ascii.eqb c Json.quote).
    { pose proof (parseChars_consumes (String.length rest) rest []
                    (le_n _)) as Hc.
      unfold consumes in Hc.
      destruct (Json.parseChars rest []); simpl; auto;
        [lia | contradiction]. }
    pose proof (parseLiteral_consumes (String c rest)) as Hl.
    unfold consumes in Hl. unfold consumesWithin.
    destruct (Json.parseLiteral (String c rest)); auto;
      [cbn [String.length] in Hl; lia | contradiction].
  - intros s acc. cbn [Json.parseElements].
    specialize (IHv s). unfold consumesWithin in *.
    destruct (Json.parseValue fuel s) as [v rest| |]; auto; [|lia].
    pose proof (skipWs_length rest) as Lr.
    destruct (Json.skipWs rest) as [|c rest'] eqn:Er; [exact I|].
    cbn [String.length] in Lr.
    destruct (Ascii.eqb c ",").
    { specialize (IHe rest' (v :: acc)).
      destruct (Json.parseElements fuel rest' (v :: acc)); auto; lia. }
    destruct (Ascii.eqb c "]"); [lia | exact I].
  - intros s acc. cbn [Json.parseMembers].
    pose proof (skipWs_length s) as Ls. unfold consumesWithin in *.
    destruct (Json.startsWith Json.quote (Json.skipWs s)) as [rest|] eqn:Eq;
      [|exact I].
    apply startsWith_length in Eq.
    pose proof (parseChars_consumes (String.length rest) rest []
                  (le_n _)) as Hc.
    unfold consumes in Hc.
    destruct (Json.parseChars rest []) as [k rest1| |]; auto;
      [|contradiction].
    pose proof (skipWs_length rest1) as L1.
    destruct (Json.startsWith ":" (Json.skipWs rest1)) as [rest2|] eqn:Ec;
      [|exact I].
    apply startsWith_length in Ec.
    specialize (IHv rest2).
    destruct (Json.parseValue fuel rest2) as [v rest3| |]; auto; [|lia].
    pose proof (skipWs_length rest3) as L3.
    destruct (Json.skipWs rest3) as [|c rest4] eqn:E3; [exact I|].
    cbn [String.length] in L3.
    destruct (Ascii.eqb c ",").
    { specialize (IHm rest4 ((k, v) :: acc)).
      destruct (Json.parseMembers fuel rest4 ((k, v) :: acc)); auto; lia. }
    destruct (Ascii.eqb c "}"); [lia | exact I].
Qed.

(** [JSON.parse] gives the parser enough fuel. *)
Lemma parse_never_starves (text : string) :
  Json.parseValue (2 * String.length text + 1) text <> Json.OutOfFuel.
Proof.
  pose proof (proj1 (parse_fuel (2 * String.length text + 1)) text) as H.
  unfold consumesWithin in H. intros E. rewrite E in H. lia.
Qed.

(* ------------------------------------------------------------------ *)
(** * The refund gateway *)

Lemma hasOrderId_found (oid : string) (os : list Order) (o : Order) :
  findFirst (hasOrderId oid) os = Some o -> orderId o = oid.
Proof.
  unfold findFirst. intros H. apply find_some in H.
  destruct H as [_ H]. now apply String.eqb_eq.
Qed.

Lemma truthy_cases (s : option string) :
  (Js.truthy s = true /\ exists t, s = Some t /\ t <> EmptyString) \/
  (Js.truthy s = false /\ (s = None \/ s = Some EmptyString)).
Proof.
  destruct s as [[|c t]|]; simpl; eauto.
  left. split; [reflexivity|]. eexists. split; [reflexivity | discriminate].
Qed.

(** [getRefundParams] checks, in this order, that the caller is an
    administrator, that the order exists and that it has a trade number
    (neither null nor empty), and fails with the first check that does
    not hold; otherwise it answers the merchant's settings, the order's
    trade number, the requested identifier as [out_trade_no], and the
    amount as [Number(amount).toFixed(2)]. *)
Lemma refund_params_outcomes (gw : Gateway) (env : Env) (oid : string)
  (db : Db) :
  match getRefundParams gw env oid db with
  | Failed e =>
      (isAdmin env = false /\ e = Core Unauthorized) \/
      (isAdmin env = true /\
       findFirst (hasOrderId oid) (orders db) = None /\
       e = Core (OrderNotFound oid)) \/
      (isAdmin env = true /\
       exists o,
         findFirst (hasOrderId oid) (orders db) = Some o /\
         (tradeNo o = None \/ tradeNo o = Some EmptyString) /\
         e = MissingTradeNo)
  | Done p =>
      isAdmin env = true /\
      exists o t,
        findFirst (hasOrderId oid) (orders db) = Some o /\
        tradeNo o = Some t /\ t <> EmptyString /\
        p = mkRefundParams (MERCHANT_ID gw) (MERCHANT_KEY gw) t oid
              (JsMore.toFixed (JsMore.Number (amount o)) 2)
  end.
Proof.
  unfold getRefundParams.
  destruct (isAdmin env); simpl; [|auto].
  destruct (findFirst (hasOrderId oid) (orders db)) as [o|] eqn:H;
    [|auto].
  destruct (truthy_cases (tradeNo o)) as [[T (t & Et & Ht)]|[T N]];
    rewrite T; simpl.
  - split; [reflexivity|]. exists o, t. repeat split; auto.
    rewrite Et, (hasOrderId_found oid _ o H). reflexivity.
  - right. right. split; [reflexivity|]. exists o. auto.
Qed.

Lemma tradeNo_settle (env : Env) (trade : string) (key : option string)
  (o : Order) :
  tradeNo (settle env trade key o) = Some trade.
Proof. unfold settle. destruct (Js.truthy key); reflexivity. Qed.

(** X15. A processed fulfilment makes the order refundable through the
    gateway: before it, an order without trade number is refused with
    [MissingTradeNo]; after a fulfilment whose statements do not fail,
    [getRefundParams] answers the trade number the fulfilment recorded
    (a non-empty one), the order's identifier and the order's amount
    with two decimals. *)
Theorem refund_params_after_fulfilment (gw : Gateway) (env env' : Env)
  (oid : string) (paidAmount : float) (trade : string) (db : Db)
  (o : Order) :
  findFirst (hasOrderId oid) (orders db) = Some o ->
  status o = pending \/ status o = cancelled ->
  amountMismatch paidAmount (Js.parseFloat (amount o)) = false ->
  quiet env ->
  trade <> EmptyString ->
  isAdmin env' = true ->
  (tradeNo o = None ->
   getRefundParams gw env' oid db = Failed MissingTradeNo) /\
  getRefundParams gw env' oid
    (fst (processOrderFulfillment env oid paidAmount trade db))
  = Done (mkRefundParams (MERCHANT_ID gw) (MERCHANT_KEY gw) trade oid
            (JsMore.toFixed (JsMore.Number (amount o)) 2)).
Proof.
  intros H S M R Ht A. split.
  - intros N. unfold getRefundParams. rewrite A, H, N. reflexivity.
  - rewrite (fulfill_processed env oid paidAmount trade db o H M S R).
    cbn [fst]. unfold getRefundParams, fulfilled. rewrite A.
    cbn [negb orders].
    rewrite (findFirst_settled env trade _ oid (orders db) o H).
    rewrite tradeNo_settle. apply truthy_Some in Ht. rewrite Ht.
    cbn [negb]. unfold moneyOf.
    rewrite amount_settle, orderId_settle, (hasOrderId_found oid _ o H).
    reflexivity.
Qed.

Lemma refund_params_after_fulfilment_witness :
  (tradeNo Sample.orderO = None ->
   getRefundParams (Shop.answering None) Sample.adminLater "O" Sample.db
   = Failed MissingTradeNo) /\
  getRefundParams (Shop.answering None) Sample.adminLater "O"
    (fst (processOrderFulfillment Sample.admin "O" (Js.parseFloat "9.99")
            "T1" Sample.db))
  = Done (mkRefundParams (MERCHANT_ID (Shop.answering None))
            (MERCHANT_KEY (Shop.answering None)) "T1" "O"
            (JsMore.toFixed (JsMore.Number (amount Sample.orderO)) 2)).
Proof.
  apply (refund_params_after_fulfilment (Shop.answering None) Sample.admin
           Sample.adminLater "O" (Js.parseFloat "9.99") "T1" Sample.db
           Sample.orderO).
  - reflexivity.
  - left. reflexivity.
  - reflexivity.
  - intros s. reflexivity.
  - discriminate.
  - reflexivity.
Defined.

Example refund_params_sample :
  getRefundParams (Shop.answering None) Sample.admin "O" Sample.dbDelivered
  = Done (mkRefundParams (Some "1001") (Some "s3cret") "T1" "O" "9.99").
Proof. reflexivity. Qed.

(** The call once its four guards have passed. *)
Lemma proxy_guards_passed (gw : Gateway) (env : Env) (oid : string)
  (db : Db) (merchant secret : string) (o : Order) :
  isAdmin env = true ->
  MERCHANT_ID gw = Some merchant -> merchant <> EmptyString ->
  MERCHANT_KEY gw = Some secret -> secret <> EmptyString ->
  findFirst (hasOrderId oid) (orders db) = Some o ->
  Js.truthy (tradeNo o) = true ->
  proxyRefund gw env oid db
  = match fetch gw (refundRequest merchant secret o) with
    | None => (db, [refundRequest merchant secret o], Failed FetchFailed)
    | Some resp =>
        if negb (Http.ok resp)
        then (db, [refundRequest merchant secret o],
              Failed (RefundProxyFailed (Http.status resp)))
        else if saysSuccess (Http.text resp)
        then match snd (markOrderRefunded env oid db) with
             | Ok _ =>
                 (fst (markOrderRefunded env oid db),
                  [refundRequest merchant secret o],
                  Done (Proxy.mkResult true true
                          (JsMore.slice0 500 (Http.text resp))))
             | Err e =>
                 (db, [refundRequest merchant secret o], Failed (Core e))
             end
        else (db, [refundRequest merchant secret o],
              Done (Proxy.mkResult true false
                      (JsMore.slice0 500 (Http.text resp))))
    end.
Proof.
  intros A Em Hm Ek Hk H T.
  unfold proxyRefund. rewrite A, Em, Ek, H, T.
  apply truthy_Some in Hm, Hk. rewrite Hm, Hk. cbn [negb orb].
  destruct (fetch gw (refundRequest merchant secret o)) as [resp|];
    [|reflexivity].
  destruct (Http.ok resp); cbn [negb]; [|reflexivity].
  destruct (saysSuccess (Http.text resp)); [|reflexivity].
  destruct (refund_cases env oid db) as [E|(o' & _ & _ & E)].
  - destruct (markOrderRefunded env oid db) as [db' [r|e]];
      cbn [fst snd] in *; now subst db'.
  - rewrite E. reflexivity.
Qed.

(** Which guard stops the call, when one does. *)
Lemma proxy_guard_cases (gw : Gateway) (env : Env) (oid : string)
  (db : Db) :
  (isAdmin env = false /\
   proxyRefund gw env oid db = (db, [], Failed (Core Unauthorized))) \/
  (isAdmin env = true /\
   (MERCHANT_ID gw = None \/ MERCHANT_ID gw = Some EmptyString \/
    MERCHANT_KEY gw = None \/ MERCHANT_KEY gw = Some EmptyString) /\
   proxyRefund gw env oid db = (db, [], Failed MissingMerchantConfig)) \/
  (isAdmin env = true /\
   (exists merchant secret,
      MERCHANT_ID gw = Some merchant /\ merchant <> EmptyString /\
      MERCHANT_KEY gw = Some secret /\ secret <> EmptyString) /\
   findFirst (hasOrderId oid) (orders db) = None /\
   proxyRefund gw env oid db = (db, [], Failed (Core (OrderNotFound oid)))) \/
  (isAdmin env = true /\
   (exists merchant secret,
      MERCHANT_ID gw = Some merchant /\ merchant <> EmptyString /\
      MERCHANT_KEY gw = Some secret /\ secret <> EmptyString) /\
   (exists o, findFirst (hasOrderId oid) (orders db) = Some o /\
              (tradeNo o = None \/ tradeNo o = Some EmptyString)) /\
   proxyRefund gw env oid db = (db, [], Failed MissingTradeNo)) \/
  (exists merchant secret o,
     isAdmin env = true /\
     MERCHANT_ID gw = Some merchant /\ merchant <> EmptyString /\
     MERCHANT_KEY gw = Some secret /\ secret <> EmptyString /\
     findFirst (hasOrderId oid) (orders db) = Some o /\
     Js.truthy (tradeNo o) = true).
Proof.
  destruct (isAdmin env) eqn:A.
  2:{ left. split; [reflexivity|]. unfold proxyRefund. now rewrite A. }
  right.
  assert (C : (exists merchant secret,
                 MERCHANT_ID gw = Some merchant /\ merchant <> EmptyString /\
                 MERCHANT_KEY gw = Some secret /\ secret <> EmptyString) \/
              ((MERCHANT_ID gw = None \/ MERCHANT_ID gw = Some EmptyString \/
                MERCHANT_KEY gw = None \/
                MERCHANT_KEY gw = Some EmptyString) /\
               proxyRefund gw env oid db
               = (db, [], Failed MissingMerchantConfig))).
  { unfold proxyRefund. rewrite A. cbn [negb].
    destruct (MERCHANT_ID gw) as [merchant|];
      [|right; split; [auto | reflexivity]].
    destruct (MERCHANT_KEY gw) as [secret|];
      [|right; split; [auto | reflexivity]].
    destruct merchant as [|c m];
      [right; split; [auto | reflexivity]|].
    destruct secret as [|c' k];
      [right; split; [auto 10 | reflexivity]|].
    left. exists (String c m), (String c' k).
    repeat split; discriminate. }
  destruct C as [(merchant & secret & Em & Hm & Ek & Hk)|[C E]];
    [|left; auto].
  right.
  assert (C : exists merchant secret,
                MERCHANT_ID gw = Some merchant /\ merchant <> EmptyString /\
                MERCHANT_KEY gw = Some secret /\ secret <> EmptyString)
    by (exists merchant, secret; auto).
  destruct (findFirst (hasOrderId oid) (orders db)) as [o|] eqn:H.
  2:{ left. split; [reflexivity|]. split; [exact C|].
      split; [reflexivity|].
      unfold proxyRefund. rewrite A, Em, Ek, H.
      apply truthy_Some in Hm, Hk. now rewrite Hm, Hk. }
  right.
  destruct (truthy_cases (tradeNo o)) as [[T _]|[T N]].
  - right. exists merchant, secret, o. auto 10.
  - left. split; [reflexivity|]. split; [exact C|].
    split; [exists o; auto|].
    unfold proxyRefund. rewrite A, Em, Ek, H, T.
    apply truthy_Some in Hm, Hk. now rewrite Hm, Hk.
Qed.

(** X16. [proxyRefund] sends the processor nothing, and writes nothing,
    when a guard stops it, and the guards are tried in this order: a
    caller who is not an administrator; then, for an administrator, a
    missing or empty merchant identifier or key; then, the merchant
    settings being there, an unknown order; then an order without trade
    number; once the guards have passed it sends exactly one request. *)
Theorem proxy_guards (gw : Gateway) (env : Env) (oid : string) (db : Db) :
  (isAdmin env = false /\
   proxyRefund gw env oid db = (db, [], Failed (Core Unauthorized))) \/
  (isAdmin env = true /\
   (MERCHANT_ID gw = None \/ MERCHANT_ID gw = Some EmptyString \/
    MERCHANT_KEY gw = None \/ MERCHANT_KEY gw = Some EmptyString) /\
   proxyRefund gw env oid db = (db, [], Failed MissingMerchantConfig)) \/
  (isAdmin env = true /\
   (exists merchant secret,
      MERCHANT_ID gw = Some merchant /\ merchant <> EmptyString /\
      MERCHANT_KEY gw = Some secret /\ secret <> EmptyString) /\
   findFirst (hasOrderId oid) (orders db) = None /\
   proxyRefund gw env oid db = (db, [], Failed (Core (OrderNotFound oid)))) \/
  (isAdmin env = true /\
   (exists merchant secret,
      MERCHANT_ID gw = Some merchant /\ merchant <> EmptyString /\
      MERCHANT_KEY gw = Some secret /\ secret <> EmptyString) /\
   (exists o, findFirst (hasOrderId oid) (orders db) = Some o /\
              (tradeNo o = None \/ tradeNo o = Some EmptyString)) /\
   proxyRefund gw env oid db = (db, [], Failed MissingTradeNo)) \/
  (exists merchant secret o,
     isAdmin env = true /\
     MERCHANT_ID gw = Some merchant /\ merchant <> EmptyString /\
     MERCHANT_KEY gw = Some secret /\ secret <> EmptyString /\
     findFirst (hasOrderId oid) (orders db) = Some o /\
     Js.truthy (tradeNo o) = true /\
     snd (fst (proxyRefund gw env oid db))
     = [refundRequest merchant secret o]).
Proof.
  destruct (proxy_guard_cases gw env oid db)
    as [G|[G|[G|[G|(merchant & secret & o & A & Em & Hm & Ek & Hk & H & T)]]]];
    auto.
  right. right. right. right. exists merchant, secret, o.
  repeat (split; [assumption|]).
  rewrite (proxy_guards_passed gw env oid db merchant secret o A Em Hm Ek Hk
             H T).
  destruct (fetch gw _) as [resp|]; [|reflexivity].
  destruct (Http.ok resp), (saysSuccess (Http.text resp)); cbn [negb];
    try reflexivity.
  destruct (snd (markOrderRefunded env oid db)); reflexivity.
Qed.

(** X17. What [proxyRefund] sends is what [getRefundParams] answers:
    whenever a request goes out it is the only one, a form-encoded POST
    to the processor's refund address, and its fields are the merchant
    identifier and key, the trade number, the order identifier and the
    two-decimal amount that [getRefundParams] returns for the same
    order. *)
Theorem proxy_request_matches_params (gw : Gateway) (env : Env)
  (oid : string) (db : Db) (req : Http.Request) :
  In req (snd (fst (proxyRefund gw env oid db))) ->
  snd (fst (proxyRefund gw env oid db)) = [req] /\
  exists p merchant secret,
    getRefundParams gw env oid db = Done p /\
    pid p = Some merchant /\ key p = Some secret /\
    out_trade_no p = oid /\
    req = Http.mkRequest "https://credit.linux.do/epay/api.php" "POST"
            "application/x-www-form-urlencoded"
            [("pid", merchant); ("key", secret);
             ("trade_no", trade_no p); ("out_trade_no", oid);
             ("money", money p)].
Proof.
  intros Hin.
  destruct (proxy_guard_cases gw env oid db)
    as [[_ G]|[(_ & _ & G)|[(_ & _ & _ & G)|[(_ & _ & _ & G)|G]]]];
    try (rewrite G in Hin; contradiction).
  destruct G as (merchant & secret & o & A & Em & Hm & Ek & Hk & H & T).
  assert (E : snd (fst (proxyRefund gw env oid db))
              = [refundRequest merchant secret o]).
  { rewrite (proxy_guards_passed gw env oid db merchant secret o A Em Hm Ek
               Hk H T).
    destruct (fetch gw _) as [resp|]; [|reflexivity].
    destruct (Http.ok resp), (saysSuccess (Http.text resp)); cbn [negb];
      try reflexivity.
    destruct (snd (markOrderRefunded env oid db)); reflexivity. }
  rewrite E in *. destruct Hin as [<-|[]]. split; [reflexivity|].
  eexists. exists merchant, secret. split.
  { unfold getRefundParams. rewrite A, H, T. reflexivity. }
  cbn [pid key out_trade_no trade_no money]. unfold refundRequest.
  rewrite Em, Ek, (hasOrderId_found oid _ o H).
  repeat split; reflexivity.
Qed.

Lemma proxy_request_matches_params_witness :
  snd (fst (proxyRefund (Shop.answering (Some Shop.declined)) Sample.admin
              "O" Sample.dbDelivered))
  = [refundRequest "1001" "s3cret" Sample.deliveredO] /\
  exists p merchant secret,
    getRefundParams (Shop.answering (Some Shop.declined)) Sample.admin "O"
      Sample.dbDelivered = Done p /\
    pid p = Some merchant /\ key p = Some secret /\
    out_trade_no p = "O" /\
    refundRequest "1001" "s3cret" Sample.deliveredO
    = Http.mkRequest "https://credit.linux.do/epay/api.php" "POST"
        "application/x-www-form-urlencoded"
        [("pid", merchant); ("key", secret);
         ("trade_no", trade_no p); ("out_trade_no", "O");
         ("money", money p)].
Proof.
  apply (proxy_request_matches_params (Shop.answering (Some Shop.declined))
           Sample.admin "O" Sample.dbDelivered
           (refundRequest "1001" "s3cret" Sample.deliveredO)).
  left. reflexivity.
Defined.

(** X18. A reply that is not a 2xx is a failure, whatever its body says:
    the call fails with the reply's status and the database is left as
    it was, even when the body would count as a success. *)
Theorem proxy_non2xx_is_failure (gw : Gateway) (env : Env) (oid : string)
  (db : Db) (merchant secret : string) (o : Order) (resp : Http.Response) :
  isAdmin env = true ->
  MERCHANT_ID gw = Some merchant -> merchant <> EmptyString ->
  MERCHANT_KEY gw = Some secret -> secret <> EmptyString ->
  findFirst (hasOrderId oid) (orders db) = Some o ->
  Js.truthy (tradeNo o) = true ->
  fetch gw (refundRequest merchant secret o) = Some resp ->
  Http.ok resp = false ->
  proxyRefund gw env oid db
  = (db, [refundRequest merchant secret o],
     Failed (RefundProxyFailed (Http.status resp))).
Proof.
  intros A Em Hm Ek Hk H T F Hok.
  rewrite (proxy_guards_passed gw env oid db merchant secret o A Em Hm Ek Hk
             H T), F, Hok.
  reflexivity.
Qed.

Lemma proxy_non2xx_is_failure_witness :
  saysSuccess (Http.text Shop.serverError) = true /\
  proxyRefund (Shop.answering (Some Shop.serverError)) Sample.admin "O"
    Sample.dbDelivered
  = (Sample.dbDelivered, [refundRequest "1001" "s3cret" Sample.deliveredO],
     Failed (RefundProxyFailed (Http.status Shop.serverError))).
Proof.
  split; [reflexivity|].
  apply (proxy_non2xx_is_failure (Shop.answering (Some Shop.serverError))
           Sample.admin "O" Sample.dbDelivered "1001" "s3cret"
           Sample.deliveredO Shop.serverError).
  - reflexivity.
  - reflexivity.
  - discriminate.
  - reflexivity.
  - discriminate.
  - reflexivity.
  - reflexivity.
  - reflexivity.
  - reflexivity.
Defined.

(** X19. [proxyRefund] writes only through [markOrderRefunded], and only
    on a 2xx reply that counts as a success: in every other case the
    database is as it was.  When it has written, it answers
    [processed: true] with the first 500 characters of the body, the
    database is the one [markOrderRefunded] leaves, and the order is
    refunded. *)
Theorem proxy_refund_effect (gw : Gateway) (env : Env) (oid : string)
  (db : Db) :
  fst (fst (proxyRefund gw env oid db)) = db \/
  exists req resp o,
    fetch gw req = Some resp /\
    Http.ok resp = true /\
    saysSuccess (Http.text resp) = true /\
    findFirst (hasOrderId oid) (orders db) = Some o /\
    proxyRefund gw env oid db
    = (fst (markOrderRefunded env oid db), [req],
       Done (Proxy.mkResult true true
               (String.substring 0 500 (Http.text resp)))) /\
    findFirst (hasOrderId oid)
      (orders (fst (markOrderRefunded env oid db)))
    = Some (mkOrder (orderId o) (productId o) (amount o) refunded
              (tradeNo o) (cardKey o) (userId o) (pointsUsed o) (paidAt o)
              (deliveredAt o)).
Proof.
  destruct (proxy_guard_cases gw env oid db)
    as [[_ G]|[(_ & _ & G)|[(_ & _ & _ & G)|[(_ & _ & _ & G)|G]]]];
    try (left; now rewrite G).
  destruct G as (merchant & secret & o & A & Em & Hm & Ek & Hk & H & T).
  rewrite (proxy_guards_passed gw env oid db merchant secret o A Em Hm Ek Hk
             H T).
  destruct (fetch gw (refundRequest merchant secret o)) as [resp|] eqn:F;
    [|now left].
  destruct (Http.ok resp) eqn:Hok; cbn [negb]; [|now left].
  destruct (saysSuccess (Http.text resp)) eqn:Hs; [|now left].
  destruct (refund_cases env oid db) as [E|(o' & _ & H' & E)].
  - left. destruct (snd (markOrderRefunded env oid db)); [exact E|].
    reflexivity.
  - right. assert (Eo : o' = o) by congruence. subst o'.
    exists (refundRequest merchant secret o), resp, o.
    repeat (split; [assumption || reflexivity|]).
    rewrite E. cbn [fst snd refundedDb orders].
    split; [reflexivity|].
    exact (findFirst_refunded oid (orders db) o H).
Qed.

(** X22. [proxyRefund] can report a refund that did not happen: on a 2xx
    reply that counts as a success, when the credit and the status
    statement run but the card statement or the refund-request statement
    fails, the refund commits nothing and the call still answers
    [processed: true], the database as it was. *)
Theorem proxy_processed_without_refund (gw : Gateway) (env : Env)
  (oid : string) (db : Db) (merchant secret : string) (o : Order)
  (resp : Http.Response) :
  isAdmin env = true ->
  MERCHANT_ID gw = Some merchant -> merchant <> EmptyString ->
  MERCHANT_KEY gw = Some secret -> secret <> EmptyString ->
  findFirst (hasOrderId oid) (orders db) = Some o ->
  tradeNo o <> None -> tradeNo o <> Some EmptyString ->
  fetch gw (refundRequest merchant secret o) = Some resp ->
  Http.ok resp = true ->
  saysSuccess (Http.text resp) = true ->
  fault env PointsCredit = None ->
  fault env OrderRefund = None ->
  creditFits o (loginUsers db) = true ->
  (cardKey o <> None /\ cardKey o <> Some EmptyString /\
   fault env CardReturn <> None) \/
  fault env RequestUpdate <> None ->
  proxyRefund gw env oid db
  = (db, [refundRequest merchant secret o],
     Done (Proxy.mkResult true true
             (String.substring 0 500 (Http.text resp)))).
Proof.
  intros A Em Hm Ek Hk H T1 T2 F Hok Hs F1 F2 Fit Sp.
  assert (T : Js.truthy (tradeNo o) = true).
  { destruct (tradeNo o) as [[|c t0]|]; congruence || reflexivity. }
  assert (S : refundSpoiled env o = true).
  { unfold refundSpoiled. destruct Sp as [(K1 & K2 & Fc)|Fr].
    - destruct (cardKey o) as [[|c k]|]; try congruence.
      destruct (fault env CardReturn); [reflexivity | congruence].
    - destruct (fault env RequestUpdate); [|congruence].
      apply orb_true_r. }
  assert (E : markOrderRefunded env oid db = (db, Ok (mkResponse true None))).
  { rewrite (refund_in_transaction env oid db A).
    rewrite (refundInTx_outcome env oid db o H), S.
    unfold refundError, creditError. rewrite F1, F2, Fit.
    destruct (refundsPoints o); reflexivity. }
  rewrite (proxy_guards_passed gw env oid db merchant secret o A Em Hm Ek Hk
             H T), F, Hok, Hs, E.
  reflexivity.
Qed.

Lemma proxy_processed_without_refund_witness :
  proxyRefund (Shop.answering (Some Shop.accepted)) Sample.adminFaulty "O"
    Sample.dbDelivered
  = (Sample.dbDelivered, [refundRequest "1001" "s3cret" Sample.deliveredO],
     Done (Proxy.mkResult true true
             (String.substring 0 500 (Http.text Shop.accepted)))).
Proof.
  apply (proxy_processed_without_refund (Shop.answering (Some Shop.accepted))
           Sample.adminFaulty "O" Sample.dbDelivered "1001" "s3cret"
           Sample.deliveredO Shop.accepted).
  - reflexivity.
  - reflexivity.
  - discriminate.
  - reflexivity.
  - discriminate.
  - reflexivity.
  - discriminate.
  - discriminate.
  - reflexivity.
  - reflexivity.
  - reflexivity.
  - reflexivity.
  - reflexivity.
  - reflexivity.
  - right. discriminate.
Defined.

Lemma substring_0_length (n : nat) (s : string) :
  (String.length (String.substring 0 n s) <= n)%nat.
Proof.
  revert s. induction n as [|n IH]; intros s.
  - destruct s; simpl; lia.
  - destruct s as [|c s]; simpl; [lia|]. specialize (IH s). lia.
Qed.

(** X20. Every answer of [proxyRefund] comes from a 2xx reply: it has
    [ok: true], its message is the first 500 characters of the reply's
    body, never more, and it says [processed] exactly when the body
    counts as a success; when it says [processed: false] nothing has
    been written. *)
Theorem proxy_answer (gw : Gateway) (env : Env) (oid : string) (db : Db)
  (r : Proxy.Result) :
  snd (proxyRefund gw env oid db) = Done r ->
  Proxy.ok r = true /\
  (String.length (Proxy.message r) <= 500)%nat /\
  exists req resp,
    snd (fst (proxyRefund gw env oid db)) = [req] /\
    fetch gw req = Some resp /\
    Http.ok resp = true /\
    Proxy.message r = String.substring 0 500 (Http.text resp) /\
    Proxy.processed r = saysSuccess (Http.text resp) /\
    (Proxy.processed r = false ->
     fst (fst (proxyRefund gw env oid db)) = db).
Proof.
  destruct (proxy_guard_cases gw env oid db)
    as [[_ G]|[(_ & _ & G)|[(_ & _ & _ & G)|[(_ & _ & _ & G)|G]]]];
    try (rewrite G; discriminate).
  destruct G as (merchant & secret & o & A & Em & Hm & Ek & Hk & H & T).
  rewrite (proxy_guards_passed gw env oid db merchant secret o A Em Hm Ek Hk
             H T).
  destruct (fetch gw (refundRequest merchant secret o)) as [resp|] eqn:F;
    [|discriminate].
  destruct (Http.ok resp) eqn:Hok; cbn [negb]; [|discriminate].
  destruct (saysSuccess (Http.text resp)) eqn:Hs;
    [destruct (snd (markOrderRefunded env oid db)); [|discriminate]|];
    cbn [fst snd];
    intros [= <-]; cbn [Proxy.ok Proxy.message Proxy.processed];
    (split; [reflexivity|]); (split; [apply substring_0_length|]);
    exists (refundRequest merchant secret o), resp;
    repeat (split; [assumption || reflexivity|]);
    (split; [now rewrite Hs|]); [discriminate | reflexivity].
Qed.

Lemma proxy_answer_witness :
  Proxy.ok (Proxy.mkResult true false
              (JsMore.slice0 500 (Http.text Shop.declined))) = true /\
  (String.length
     (Proxy.message (Proxy.mkResult true false
                       (JsMore.slice0 500 (Http.text Shop.declined))))
   <= 500)%nat /\
  exists req resp,
    snd (fst (proxyRefund (Shop.answering (Some Shop.declined)) Sample.admin
                "O" Sample.dbDelivered)) = [req] /\
    fetch (Shop.answering (Some Shop.declined)) req = Some resp /\
    Http.ok resp = true /\
    Proxy.message (Proxy.mkResult true false
                     (JsMore.slice0 500 (Http.text Shop.declined)))
    = String.substring 0 500 (Http.text resp) /\
    Proxy.processed (Proxy.mkResult true false
                       (JsMore.slice0 500 (Http.text Shop.declined)))
    = saysSuccess (Http.text resp) /\
    (Proxy.processed (Proxy.mkResult true false
                        (JsMore.slice0 500 (Http.text Shop.declined)))
     = false ->
     fst (fst (proxyRefund (Shop.answering (Some Shop.declined)) Sample.admin
                 "O" Sample.dbDelivered)) = Sample.dbDelivered).
Proof.
  apply (proxy_answer (Shop.answering (Some Shop.declined)) Sample.admin "O"
           Sample.dbDelivered).
  reflexivity.
Defined.

Example proxy_accepted_sample :
  proxyRefund (Shop.answering (Some Shop.accepted)) Sample.admin "O"
    Sample.dbDelivered
  = (fst (markOrderRefunded Sample.admin "O" Sample.dbDelivered),
     [refundRequest "1001" "s3cret" Sample.deliveredO],
     Done (Proxy.mkResult true true (Http.text Shop.accepted))).
Proof. reflexivity. Qed.

(* ------------------------------------------------------------------ *)
(** * The amount sent to the processor *)

Lemma allDigits_app (a b : string) :
  allDigits (a ++ b)%string = allDigits a && allDigits b.
Proof.
  induction a as [|c a IH]; simpl; [reflexivity|].
  destruct (Js.digitOf c); [exact IH | reflexivity].
Qed.

Lemma allDigits_zeros (n : nat) : allDigits (JsMore.zeros n) = true.
Proof. induction n; simpl; auto. Qed.

Lemma length_zeros (n : nat) : String.length (JsMore.zeros n) = n.
Proof. induction n; simpl; auto. Qed.

Lemma length_append (a b : string) :
  String.length (a ++ b)%string = (String.length a + String.length b)%nat.
Proof. induction a; simpl; auto. Qed.

Lemma allDigits_uint (d : Decimal.uint) :
  allDigits (DecimalString.NilEmpty.string_of_uint d) = true.
Proof. induction d; simpl; auto. Qed.

Lemma digits_shape (n : Z) :
  allDigits (JsMore.digits n) = true /\
  (1 <= String.length (JsMore.digits n))%nat.
Proof.
  unfold JsMore.digits, DecimalString.NilZero.string_of_uint.
  destruct (N.to_uint (Z.to_N n)) as [|d|d|d|d|d|d|d|d|d|d] eqn:E;
    try (split; [reflexivity | simpl; lia]);
    (split; [apply allDigits_uint | simpl; lia]).
Qed.

Lemma substring_shape (s : string) :
  forall n m,
    allDigits s = true ->
    allDigits (String.substring n m s) = true /\
    ((n + m <= String.length s)%nat ->
     String.length (String.substring n m s) = m).
Proof.
  induction s as [|c s IH]; intros n m D.
  - destruct n, m; simpl; split; auto; lia.
  - simpl in D. destruct (Js.digitOf c) eqn:Ec; [|discriminate].
    destruct n as [|n].
    + destruct m as [|m]; simpl; [split; auto|].
      rewrite Ec. destruct (IH 0%nat m D) as [H1 H2].
      split; [exact H1|]. intros L. rewrite H2; lia.
    + simpl. destruct (IH n m D) as [H1 H2].
      split; [exact H1|]. intros L. apply H2. lia.
Qed.

Lemma formatFixed_two (n : Z) : twoDecimals (JsMore.formatFixed n 2).
Proof.
  unfold JsMore.formatFixed.
  destruct (digits_shape n) as [D L].
  set (m := JsMore.digits n) in *.
  set (m' := (JsMore.zeros (3 - String.length m) ++ m)%string).
  assert (D' : allDigits m' = true).
  { unfold m'. now rewrite allDigits_app, allDigits_zeros, D. }
  assert (L' : (3 <= String.length m')%nat).
  { unfold m'. rewrite length_append, length_zeros. lia. }
  exists (String.substring 0 (String.length m' - 2) m'),
         (String.substring (String.length m' - 2) 2 m').
  destruct (substring_shape m' 0 (String.length m' - 2) D') as [A1 A2].
  destruct (substring_shape m' (String.length m' - 2) 2 D') as [B1 B2].
  split; [reflexivity|].
  split.
  { intros E. specialize (A2 ltac:(lia)). rewrite E in A2. simpl in A2.
    lia. }
  repeat split; auto. apply B2. lia.
Qed.

(** X21. The amount that goes to the processor has exactly two
    decimals: for every order whose amount reads as a finite number of
    magnitude below [10^21], [Number(amount).toFixed(2)] is a run of
    digits, a point and two digits, with at most a minus sign in
    front. *)
Theorem money_has_two_decimals (o : Order) :
  belowE21 (JsMore.Number (amount o)) ->
  twoDecimals (moneyOf o) \/
  exists body, moneyOf o = String "-" body /\ twoDecimals body.
Proof.
  unfold belowE21, moneyOf, JsMore.toFixed.
  destruct (Prim2SF (JsMore.Number (amount o))) as [s|s| |s m e];
    try contradiction.
  - intros _. left. apply formatFixed_two.
  - intros B.
    assert (E : (0 <=? e) && (10 ^ 21 <=? Z.pos m * 2 ^ e) = false).
    { destruct (0 <=? e) eqn:He; [|reflexivity].
      apply Z.leb_le in He. apply Z.leb_gt. now apply B. }
    rewrite E. destruct s.
    + right. eexists. split; [reflexivity|]. apply formatFixed_two.
    + left. apply formatFixed_two.
Qed.

Lemma money_has_two_decimals_witness :
  twoDecimals (moneyOf Sample.orderO) \/
  exists body, moneyOf Sample.orderO = String "-" body /\ twoDecimals body.
Proof.
  apply (money_has_two_decimals Sample.orderO).
  unfold belowE21. vm_compute. intros _. reflexivity.
Defined.
